(** * daily-report-2.0: signal resolution, candidate ranking, staged
      synthesis and previous-content lookup

    A shallow embedding of the core of the repository:
    - [src/collectors/entity_matcher.py]
        (Modules [EntityMatcher] and [RawCatalog])
    - [src/analyzers/pre_market_v3.py]     (Module [PreMarketV3])
    - [src/analyzers/pre_market_analyzer.py] (Module [PreMarketAnalyzer])
    - [src/outputs/notion.py]
        (Modules [NotionOutput] and [NotionBlocks])
    - [src/main.py]                        (Module [Main])
    - [src/collectors/universe.py]         (Module [UniverseCollector])
    - [src/collectors/news.py]             (Module [NewsCollector])

    Python [str] values are lists of Unicode code points, Python [dict]s
    are insertion-ordered association lists, Python [set]s are [gset]s,
    Python [float]s are binary64 primitive floats, and a Python exception
    that escapes a function is the [Raise] result of a small error monad. *)

From Stdlib Require Import ZArith NArith List String Ascii Bool Lia.
From Stdlib Require Import PrimFloat FloatOps FloatAxioms SpecFloat.
From Stdlib Require Import DecimalString.
From stdpp Require Import base decidable option list sorting gmap sets.
From Equations Require Import Equations.

Import ListNotations.
Local Open Scope nat_scope.

(** ** Python strings *)

Abbreviation pystr := (list N).

Module PyStr.

(** Decoding of the UTF-8 bytes of a source literal into code points. *)
Fixpoint utf8_decode (bs : list N) (fuel : nat) : list N :=
  match fuel with
  | O => []
  | S fuel' =>
    match bs with
    | [] => []
    | b0 :: r0 =>
      if (b0 <? 128)%N then b0 :: utf8_decode r0 fuel'
      else if (b0 <? 224)%N then
        match r0 with
        | b1 :: r1 =>
          ((b0 - 192) * 64 + (b1 - 128))%N :: utf8_decode r1 fuel'
        | _ => [b0]
        end
      else if (b0 <? 240)%N then
        match r0 with
        | b1 :: b2 :: r2 =>
          ((b0 - 224) * 4096 + (b1 - 128) * 64 + (b2 - 128))%N
            :: utf8_decode r2 fuel'
        | _ => [b0]
        end
      else
        match r0 with
        | b1 :: b2 :: b3 :: r3 =>
          ((b0 - 240) * 262144 + (b1 - 128) * 4096
           + (b2 - 128) * 64 + (b3 - 128))%N :: utf8_decode r3 fuel'
        | _ => [b0]
        end
    end
  end.

Fixpoint bytes_of_string (s : string) : list N :=
  match s with
  | EmptyString => []
  | String a s' => N_of_ascii a :: bytes_of_string s'
  end.

(** [u "..."] is the Python string written by the literal. *)
Definition u (s : string) : pystr :=
  utf8_decode (bytes_of_string s) (String.length s).

Definition cp (a : ascii) : N := N_of_ascii a.

Arguments u : simpl never.

(** [bool(s)] for a string: non-empty. *)
Definition truthy (s : pystr) : bool :=
  match s with [] => false | _ => true end.

(** [str.isspace] on one code point, which is also the [\s] class of
    [re] on [str] patterns. *)
Definition is_space (c : N) : bool :=
  ((9 <=? c) && (c <=? 13) || (28 <=? c) && (c <=? 32)
   || (c =? 133) || (c =? 160) || (c =? 5760)
   || (8192 <=? c) && (c <=? 8202) || (c =? 8232) || (c =? 8233)
   || (c =? 8239) || (c =? 8287) || (c =? 12288))%N.

(** ASCII instances of the Unicode tables of the runtime; code points
    outside ASCII are caseless, and the CJK Unified Ideographs are the
    only word characters outside ASCII. *)
Definition ascii_lower_cp (c : N) : N :=
  if ((65 <=? c) && (c <=? 90))%N then (c + 32)%N else c.
Definition ascii_upper_cp (c : N) : N :=
  if ((97 <=? c) && (c <=? 122))%N then (c - 32)%N else c.
Definition ascii_lower (s : pystr) : pystr := map ascii_lower_cp s.
Definition ascii_upper (s : pystr) : pystr := map ascii_upper_cp s.
Definition ascii_ci_eq (a b : N) : bool :=
  (ascii_lower_cp a =? ascii_lower_cp b)%N.
Definition is_cjk (c : N) : bool := ((19968 <=? c) && (c <=? 40959))%N.
Definition ascii_cjk_word (c : N) : bool :=
  ((48 <=? c) && (c <=? 57) || (65 <=? c) && (c <=? 90)
   || (97 <=? c) && (c <=? 122) || (c =? 95))%N || is_cjk c.

(** [str.strip()] *)
Fixpoint lstrip (s : pystr) : pystr :=
  match s with
  | c :: s' => if is_space c then lstrip s' else s
  | [] => []
  end.
Definition rstrip (s : pystr) : pystr := rev (lstrip (rev s)).
Definition strip (s : pystr) : pystr := rstrip (lstrip s).

(** [s.startswith(p)] *)
Fixpoint starts_with (p s : pystr) : bool :=
  match p, s with
  | [], _ => true
  | a :: p', b :: s' => (a =? b)%N && starts_with p' s'
  | _ :: _, [] => false
  end.

(** [s.find(p)]: the index of the first occurrence, if any. *)
Fixpoint find_from (p s : pystr) (pos : nat) : option nat :=
  if starts_with p s then Some pos
  else match s with
       | [] => None
       | _ :: s' => find_from p s' (S pos)
       end.
Definition find (p s : pystr) : option nat := find_from p s 0.

(** [p in s] *)
Definition contains (p s : pystr) : bool :=
  match find p s with Some _ => true | None => false end.

End PyStr.

(** ** Pieces of [re] patterns over [str] *)

Module PyRe.
Section Tables.
(** Equality of two characters under [re.IGNORECASE], and the word
    characters [\w], from the Unicode tables of the runtime. *)
Variable ci_eq : N -> N -> bool.
Variable is_word : N -> bool.

(** The literal matches a prefix of [s] under [re.IGNORECASE]. *)
Fixpoint ci_prefix (lit s : pystr) : bool :=
  match lit, s with
  | [], _ => true
  | a :: lit', b :: s' => ci_eq a b && ci_prefix lit' s'
  | _ :: _, [] => false
  end.

Definition word_at (o : option N) : bool :=
  match o with Some c => is_word c | None => false end.

(** [\b] between the character before and the character after. *)
Definition boundary (before after : option N) : bool :=
  xorb (word_at before) (word_at after).
End Tables.

(** The last character of the matched slice, or the one before the
    match when the slice is empty. *)
Definition last_before (prev : option N) (slice : pystr) : option N :=
  match last slice with Some c => Some c | None => prev end.

(** [$] without [re.MULTILINE]: the end of the text, or just before
    a newline that ends it. *)
Definition at_dollar (after : pystr) : bool :=
  match after with
  | [] => true
  | [c] => (c =? 10)%N
  | _ => false
  end.
End PyRe.

(** ** Python dictionaries: insertion-ordered, one entry per key *)

Module PyDict.
Section Dict.
Context {V : Type}.

Fixpoint get (d : list (pystr * V)) (k : pystr) : option V :=
  match d with
  | [] => None
  | (k', v) :: d' => if decide (k' = k) then Some v else get d' k
  end.

(** [d[k] = v]: an existing key keeps its position. *)
Fixpoint setitem (d : list (pystr * V)) (k : pystr) (v : V)
  : list (pystr * V) :=
  match d with
  | [] => [(k, v)]
  | (k', v') :: d' =>
    if decide (k' = k) then (k', v) :: d' else (k', v') :: setitem d' k v
  end.

Definition keys (d : list (pystr * V)) : list pystr := map fst d.

(** [k in d] *)
Definition mem (d : list (pystr * V)) (k : pystr) : bool :=
  match get d k with Some _ => true | None => false end.
End Dict.
End PyDict.

(** ** Exceptions *)

(** An exception: its class name and [str(e)]. *)
Record pyexc := Exc { exc_class : string; exc_str : pystr }.

Inductive result (A : Type) : Type :=
| Ok (a : A)
| Raise (e : pyexc).
Arguments Ok {A} a.
Arguments Raise {A} e.

Definition rbind {A B} (r : result A) (k : A -> result B) : result B :=
  match r with
  | Ok a => k a
  | Raise e => Raise e
  end.

Notation "x <-- r ;; k" := (rbind r (fun x => k))
  (at level 100, r at next level, right associativity).

(** A [for] loop whose body may raise. *)
Fixpoint for_each {A S} (body : S -> A -> result S) (xs : list A) (s : S)
  : result S :=
  match xs with
  | [] => Ok s
  | x :: xs' => s' <-- body s x ;; for_each body xs' s'
  end.

(** [KeyError('name')]; its [str] is the repr of the key. *)
Definition KeyError (k : string) : pyexc :=
  Exc "KeyError" (PyStr.u ("'" ++ k ++ "'")%string).

(** [d[k]] on a mapping loaded from YAML in which [k] may be absent. *)
Definition getitem {A} (k : string) (o : option A) : result A :=
  match o with
  | Some a => Ok a
  | None => Raise (KeyError k)
  end.

(** [d.get(k, dflt)] *)
Definition get_or {A} (o : option A) (dflt : A) : A :=
  match o with
  | Some a => a
  | None => dflt
  end.

(** * [src/collectors/entity_matcher.py] *)

Module EntityMatcher.

(** ** The catalog: what [yaml.safe_load] returns for entities.yaml
    when every key that is present has a value of the expected type
    (a mapping, a sequence or a string). A key that may be absent
    from a mapping is an [option]. The documents with a null or with
    a value of another type, on which [_load_entities] raises a
    [TypeError] or an [AttributeError], are those of [RawCatalog]. *)

Record company := {
  co_name : option pystr;
  co_ticker : option pystr;
  co_aliases : option (list pystr) }.

Record categories := {
  listed : option (list company);
  unlisted : option (list company) }.

Record person := {
  pe_name : option pystr;
  pe_entities : option (list pystr);
  pe_aliases : option (list pystr) }.

Record institution := {
  in_name : option pystr;
  in_aliases : option (list pystr) }.

Record catalog := {
  entities : option (list (pystr * categories));
  key_people : option (list person);
  institutions : option (list institution) }.

(** ** The lookup tables *)

Record ticker_info := { ti_name : pystr; ti_industry : pystr }.

(** The three shapes of the values of [entity_to_info]; only a company
    has an ["industry"] key. *)
Inductive entity_info :=
| CompanyInfo (industry : pystr) (ticker : option pystr) (is_listed : bool)
| PersonInfo (related_entities : list pystr)
| InstitutionInfo.

Record tables := {
  ticker_to_info : list (pystr * ticker_info);
  entity_to_info : list (pystr * entity_info);
  alias_to_entity : list (pystr * pystr);
  alias_to_ticker : list (pystr * pystr);
  industries : gset pystr }.

Definition empty_tables : tables :=
  {| ticker_to_info := []; entity_to_info := []; alias_to_entity := [];
     alias_to_ticker := []; industries := ∅ |}.

Definition set_ticker_info (tb : tables) (k : pystr) (v : ticker_info) :=
  {| ticker_to_info := PyDict.setitem (ticker_to_info tb) k v;
     entity_to_info := entity_to_info tb;
     alias_to_entity := alias_to_entity tb;
     alias_to_ticker := alias_to_ticker tb;
     industries := industries tb |}.

Definition set_entity_info (tb : tables) (k : pystr) (v : entity_info) :=
  {| ticker_to_info := ticker_to_info tb;
     entity_to_info := PyDict.setitem (entity_to_info tb) k v;
     alias_to_entity := alias_to_entity tb;
     alias_to_ticker := alias_to_ticker tb;
     industries := industries tb |}.

Definition set_alias_entity (tb : tables) (k v : pystr) :=
  {| ticker_to_info := ticker_to_info tb;
     entity_to_info := entity_to_info tb;
     alias_to_entity := PyDict.setitem (alias_to_entity tb) k v;
     alias_to_ticker := alias_to_ticker tb;
     industries := industries tb |}.

Definition set_alias_ticker (tb : tables) (k v : pystr) :=
  {| ticker_to_info := ticker_to_info tb;
     entity_to_info := entity_to_info tb;
     alias_to_entity := alias_to_entity tb;
     alias_to_ticker := PyDict.setitem (alias_to_ticker tb) k v;
     industries := industries tb |}.

Definition add_industry (tb : tables) (i : pystr) :=
  {| ticker_to_info := ticker_to_info tb;
     entity_to_info := entity_to_info tb;
     alias_to_entity := alias_to_entity tb;
     alias_to_ticker := alias_to_ticker tb;
     industries := industries tb ∪ {[ i ]} |}.

(** One alternative of the compiled entity pattern: the literal an
    escaped alias denotes, and whether it is wrapped in [\b ... \b]. *)
Record alt := { alt_lit : pystr; alt_anchored : bool }.

Record matcher := {
  tbl : tables;
  entity_pattern : option (list alt);
  ticker_pattern : option (list pystr) }.

(** The result of [find_matches]; the three lists are made from sets,
    so their order is not determined and they are sets here. *)
Record matches := {
  m_tickers : gset pystr;
  m_entities : gset pystr;
  m_industries : gset pystr }.

Definition no_matches : matches :=
  {| m_tickers := ∅; m_entities := ∅; m_industries := ∅ |}.

(** Every company, person and institution of the catalog has its
    ["name"] key. *)
Definition has_name (o : option pystr) : bool :=
  match o with Some _ => true | None => false end.

Definition categories_named (ic : pystr * categories) : bool :=
  forallb (fun c => has_name (co_name c)) (get_or (listed (snd ic)) [])
  && forallb (fun c => has_name (co_name c)) (get_or (unlisted (snd ic)) []).

Definition catalog_named (data : catalog) : bool :=
  forallb categories_named (get_or (entities data) [])
  && forallb (fun p => has_name (pe_name p)) (get_or (key_people data) [])
  && forallb (fun i => has_name (in_name i)) (get_or (institutions data) []).

(** [sorted(keys, key=len, reverse=True)]: stable, longest first. *)
Fixpoint insert_by_len (x : pystr) (l : list pystr) : list pystr :=
  match l with
  | [] => [x]
  | y :: l' =>
    if length x <? length y then y :: insert_by_len x l' else x :: l
  end.

Definition sorted_by_len_desc (l : list pystr) : list pystr :=
  foldr insert_by_len [] l.

(** Longest first. *)
Definition longest_first : list pystr -> Prop :=
  StronglySorted (fun a b : pystr => length b <= length a).


(** The aliases that reach the compiled pattern. *)
Definition pattern_aliases (tb : tables) : list pystr :=
  filter (fun a : pystr => 2 <=? length a)
         (sorted_by_len_desc (PyDict.keys (alias_to_entity tb))).


(** The character before offset [k] of [rest], which [prev] precedes. *)
Definition prev_at (prev : option N) (rest : pystr) (k : nat) : option N :=
  match k with
  | O => prev
  | S k' => rest !! k'
  end.


Section Unicode.
(** The Unicode tables of the Python runtime: [str.lower],
    [str.upper], equality of two characters under [re.IGNORECASE],
    and the word characters [\w]. *)
Variable lower upper : pystr -> pystr.
Variable ci_eq : N -> N -> bool.
Variable is_word : N -> bool.

(** *** [_load_entities] *)

Definition index_alias_listed (name ticker : pystr)
           (tb : tables) (alias : pystr) : tables :=
  let tb := set_alias_entity tb (lower alias) name in
  if PyStr.truthy ticker then set_alias_ticker tb (lower alias) ticker
  else tb.

Definition load_listed (industry : pystr) (tb : tables) (c : company)
  : result tables :=
  name <-- getitem "name" (co_name c) ;;
  let ticker := get_or (co_ticker c) [] in
  let aliases := get_or (co_aliases c) [] in
  let tb :=
    if PyStr.truthy ticker then
      let tb := set_ticker_info tb ticker
                  {| ti_name := name; ti_industry := industry |} in
      let tb := set_alias_ticker tb (lower name) ticker in
      set_alias_ticker tb (lower ticker) ticker
    else tb in
  let tb := set_entity_info tb name
              (CompanyInfo industry (Some ticker) true) in
  Ok (fold_left (index_alias_listed name ticker) aliases tb).

Definition index_alias (name : pystr) (tb : tables) (alias : pystr)
  : tables :=
  set_alias_entity tb (lower alias) name.

Definition load_unlisted (industry : pystr) (tb : tables) (c : company)
  : result tables :=
  name <-- getitem "name" (co_name c) ;;
  let aliases := get_or (co_aliases c) [] in
  let tb := set_entity_info tb name (CompanyInfo industry None false) in
  let tb := set_alias_entity tb (lower name) name in
  Ok (fold_left (index_alias name) aliases tb).

Definition load_industry (tb : tables) (ic : pystr * categories)
  : result tables :=
  let '(industry, cats) := ic in
  let tb := add_industry tb industry in
  tb <-- for_each (load_listed industry) (get_or (listed cats) []) tb ;;
  for_each (load_unlisted industry) (get_or (unlisted cats) []) tb.

Definition load_person (tb : tables) (p : person) : result tables :=
  name <-- getitem "name" (pe_name p) ;;
  let ents := get_or (pe_entities p) [] in
  let aliases := get_or (pe_aliases p) [] in
  let tb := set_alias_entity tb (lower name) name in
  let tb := fold_left (index_alias name) aliases tb in
  Ok (set_entity_info tb name (PersonInfo ents)).

Definition load_institution (tb : tables) (i : institution)
  : result tables :=
  name <-- getitem "name" (in_name i) ;;
  let aliases := get_or (in_aliases i) [] in
  let tb := set_entity_info tb name InstitutionInfo in
  let tb := set_alias_entity tb (lower name) name in
  Ok (fold_left (index_alias name) aliases tb).

Definition load_tables (data : catalog) : result tables :=
  tb <-- for_each load_industry (get_or (entities data) [])
                  empty_tables ;;
  tb <-- for_each load_person (get_or (key_people data) []) tb ;;
  for_each load_institution (get_or (institutions data) []) tb.

(** *** [_build_patterns] *)

Definition alt_of_alias (alias : pystr) : alt :=
  {| alt_lit := alias;
     alt_anchored := negb (existsb PyStr.is_cjk alias) |}.

Definition entity_alts (tb : tables) : list alt :=
  let all_aliases :=
    sorted_by_len_desc (PyDict.keys (alias_to_entity tb)) in
  let escaped := filter (fun a => 2 <=? length a) all_aliases in
  map alt_of_alias escaped.

Definition _build_patterns (tb : tables) : matcher :=
  let patterns := entity_alts tb in
  let ticker_list :=
    sorted_by_len_desc (PyDict.keys (ticker_to_info tb)) in
  {| tbl := tb;
     entity_pattern :=
       match patterns with [] => None | _ => Some patterns end;
     ticker_pattern :=
       match ticker_list with [] => None | _ => Some ticker_list end |}.

Definition _load_entities (data : catalog) : result matcher :=
  tb <-- load_tables data ;;
  Ok (_build_patterns tb).

(** *** The compiled patterns, run by [finditer] *)

Local Abbreviation boundary := (PyRe.boundary is_word).
Local Abbreviation ci_prefix := (PyRe.ci_prefix ci_eq).

(** One alternative at the current position: [prev] is the character
    before it and [rest] the text from it. *)
Definition alt_match (a : alt) (prev : option N) (rest : pystr) : bool :=
  let n := length (alt_lit a) in
  ci_prefix (alt_lit a) rest
  && (if alt_anchored a then
        boundary prev (head rest)
        && boundary (PyRe.last_before prev (take n rest)) (head (drop n rest))
      else true).

(** The alternation is ordered: the first alternative that matches
    at the position is the match; [group(0)] is the slice of text. *)
Fixpoint first_match (alts : list alt) (prev : option N) (rest : pystr)
  : option pystr :=
  match alts with
  | [] => None
  | a :: alts' =>
    if alt_match a prev rest then Some (take (length (alt_lit a)) rest)
    else first_match alts' prev rest
  end.

(** [entity_pattern.finditer(text)]: leftmost, non-overlapping.
    [skip] counts the characters of the last match still to pass over,
    [pos] is the index of the head of [rest]. Every alternative has
    at least two characters, so there is no match at the end of the
    text and no empty match. *)
Fixpoint scan_entity (alts : list alt) (prev : option N) (rest : pystr)
         (skip pos : nat) : list (nat * pystr) :=
  match rest with
  | [] => []
  | c :: rest' =>
    match skip with
    | S k => scan_entity alts (Some c) rest' k (S pos)
    | O =>
      match first_match alts prev rest with
      | Some m =>
        (pos, m) :: scan_entity alts (Some c) rest' (length m - 1) (S pos)
      | None => scan_entity alts (Some c) rest' 0 (S pos)
      end
    end
  end.

Definition finditer_entity (alts : list alt) (text : pystr)
  : list (nat * pystr) :=
  scan_entity alts None text 0 0.

(** [[\s\$\(\|]] and [[\s\)\|\:\,\.]] *)
Definition lead_class (c : N) : bool :=
  PyStr.is_space c || (c =? 36)%N || (c =? 40)%N || (c =? 124)%N.
Definition trail_class (c : N) : bool :=
  PyStr.is_space c || (c =? 41)%N || (c =? 124)%N || (c =? 58)%N
  || (c =? 44)%N || (c =? 46)%N.

(** [(?:[\s\)\|\:\,\.]|$)]: the number of characters consumed. *)
Definition trailer (after : pystr) : option nat :=
  match after with
  | c :: _ =>
    if trail_class c then Some 1
    else if PyRe.at_dollar after then Some 0 else None
  | [] => Some 0
  end.

(** [(T1|T2|...)] followed by the trailer: [group(1)] and the number
    of characters consumed from [rest]. *)
Fixpoint ticker_alts (tickers : list pystr) (rest : pystr)
  : option (pystr * nat) :=
  match tickers with
  | [] => None
  | t :: tickers' =>
    let n := length t in
    match (if ci_prefix t rest then trailer (drop n rest) else None) with
    | Some k => Some (take n rest, n + k)
    | None => ticker_alts tickers' rest
    end
  end.

(** The whole ticker pattern at a position; [bol] says that the
    position is the start of the text, where [^] matches. *)
Definition ticker_match (tickers : list pystr) (bol : bool)
           (rest : pystr) : option (pystr * nat) :=
  match (if bol then ticker_alts tickers rest else None) with
  | Some r => Some r
  | None =>
    match rest with
    | c :: rest' =>
      if lead_class c then
        match ticker_alts tickers rest' with
        | Some (g, n) => Some (g, S n)
        | None => None
        end
      else None
    | [] => None
    end
  end.

(** [ticker_pattern.finditer(text)], yielding [group(1)] of each
    match. A ticker in the pattern is not empty, so there is no match
    at the end of the text. *)
Fixpoint scan_ticker (tickers : list pystr) (bol : bool) (rest : pystr)
         (skip : nat) : list pystr :=
  match rest with
  | [] => []
  | _ :: rest' =>
    match skip with
    | S k => scan_ticker tickers false rest' k
    | O =>
      match ticker_match tickers bol rest with
      | Some (g, n) => g :: scan_ticker tickers false rest' (n - 1)
      | None => scan_ticker tickers false rest' 0
      end
    end
  end.

Definition finditer_ticker (tickers : list pystr) (text : pystr)
  : list pystr :=
  scan_ticker tickers true text 0.

(** *** [find_matches] *)

Definition add_ticker (r : matches) (t : pystr) : matches :=
  {| m_tickers := m_tickers r ∪ {[ t ]};
     m_entities := m_entities r; m_industries := m_industries r |}.
Definition add_entity (r : matches) (e : pystr) : matches :=
  {| m_tickers := m_tickers r;
     m_entities := m_entities r ∪ {[ e ]};
     m_industries := m_industries r |}.
Definition add_match_industry (r : matches) (i : pystr) : matches :=
  {| m_tickers := m_tickers r; m_entities := m_entities r;
     m_industries := m_industries r ∪ {[ i ]} |}.

(** The body of the loop over the ticker matches. *)
Definition ticker_step (tb : tables) (r : matches) (group1 : pystr)
  : matches :=
  let ticker := upper group1 in
  match PyDict.get (ticker_to_info tb) ticker with
  | Some info =>
    add_match_industry
      (add_entity (add_ticker r ticker) (ti_name info))
      (ti_industry info)
  | None => r
  end.

(** The body of the loop over the alias matches. *)
Definition entity_step (tb : tables) (r : matches) (m : nat * pystr)
  : matches :=
  let matched_text := lower (snd m) in
  match PyDict.get (alias_to_entity tb) matched_text with
  | Some entity_name =>
    let r := add_entity r entity_name in
    let r :=
      match PyDict.get (alias_to_ticker tb) matched_text with
      | Some t => add_ticker r t
      | None => r
      end in
    match PyDict.get (entity_to_info tb) entity_name with
    | Some (CompanyInfo industry _ _) => add_match_industry r industry
    | _ => r
    end
  | None => r
  end.

Definition ticker_hits (mt : matcher) (text : pystr) : list pystr :=
  match ticker_pattern mt with
  | Some tickers => finditer_ticker tickers text
  | None => []
  end.

Definition alias_hits (mt : matcher) (text : pystr)
  : list (nat * pystr) :=
  match entity_pattern mt with
  | Some alts => finditer_entity alts (lower text)
  | None => []
  end.

(** What the loop over the ticker matches leaves for the loop over
    the alias matches. *)
Definition ticker_path (mt : matcher) (text : pystr) : matches :=
  fold_left (ticker_step (tbl mt)) (ticker_hits mt text) no_matches.

(** The character before position [p] of a text. *)
Definition char_before (text : pystr) (p : nat) : option N :=
  match p with
  | O => None
  | S p' => text !! p'
  end.

(** The alternative that [_build_patterns] makes of an alias matches
    the lowercased text at position [p]. *)
Definition alias_occurs_at (alias text : pystr) (p : nat) : bool :=
  alt_match (alt_of_alias alias) (char_before (lower text) p)
            (drop p (lower text)).

Definition find_matches (mt : matcher) (text : pystr) : matches :=
  if negb (PyStr.truthy text) then no_matches
  else
    let r := ticker_path mt text in
    fold_left (entity_step (tbl mt)) (alias_hits mt text) r.
End Unicode.

(** The matcher over the ASCII tables. *)
Definition load_ascii : catalog -> result matcher :=
  _load_entities PyStr.ascii_lower.
Definition find_ascii : matcher -> pystr -> matches :=
  find_matches PyStr.ascii_lower PyStr.ascii_upper PyStr.ascii_ci_eq
               PyStr.ascii_cjk_word.
Definition alias_hits_ascii : matcher -> pystr -> list (nat * pystr) :=
  alias_hits PyStr.ascii_lower PyStr.ascii_ci_eq PyStr.ascii_cjk_word.
End EntityMatcher.


(** ** Python floats *)

Module PyFloat.

(** [bool(x)]: a float is falsy exactly when it is zero. *)
Definition truthy (x : float) : bool := negb (PrimFloat.eqb x 0%float).

(** [bool(o)] for an [Optional[float]]. *)
Definition truthy_opt (o : option float) : bool :=
  match o with Some x => truthy x | None => false end.

Definition ge (x y : float) : bool := PrimFloat.leb y x.
Definition le (x y : float) : bool := PrimFloat.leb x y.
Definition lt (x y : float) : bool := PrimFloat.ltb x y.
Definition gt (x y : float) : bool := PrimFloat.ltb y x.

(** Rounding of [num / den] to the nearest integer, ties to even,
    for [0 <= num] and [0 < den]. *)
Definition div_half_even (num den : Z) : Z :=
  let q := (num / den)%Z in
  let r := (num mod den)%Z in
  if (den <? 2 * r)%Z then (q + 1)%Z
  else if (2 * r =? den)%Z then (if Z.even q then q else (q + 1)%Z)
  else q.

(** The integer nearest to [m * 2^e * 10^digits], ties to even. *)
Definition scaled_half_even (m : positive) (e : Z) (digits : nat) : Z :=
  let num := (Z.pos m * 10 ^ Z.of_nat digits)%Z in
  if (0 <=? e)%Z then (num * 2 ^ e)%Z
  else div_half_even num (2 ^ (- e))%Z.

Definition digits_of (z : Z) : pystr :=
  PyStr.u (NilZero.string_of_uint (N.to_uint (Z.to_N z))).

Fixpoint zeros (n : nat) : pystr :=
  match n with O => [] | S n' => 48%N :: zeros n' end.

(** The decimal digits of [k / 10^digits] with exactly [digits]
    digits after the point. *)
Definition fixed_digits (k : Z) (digits : nat) : pystr :=
  let p := (10 ^ Z.of_nat digits)%Z in
  let ip := digits_of (k / p)%Z in
  match digits with
  | O => ip
  | _ =>
    let fp := digits_of (k mod p)%Z in
    ip ++ [46%N] ++ zeros (digits - length fp) ++ fp
  end.

Definition sign_str (plus neg : bool) : pystr :=
  if neg then [45%N] else if plus then [43%N] else [].

(** [format(x, '.{digits}f')], and with [plus] [format(x, '+.{digits}f')]. *)
Definition format_f (plus : bool) (digits : nat) (x : float) : pystr :=
  match Prim2SF x with
  | S754_nan => sign_str plus false ++ PyStr.u "nan"
  | S754_infinity s => sign_str plus s ++ PyStr.u "inf"
  | S754_zero s => sign_str plus s ++ fixed_digits 0 digits
  | S754_finite s m e =>
    sign_str plus s ++ fixed_digits (scaled_half_even m e digits) digits
  end.

Definition of_Z (z : Z) : float :=
  SF2Prim (binary_normalize prec emax z 0 false).

(** [round(x, ndigits)] for [0 <= ndigits <= 22]: the float nearest to
    the decimal that is nearest to [x]. Beyond [2^53] scaled units the
    float is its own rounding. *)
Definition round (x : float) (ndigits : nat) : float :=
  match Prim2SF x with
  | S754_finite s m e =>
    let k := scaled_half_even m e ndigits in
    if (k <? 2 ^ 53)%Z then
      let q := PrimFloat.div (of_Z k) (of_Z (10 ^ Z.of_nat ndigits)) in
      if s then PrimFloat.opp q else q
    else x
  | _ => x
  end.

End PyFloat.


(** * [src/analyzers/pre_market_v3.py] *)

Module PreMarketV3.

(** [StockData] of [src/collectors/stocks.py], with the fields the
    ranking reads. A level that [float(level)] rejects is [None]. *)
Module StockData.
Record t := {
  symbol : pystr;
  name : pystr;
  current_price : float;
  change_percent : float;
  volume_ratio : float;
  support_levels : list (option float);
  resistance_levels : list (option float);
  sma_20 : option float;
  sma_50 : option float;
  sma_200 : option float;
  rsi_14 : option float;
  change_1w : option float;
  change_1m : option float }.

(** The [trend] property. *)
Definition trend (s : t) : pystr :=
  match sma_20 s, sma_50 s, sma_200 s with
  | Some s20, Some s50, Some s200 =>
    if PyFloat.truthy s20 && PyFloat.truthy s50 && PyFloat.truthy s200
    then
      let p := current_price s in
      if PyFloat.gt p s20 && PyFloat.gt s20 s50 && PyFloat.gt s50 s200
      then PyStr.u "Strong Uptrend"
      else if PyFloat.gt p s50 && PyFloat.gt s50 s200
      then PyStr.u "Uptrend"
      else if PyFloat.lt p s20 && PyFloat.lt s20 s50
              && PyFloat.lt s50 s200
      then PyStr.u "Strong Downtrend"
      else if PyFloat.lt p s50 && PyFloat.lt s50 s200
      then PyStr.u "Downtrend"
      else PyStr.u "Neutral"
    else PyStr.u "Neutral"
  | _, _, _ => PyStr.u "Neutral"
  end.
End StockData.

Module EarningsEvent.
Record t := { symbol : pystr; company : pystr }.
End EarningsEvent.

Module NewsItem.
Record t := {
  title : pystr;
  summary : pystr;
  related_tickers : option (list pystr) }.
End NewsItem.

Module UniverseData.
Record t := {
  tickers : gset pystr;
  ticker_to_name : list (pystr * pystr);
  name_to_ticker : list (pystr * pystr) }.
End UniverseData.

(** An entry of the watchlist candidate list; a field that holds a
    number or [""] is an [option]. *)
Module Candidate.
Record t := {
  symbol : pystr;
  name : pystr;
  price : float;
  change_percent : float;
  change_1w : option float;
  change_1m : option float;
  rsi : option float;
  trend : pystr;
  reasons : list pystr;
  score : Z }.
End Candidate.

(** An entry of the event-driven candidate list. *)
Module EventCandidate.
Record t := {
  symbol : pystr;
  name : pystr;
  headlines : list pystr;
  count : Z }.
End EventCandidate.

(** Every entry was counted under its own symbol, which is not a
    watchlist symbol. *)
Definition outside_watchlist (watchlist_symbols : gset pystr)
           (candidates : list (pystr * EventCandidate.t)) : Prop :=
  Forall (fun kv => (fst kv ∉ watchlist_symbols)
                    /\ EventCandidate.symbol (snd kv) = fst kv)
         candidates.


(** [_near_level(price, levels)] with the default threshold 0.02. *)
Definition threshold : float := 0x1.47ae147ae147bp-6%float.

Fixpoint near_loop (price : float) (levels : list (option float)) : bool :=
  match levels with
  | [] => false
  | None :: levels' => near_loop price levels'
  | Some lvl :: levels' =>
    if PyFloat.truthy lvl
       && PyFloat.le
            (PrimFloat.div (PrimFloat.abs (PrimFloat.sub price lvl)) lvl)
            threshold
    then true
    else near_loop price levels'
  end.

Definition _near_level (price : float) (levels : list (option float))
  : bool :=
  if negb (PyFloat.truthy price) || negb (bool_decide (levels <> []))
  then false
  else near_loop price levels.

(** The running pair of [reasons] and [score]. *)
Definition tally : Type := list pystr * Z.

Definition hit (acc : tally) (reason : pystr) (w : Z) : tally :=
  (fst acc ++ [reason], (snd acc + w)%Z).

Definition round_opt (o : option float) (ndigits : nat) : option float :=
  match o with
  | Some x => if PyFloat.truthy x then Some (PyFloat.round x ndigits)
              else None
  | None => None
  end.

(** The trigger rules of one stock, in the order of the source. *)
Definition score_stock (earnings_symbols news_symbols : gset pystr)
           (stock : StockData.t) : tally :=
  let acc : tally := ([], 0%Z) in
  let acc :=
    if bool_decide (StockData.symbol stock ∈ earnings_symbols)
    then hit acc (PyStr.u "今日財報") 3 else acc in
  let acc :=
    if bool_decide (StockData.symbol stock ∈ news_symbols)
    then hit acc (PyStr.u "今日新聞提及") 2 else acc in
  let acc :=
    if PyFloat.ge (PrimFloat.abs (StockData.change_percent stock)) 2
    then hit acc (PyStr.u "單日波動 "
                    ++ PyFloat.format_f true 2
                         (StockData.change_percent stock)
                    ++ PyStr.u "%") 1
    else acc in
  let acc :=
    match StockData.change_1w stock with
    | Some w =>
      if PyFloat.truthy w && PyFloat.ge (PrimFloat.abs w) 5
      then hit acc (PyStr.u "近一週 " ++ PyFloat.format_f true 2 w
                      ++ PyStr.u "%") 1
      else acc
    | None => acc
    end in
  let acc :=
    match StockData.rsi_14 stock with
    | Some r =>
      if PyFloat.truthy r then
        if PyFloat.ge r 70
        then hit acc (PyStr.u "RSI " ++ PyFloat.format_f false 0 r
                        ++ PyStr.u " 超買") 1
        else if PyFloat.le r 30
        then hit acc (PyStr.u "RSI " ++ PyFloat.format_f false 0 r
                        ++ PyStr.u " 超賣") 1
        else acc
      else acc
    | None => acc
    end in
  let acc :=
    if PyFloat.truthy (StockData.volume_ratio stock)
       && PyFloat.ge (StockData.volume_ratio stock) 1.5
    then hit acc (PyStr.u "成交量放大 "
                    ++ PyFloat.format_f false 2
                         (StockData.volume_ratio stock)
                    ++ PyStr.u "x") 1
    else acc in
  let acc :=
    if bool_decide (StockData.support_levels stock <> [])
       && _near_level (StockData.current_price stock)
                      (StockData.support_levels stock)
    then hit acc (PyStr.u "接近支撐位") 1 else acc in
  let acc :=
    if bool_decide (StockData.resistance_levels stock <> [])
       && _near_level (StockData.current_price stock)
                      (StockData.resistance_levels stock)
    then hit acc (PyStr.u "接近壓力位") 1 else acc in
  acc.

(** The body of the loop over the stocks. *)
Definition candidate_of (earnings_symbols news_symbols : gset pystr)
           (stock : StockData.t) : option Candidate.t :=
  let '(reasons, score) :=
    score_stock earnings_symbols news_symbols stock in
  match reasons with
  | [] => None
  | _ =>
    Some {| Candidate.symbol := StockData.symbol stock;
            Candidate.name := StockData.name stock;
            Candidate.price :=
              PyFloat.round (StockData.current_price stock) 2;
            Candidate.change_percent :=
              PyFloat.round (StockData.change_percent stock) 2;
            Candidate.change_1w := round_opt (StockData.change_1w stock) 2;
            Candidate.change_1m := round_opt (StockData.change_1m stock) 2;
            Candidate.rsi := round_opt (StockData.rsi_14 stock) 0;
            Candidate.trend := StockData.trend stock;
            Candidate.reasons := reasons;
            Candidate.score := score |}
  end.

(** *** The trigger rules as the specification words them *)

Inductive rule :=
| Earnings | News | DailyMove | WeekMove | RsiOverbought | RsiOversold
| VolumeSurge | NearSupport | NearResistance.

Definition rules_in_order : list rule :=
  [Earnings; News; DailyMove; WeekMove; RsiOverbought; RsiOversold;
   VolumeSurge; NearSupport; NearResistance].

Definition weight (r : rule) : Z :=
  match r with
  | Earnings => 3
  | News => 2
  | _ => 1
  end.

(** The price is within 2% of one of the levels. *)
Definition within_2_percent (price : float) (levels : list (option float))
  : bool :=
  existsb
    (fun level =>
       match level with
       | Some lvl =>
         PyFloat.le
           (PrimFloat.div (PrimFloat.abs (PrimFloat.sub price lvl)) lvl)
           threshold
       | None => false
       end)
    levels.

Definition fires (earnings_symbols news_symbols : gset pystr)
           (stock : StockData.t) (r : rule) : bool :=
  match r with
  | Earnings => bool_decide (StockData.symbol stock ∈ earnings_symbols)
  | News => bool_decide (StockData.symbol stock ∈ news_symbols)
  | DailyMove =>
    PyFloat.ge (PrimFloat.abs (StockData.change_percent stock)) 2
  | WeekMove =>
    match StockData.change_1w stock with
    | Some w => PyFloat.ge (PrimFloat.abs w) 5
    | None => false
    end
  | RsiOverbought =>
    match StockData.rsi_14 stock with
    | Some x => PyFloat.ge x 70
    | None => false
    end
  | RsiOversold =>
    match StockData.rsi_14 stock with
    | Some x => negb (PyFloat.ge x 70) && PyFloat.le x 30
    | None => false
    end
  | VolumeSurge => PyFloat.ge (StockData.volume_ratio stock) 1.5
  | NearSupport =>
    within_2_percent (StockData.current_price stock)
                     (StockData.support_levels stock)
  | NearResistance =>
    within_2_percent (StockData.current_price stock)
                     (StockData.resistance_levels stock)
  end.

Definition reason_of (stock : StockData.t) (r : rule) : pystr :=
  match r with
  | Earnings => PyStr.u "今日財報"
  | News => PyStr.u "今日新聞提及"
  | DailyMove =>
    PyStr.u "單日波動 "
    ++ PyFloat.format_f true 2 (StockData.change_percent stock)
    ++ PyStr.u "%"
  | WeekMove =>
    PyStr.u "近一週 "
    ++ PyFloat.format_f true 2 (get_or (StockData.change_1w stock) 0%float)
    ++ PyStr.u "%"
  | RsiOverbought =>
    PyStr.u "RSI "
    ++ PyFloat.format_f false 0 (get_or (StockData.rsi_14 stock) 0%float)
    ++ PyStr.u " 超買"
  | RsiOversold =>
    PyStr.u "RSI "
    ++ PyFloat.format_f false 0 (get_or (StockData.rsi_14 stock) 0%float)
    ++ PyStr.u " 超賣"
  | VolumeSurge =>
    PyStr.u "成交量放大 "
    ++ PyFloat.format_f false 2 (StockData.volume_ratio stock)
    ++ PyStr.u "x"
  | NearSupport => PyStr.u "接近支撐位"
  | NearResistance => PyStr.u "接近壓力位"
  end.

(** The fired rules in the order of evaluation, and the reasons and the
    score that the specification gives them. *)
Definition fired (earnings_symbols news_symbols : gset pystr)
           (stock : StockData.t) : list rule :=
  List.filter (fires earnings_symbols news_symbols stock) rules_in_order.

Definition fired_tally (earnings_symbols news_symbols : gset pystr)
           (stock : StockData.t) : tally :=
  let rs := fired earnings_symbols news_symbols stock in
  (map (reason_of stock) rs, fold_right Z.add 0%Z (map weight rs)).

(** The values that the truthiness guards of the source let through:
    an RSI that is not zero, and a price and levels that are not
    zero. *)
Definition nonzero_opt (o : option float) : Prop :=
  match o with
  | Some x => PyFloat.truthy x = true
  | None => True
  end.

Definition guards_pass (stock : StockData.t) : Prop :=
  nonzero_opt (StockData.rsi_14 stock)
  /\ PyFloat.truthy (StockData.current_price stock) = true
  /\ Forall nonzero_opt (StockData.support_levels stock)
  /\ Forall nonzero_opt (StockData.resistance_levels stock).

(** A stable sort, largest key first, which is [list.sort] with
    [reverse=True] when [lt] is a strict weak order on the keys. *)
Section Sort.
Context {A : Type} (lt : A -> A -> bool).
Fixpoint insert_desc (x : A) (l : list A) : list A :=
  match l with
  | [] => [x]
  | y :: l' => if lt x y then y :: insert_desc x l' else x :: l
  end.
Definition sort_desc (l : list A) : list A := foldr insert_desc [] l.
End Sort.

(** [<] on the keys [(score, abs(change_percent))]. *)
Definition candidate_lt (a b : Candidate.t) : bool :=
  if (Candidate.score a =? Candidate.score b)%Z
  then PyFloat.lt (PrimFloat.abs (Candidate.change_percent a))
                  (PrimFloat.abs (Candidate.change_percent b))
  else (Candidate.score a <? Candidate.score b)%Z.

Definition news_symbols_of (news_items : list NewsItem.t) : gset pystr :=
  fold_left
    (fun acc item =>
       fold_left (fun acc t => acc ∪ {[ t ]})
                 (get_or (NewsItem.related_tickers item) []) acc)
    news_items ∅.

Definition _build_watchlist_candidates (stocks : list StockData.t)
           (news_items : list NewsItem.t)
           (earnings_events : list EarningsEvent.t)
  : list Candidate.t * gset pystr :=
  let earnings_symbols : gset pystr :=
    list_to_set (map EarningsEvent.symbol earnings_events) in
  let news_symbols := news_symbols_of news_items in
  let candidates :=
    omap (candidate_of earnings_symbols news_symbols) stocks in
  let candidates := sort_desc candidate_lt candidates in
  (candidates, list_to_set (map Candidate.symbol candidates)).

Section Unicode.
(** The Unicode tables of the runtime: [str.lower] and [\w]. *)
Variable lower : pystr -> pystr.
Variable is_word : N -> bool.

Local Abbreviation boundary := (PyRe.boundary is_word).

Definition is_upper_az (c : N) : bool := ((65 <=? c) && (c <=? 90))%N.

(** The number of leading [[A-Z]] characters, at most [cap]. *)
Fixpoint upper_run (s : pystr) (cap : nat) : nat :=
  match cap, s with
  | S cap', c :: s' =>
    if is_upper_az c then S (upper_run s' cap') else 0
  | _, _ => 0
  end.

(** [[A-Z]{1,5}\b] is greedy and backtracks: the longest count [k],
    from [k] down to one, after which there is a boundary. *)
Fixpoint token_len (prev : option N) (rest : pystr) (k : nat)
  : option nat :=
  match k with
  | O => None
  | S k' =>
    if boundary (PyRe.last_before prev (take k rest)) (head (drop k rest))
    then Some k
    else token_len prev rest k'
  end.

(** [\b[A-Z]{1,5}\b] at a position. *)
Definition token_at (prev : option N) (rest : pystr) : option pystr :=
  if boundary prev (head rest) then
    match token_len prev rest (upper_run rest 5) with
    | Some k => Some (take k rest)
    | None => None
    end
  else None.

(** [re.findall(r"\b[A-Z]{1,5}\b", text)] *)
Fixpoint scan_tokens (prev : option N) (rest : pystr) (skip : nat)
  : list pystr :=
  match rest with
  | [] => []
  | c :: rest' =>
    match skip with
    | S k => scan_tokens (Some c) rest' k
    | O =>
      match token_at prev rest with
      | Some tok => tok :: scan_tokens (Some c) rest' (length tok - 1)
      | None => scan_tokens (Some c) rest' 0
      end
    end
  end.

Definition _extract_ticker_tokens (text : pystr) (universe : gset pystr)
  : gset pystr :=
  if negb (PyStr.truthy text) then ∅
  else
    fold_left
      (fun tickers token =>
         if bool_decide (token ∈ universe) then tickers ∪ {[ token ]}
         else tickers)
      (scan_tokens None text 0) ∅.

(** [re.sub(r"[^a-z0-9\s]", " ", text)] on one character. *)
Definition keep_or_space (c : N) : N :=
  if ((97 <=? c) && (c <=? 122) || (48 <=? c) && (c <=? 57))%N
     || PyStr.is_space c
  then c else 32%N.

(** [re.sub(r"\s+", " ", text)] *)
Fixpoint collapse_spaces (in_run : bool) (s : pystr) : pystr :=
  match s with
  | [] => []
  | c :: s' =>
    if PyStr.is_space c then
      if in_run then collapse_spaces true s'
      else 32%N :: collapse_spaces true s'
    else c :: collapse_spaces false s'
  end.

Definition _normalize_text (text : pystr) : pystr :=
  let text := lower text in
  let text := map keep_or_space text in
  PyStr.strip (collapse_spaces false text).

(** The tickers one news item mentions. *)
Definition matched_tickers (item : NewsItem.t) (ud : UniverseData.t)
  : gset pystr :=
  let text :=
    lower (NewsItem.title item ++ [32%N] ++ NewsItem.summary item) in
  let matched :=
    _extract_ticker_tokens (NewsItem.title item)
                           (UniverseData.tickers ud) in
  let normalized_text := _normalize_text text in
  fold_left
    (fun matched nt =>
       if PyStr.truthy (fst nt) && PyStr.contains (fst nt) normalized_text
       then matched ∪ {[ snd nt ]} else matched)
    (UniverseData.name_to_ticker ud) matched.

(** [candidates.setdefault(ticker, ...)] followed by the updates of
    the entry. *)
Definition count_mention (ud : UniverseData.t) (title : pystr)
           (candidates : list (pystr * EventCandidate.t))
           (ticker : pystr) : list (pystr * EventCandidate.t) :=
  let entry :=
    match PyDict.get candidates ticker with
    | Some e => e
    | None =>
      {| EventCandidate.symbol := ticker;
         EventCandidate.name :=
           get_or (PyDict.get (UniverseData.ticker_to_name ud) ticker) [];
         EventCandidate.headlines := [];
         EventCandidate.count := 0 |}
    end in
  PyDict.setitem candidates ticker
    {| EventCandidate.symbol := EventCandidate.symbol entry;
       EventCandidate.name := EventCandidate.name entry;
       EventCandidate.headlines :=
         if length (EventCandidate.headlines entry) <? 3
         then EventCandidate.headlines entry ++ [title]
         else EventCandidate.headlines entry;
       EventCandidate.count := (EventCandidate.count entry + 1)%Z |}.

(** The body of the loop over the matched tickers of one item. *)
Definition visit_ticker (ud : UniverseData.t)
           (watchlist_symbols : gset pystr) (title : pystr)
           (candidates : list (pystr * EventCandidate.t))
           (ticker : pystr) : list (pystr * EventCandidate.t) :=
  if bool_decide (ticker ∈ watchlist_symbols) then candidates
  else if negb (bool_decide (ticker ∈ UniverseData.tickers ud))
  then candidates
  else count_mention ud title candidates ticker.

(** The body of the loop over the news items. The set [matched] is
    visited in the order of [elements]; Python leaves it open. *)
Definition visit_item (ud : UniverseData.t)
           (watchlist_symbols : gset pystr)
           (candidates : list (pystr * EventCandidate.t))
           (item : NewsItem.t) : list (pystr * EventCandidate.t) :=
  fold_left (visit_ticker ud watchlist_symbols (NewsItem.title item))
            (elements (matched_tickers item ud)) candidates.

Definition count_lt (a b : EventCandidate.t) : bool :=
  (EventCandidate.count a <? EventCandidate.count b)%Z.

Definition _build_event_driven_candidates (news_items : list NewsItem.t)
           (universe_data : option UniverseData.t)
           (watchlist_symbols : gset pystr)
  : list EventCandidate.t * list pystr :=
  match universe_data with
  | None => ([], [])
  | Some ud =>
    if bool_decide (UniverseData.tickers ud = ∅) then ([], [])
    else
      let candidates :=
        fold_left (visit_item ud watchlist_symbols) news_items [] in
      let items := sort_desc count_lt (map snd candidates) in
      let symbols := map EventCandidate.symbol items in
      (items, symbols)
  end.

(** The two ranking calls at the head of [generate_sections]. *)
Definition candidate_lists (stocks : list StockData.t)
           (news_items : list NewsItem.t)
           (earnings_events : list EarningsEvent.t)
           (universe_data : option UniverseData.t)
  : (list Candidate.t * gset pystr)
    * (list EventCandidate.t * list pystr) :=
  let wl := _build_watchlist_candidates stocks news_items
                                        earnings_events in
  (wl, _build_event_driven_candidates news_items universe_data (snd wl)).
End Unicode.
End PreMarketV3.

(** * [src/outputs/notion.py] *)

Module NotionOutput.

(** A date is its proleptic Gregorian ordinal ([date.toordinal()]:
    day 1 is Monday 0001-01-01). The bounds of [datetime] (years 1 to
    9999) are not part of the model. *)

(** [date.weekday()]: Monday is 0 and Sunday is 6. *)
Definition weekday (d : Z) : Z := ((d + 6) mod 7)%Z.

(** Calendar arithmetic for [strftime]. *)
Definition is_leap (y : Z) : bool :=
  ((y mod 4 =? 0) && (negb (y mod 100 =? 0) || (y mod 400 =? 0)))%Z.

Definition days_in_month (y m : Z) : Z :=
  if (m =? 2)%Z then (if is_leap y then 29 else 28)%Z
  else if ((m =? 4) || (m =? 6) || (m =? 9) || (m =? 11))%Z then 30%Z
  else 31%Z.

(** The month and the day of the month of the [n]-th day (from 0) of
    year [y], searching from month [m]. *)
Fixpoint month_day (y m n : Z) (fuel : nat) : Z * Z :=
  match fuel with
  | O => (m, (n + 1)%Z)
  | S fuel' =>
    if (n <? days_in_month y m)%Z then (m, (n + 1)%Z)
    else month_day y (m + 1)%Z (n - days_in_month y m)%Z fuel'
  end.

(** Year, month and day of an ordinal. *)
Definition ord2ymd (d : Z) : Z * Z * Z :=
  let n := (d - 1)%Z in
  let n400 := (n / 146097)%Z in
  let n := (n mod 146097)%Z in
  let n100 := (n / 36524)%Z in
  let n := (n mod 36524)%Z in
  let n4 := (n / 1461)%Z in
  let n := (n mod 1461)%Z in
  let n1 := (n / 365)%Z in
  let n := (n mod 365)%Z in
  let year := (n400 * 400 + n100 * 100 + n4 * 4 + n1 + 1)%Z in
  if ((n1 =? 4) || (n100 =? 4))%Z then ((year - 1)%Z, 12%Z, 31%Z)
  else let '(m, dd) := month_day year 1 n 11 in (year, m, dd).

(** A number in decimal, padded with zeros to [width] digits. *)
Definition padded (width : nat) (z : Z) : pystr :=
  let ds := PyFloat.digits_of z in
  PyFloat.zeros (width - length ds) ++ ds.

(** [strftime("%Y-%m-%d")] *)
Definition strftime_Ymd (d : Z) : pystr :=
  let '(y, m, dd) := ord2ymd d in
  padded 4 y ++ [45%N] ++ padded 2 m ++ [45%N] ++ padded 2 dd.

(** [strftime("%y%m%d")] *)
Definition strftime_ymd (d : Z) : pystr :=
  let '(y, m, dd) := ord2ymd d in
  padded 2 (y mod 100)%Z ++ padded 2 m ++ padded 2 dd.

(** The days that the loop of [get_previous_trading_day] passes over
    without counting them, from [result] on. *)
Definition weekend_ahead (result : Z) : nat :=
  if (weekday result =? 0)%Z then 2
  else if (weekday result =? 6)%Z then 1 else 0.

(** The [while days_back < offset] loop of [get_previous_trading_day]. *)
Equations? trading_day_loop (offset result days_back : Z) : Z
  by wf (3 * Z.to_nat (offset - days_back) + weekend_ahead result)%nat lt :=
  trading_day_loop offset result days_back with decide (days_back < offset)%Z => {
    | right _ := result;
    | left _ with decide (weekday (result - 1) < 5)%Z => {
      | left _ := trading_day_loop offset (result - 1) (days_back + 1);
      | right _ := trading_day_loop offset (result - 1) days_back } }.
Proof.
  all: clear trading_day_loop; unfold weekend_ahead, weekday in *;
    repeat match goal with
           | |- context [(?a =? ?b)%Z] => destruct (Z.eqb_spec a b)
           end;
    zify; Z.to_euclidean_division_equations; lia.
Qed.

Definition get_previous_trading_day (date offset : Z) : Z :=
  trading_day_loop offset date 0.

Arguments trading_day_loop : simpl never.
Arguments get_previous_trading_day : simpl never.
Arguments strftime_Ymd : simpl never.
Arguments strftime_ymd : simpl never.

(** The dict that [get_yesterday_pre_market] returns. *)
Record report := {
  content : pystr;
  available : bool;
  source : pystr;
  fallback_note : pystr;
  date : pystr }.

Section Store.
(** The Notion client behind [find_page_by_title] (the id of the
    page with that title, if the search finds one and does not fail)
    and [get_page_content] (its text, [""] on failure). *)
Variable find_page_by_title : pystr -> option pystr.
Variable get_page_content : pystr -> pystr.

(** [get_pre_market_content]; its argument is the date that the
    string [trading_date] denotes. *)
Definition get_pre_market_content (trading_date : Z) : pystr :=
  let title := strftime_ymd trading_date ++ PyStr.u "_Pre-market" in
  match find_page_by_title title with
  | Some page_id => get_page_content page_id
  | None => []
  end.

(** The loop [for lookback in range(1, 4)], threading the list of
    the dates for which the store was asked. *)
Fixpoint try_lookbacks (current_date : Z) (lookbacks : list Z)
         (asked : list Z) : report * list Z :=
  match lookbacks with
  | [] =>
    ({| content := [];
        available := false;
        source := PyStr.u "unavailable";
        fallback_note :=
          PyStr.u "昨日報告不可用，變化判斷基於較長時間框架";
        date := [] |}, asked)
  | lookback :: lookbacks' =>
    let try_date := get_previous_trading_day current_date lookback in
    let try_date_str := strftime_Ymd try_date in
    let content := get_pre_market_content try_date in
    let asked := asked ++ [try_date] in
    if PyStr.truthy content then
      if (lookback =? 1)%Z then
        ({| content := content;
            available := true;
            source := PyStr.u "notion";
            fallback_note := [];
            date := try_date_str |}, asked)
      else
        ({| content := content;
            available := true;
            source := PyStr.u "fallback";
            fallback_note :=
              PyStr.u "使用 " ++ try_date_str
              ++ PyStr.u " 的報告作為參考（"
              ++ PyFloat.digits_of lookback
              ++ PyStr.u " 個交易日前）";
            date := try_date_str |}, asked)
    else try_lookbacks current_date lookbacks' asked
  end.

Definition get_yesterday_pre_market (current_date : Z)
  : report * list Z :=
  try_lookbacks current_date [1; 2; 3]%Z [].
End Store.
End NotionOutput.


(** * [src/analyzers/pre_market_analyzer.py] *)

(** A Python value as far as its shape goes: what a function returns
    and what the fields of a dataclass hold. *)
Inductive pyval :=
| PStr (s : pystr)
| PBool (b : bool)
| PStrList (ss : list pystr).

Module PreMarketAnalyzer.

(** [try: body except Exception as e: handler(e)] *)
Definition try_except {A} (body : result A) (handler : pyexc -> A) : A :=
  match body with
  | Ok a => a
  | Raise e => handler e
  end.

(** [text.split(sep, 1)] when it yields two parts. *)
Fixpoint split_once (sep text : pystr) (before : pystr)
  : option (pystr * pystr) :=
  if PyStr.starts_with sep text
  then Some (before, drop (length sep) text)
  else match text with
       | [] => None
       | c :: text' => split_once sep text' (before ++ [c])
       end.

(** The diagnostic of a failed layer stage. *)
Definition diagnostic (a b : string) (e : pyexc) : pystr :=
  PyStr.u ("生成 Layer " ++ a ++ "-" ++ b ++ " 時發生錯誤: ") ++ exc_str e.

(** [needle] occurs in [text]. *)
Definition occurs (needle text : pystr) : Prop :=
  exists pre suf, text = pre ++ needle ++ suf.

(** [marker] occurs in [text] up to the case of its characters. *)
Definition occurs_ci (ci_eq : N -> N -> bool) (marker text : pystr) : Prop :=
  exists pre mid suf,
    text = pre ++ mid ++ suf
    /\ Forall2 (fun m c => ci_eq m c = true) marker mid.

Section Backend.
(** Equality of two characters under [re.IGNORECASE]. *)
Variable ci_eq : N -> N -> bool.

Local Abbreviation ci_prefix := (PyRe.ci_prefix ci_eq).

(** [re.search] of a literal marker: the text from the leftmost
    occurrence on. *)
Fixpoint search_marker (marker text : pystr) : option pystr :=
  if ci_prefix marker text then Some text
  else match text with
       | [] => None
       | _ :: text' => search_marker marker text'
       end.

(** [.*?(?=next|$)] with [re.DOTALL]: the shortest run of characters
    after which the next marker or the end of the text follows. *)
Fixpoint lazy_until (next text : pystr) : pystr :=
  if ci_prefix next text || PyRe.at_dollar text then []
  else match text with
       | [] => []
       | c :: text' => c :: lazy_until next text'
       end.

(** [re.search(r'### Layer a.*?(?=### Layer b|$)', text,
    re.DOTALL | re.IGNORECASE)]: [group()] of the match. *)
Definition first_section_match (marker next text : pystr)
  : option pystr :=
  match search_marker marker text with
  | Some from =>
    Some (take (length marker) from
          ++ lazy_until next (drop (length marker) from))
  | None => None
  end.

(** [re.search(r'### Layer b.*', text, re.DOTALL | re.IGNORECASE)] *)
Definition second_section_match (marker text : pystr) : option pystr :=
  search_marker marker text.

(** The parsing that the three layer stages share: [a] and [b] are
    the digits of the two layers. *)
Definition split_layers (a b : string) (text : pystr) : pystr * pystr :=
  let marker_a := PyStr.u ("### Layer " ++ a)%string in
  let marker_b := PyStr.u ("### Layer " ++ b)%string in
  let literal_b := PyStr.u ("Layer " ++ b)%string in
  let layer_a :=
    match first_section_match marker_a marker_b text with
    | Some g => PyStr.strip g
    | None => []
    end in
  let layer_b :=
    match second_section_match marker_b text with
    | Some g => PyStr.strip g
    | None => []
    end in
  if negb (PyStr.truthy layer_a) && negb (PyStr.truthy layer_b) then
    match split_once literal_b text [] with
    | Some (part0, part1) =>
      (PyStr.strip part0, literal_b ++ PyStr.strip part1)
    | None => (text, [])
    end
  else (layer_a, layer_b).

(** The dict that [process_hidden_layer] returns: the parsed JSON
    object, if any, the ["error"] entry, if any, and the two entries
    about yesterday's report. *)
Variable json : Type.

Record hidden_output := {
  parsed : option json;
  error : option pystr;
  yesterday_unavailable : bool;
  yesterday_note : pystr }.

(** The dict from [get_yesterday_pre_market]; [None] is an absent
    key. *)
Record yesterday_report := {
  y_content : option pystr;
  y_available : option bool;
  y_fallback_note : option pystr }.

(** [json.loads] of the library. *)
Variable json_loads : pystr -> result json.

(** The prompt templates with their [format] arguments filled in;
    [layers.py] is not part of the sources, and a prompt matters
    only as the argument of the backend. *)
Variable HIDDEN_LAYER_PROMPT :
  pystr -> pystr -> pystr -> pystr -> pystr -> pystr.
Variable LAYER_0_1_PROMPT :
  hidden_output -> pystr -> pystr -> pystr -> pystr.
Variable LAYER_2_3_PROMPT : pystr -> pystr -> pystr -> pystr.
Variable LAYER_4_5_PROMPT :
  pystr -> pystr -> pystr -> pystr -> pystr -> hidden_output -> pystr.
Variable NEWS_SUMMARY_PROMPT : pystr -> pystr -> pystr.

(** The generation backend: [response.text] of the [n]-th call or
    the exception that reading it raises. *)
Variable backend : nat -> pystr -> result pystr.

(** The prompts sent so far. *)
Definition calls : Type := list pystr.

Definition generate_content (prompt : pystr) (log : calls)
  : result pystr * calls :=
  (backend (length log) prompt, log ++ [prompt]).

(** [re.search(r'\{[\s\S]*\}', text)]: from the first [{] to the
    last [}] after it. *)
Fixpoint upto_last_brace (text : pystr) : option pystr :=
  match text with
  | [] => None
  | c :: text' =>
    match upto_last_brace text' with
    | Some g => Some (c :: g)
    | None => if (c =? 125)%N then Some [c] else None
    end
  end.

Fixpoint json_match (text : pystr) : option pystr :=
  match text with
  | [] => None
  | c :: text' =>
    if (c =? 123)%N then
      match upto_last_brace text' with
      | Some g => Some (c :: g)
      | None => json_match text'
      end
    else json_match text'
  end.

(** [s[:n] if s else dflt] *)
Definition head_or (n : nat) (s dflt : pystr) : pystr :=
  if PyStr.truthy s then take n s else dflt.

Definition process_hidden_layer (yr : yesterday_report)
           (news_data sec_data fda_data market_data : pystr)
           (log : calls) : hidden_output * calls :=
  let available := get_or (y_available yr) false in
  let note := get_or (y_fallback_note yr) [] in
  let yesterday_content :=
    if negb available
    then PyStr.u "【昨日報告不可用】" ++ [10%N] ++ note
    else get_or (y_content yr) [] in
  let prompt :=
    HIDDEN_LAYER_PROMPT
      (head_or (Z.to_nat 8000) yesterday_content (PyStr.u "無昨日報告"))
      (take (Z.to_nat 6000) news_data)
      (head_or 2000 sec_data (PyStr.u "無 SEC 公告"))
      (head_or 2000 fda_data (PyStr.u "無 FDA 動態"))
      market_data in
  let '(response, log) := generate_content prompt log in
  let failed (msg : pystr) :=
    {| parsed := None; error := Some msg;
       yesterday_unavailable := negb available;
       yesterday_note := note |} in
  (try_except
     (text <-- response ;;
      match json_match text with
      | Some g =>
        j <-- json_loads g ;;
        Ok {| parsed := Some j; error := None;
              yesterday_unavailable := negb available;
              yesterday_note := note |}
      | None =>
        Ok (failed (PyStr.u "Failed to parse hidden layer output"))
      end)
     (fun e => failed (exc_str e)),
   log).

(** The body shared by [_generate_layer_0_1], [_generate_layer_2_3]
    and [_generate_layer_4_5] after the prompt is made. *)
Definition generate_layers (a b : string) (prompt : pystr) (log : calls)
  : (pystr * pystr) * calls :=
  let '(response, log) := generate_content prompt log in
  (try_except
     (text <-- response ;; Ok (split_layers a b text))
     (fun e => (diagnostic a b e, [])),
   log).

(** The warning that Layer 0 is asked to open with when yesterday's
    report is not available. *)
Definition yesterday_warning (h : hidden_output) : pystr :=
  if yesterday_unavailable h then
    [10%N] ++ PyStr.u "**注意**：在 Layer 0 的開頭加入以下警告："
    ++ [10%N] ++ PyStr.u "⚠️ " ++ yesterday_note h ++ [10%N]
  else [].

Definition _generate_layer_0_1 (h : hidden_output)
           (market_data news_data : pystr) (log : calls)
  : (pystr * pystr) * calls :=
  generate_layers "0" "1"
    (LAYER_0_1_PROMPT h market_data (take 4000 news_data)
                      (yesterday_warning h)) log.

Definition _generate_layer_2_3 (layer_0 layer_1 market_data : pystr)
           (log : calls) : (pystr * pystr) * calls :=
  generate_layers "2" "3"
    (LAYER_2_3_PROMPT layer_0 layer_1 market_data) log.

Definition _generate_layer_4_5
           (layer_0 layer_1 layer_2 layer_3 watchlist_data : pystr)
           (h : hidden_output) (log : calls)
  : (pystr * pystr) * calls :=
  generate_layers "4" "5"
    (LAYER_4_5_PROMPT layer_0 layer_1 layer_2 layer_3
                      (take 3000 watchlist_data) h) log.

Definition generate_news_summary (news_data market_data : pystr)
           (log : calls) : pystr * calls :=
  let '(response, log) :=
    generate_content
      (NEWS_SUMMARY_PROMPT (take (Z.to_nat 5000) news_data) market_data) log in
  (try_except
     (text <-- response ;; Ok (PyStr.strip text))
     (fun e => PyStr.u "無法生成新聞摘要: " ++ exc_str e),
   log).

(** The dataclass [LayeredReportResult]. *)
Record LayeredReportResult := {
  layer_0 : pystr;
  layer_1 : pystr;
  layer_2 : pystr;
  layer_3 : pystr;
  layer_4 : pystr;
  layer_5 : pystr;
  news_summary : pystr;
  market_appendix : pystr;
  hidden_layer_output : hidden_output;
  extracted_tickers : list pystr }.

(** The formatting of the inputs and the extraction of the tickers,
    which make no generation call: the news lines, the market data,
    the watchlist table, the appendix and [extract_hashtags_from_report]
    applied to Layer 4. *)
Variable news_data market_data watchlist_data appendix : pystr.
Variable extract_hashtags_from_report : pystr -> list pystr.

Definition generate_layered_report (yr : yesterday_report)
           (sec_summary fda_summary : pystr) (log : calls)
  : LayeredReportResult * calls :=
  let '(hidden_output, log) :=
    process_hidden_layer yr news_data sec_summary fda_summary
                         market_data log in
  let '((l0, l1), log) :=
    _generate_layer_0_1 hidden_output market_data news_data log in
  let '((l2, l3), log) := _generate_layer_2_3 l0 l1 market_data log in
  let '((l4, l5), log) :=
    _generate_layer_4_5 l0 l1 l2 l3 watchlist_data hidden_output log in
  let '(summary, log) :=
    generate_news_summary news_data market_data log in
  ({| layer_0 := l0; layer_1 := l1; layer_2 := l2; layer_3 := l3;
      layer_4 := l4; layer_5 := l5;
      news_summary := summary;
      market_appendix := appendix;
      hidden_layer_output := hidden_output;
      extracted_tickers := extract_hashtags_from_report l4 |},
   log).

(** The components of the tuple a layer stage returns. *)
Definition stage_value (r : pystr * pystr) : list pyval :=
  [PStr (fst r); PStr (snd r)].

(** The fields of a report whose values are strings or lists of
    strings, by name. *)
Definition report_fields (r : LayeredReportResult)
  : list (string * pyval) :=
  [ ("layer_0", PStr (layer_0 r)); ("layer_1", PStr (layer_1 r));
    ("layer_2", PStr (layer_2 r)); ("layer_3", PStr (layer_3 r));
    ("layer_4", PStr (layer_4 r)); ("layer_5", PStr (layer_5 r));
    ("news_summary", PStr (news_summary r));
    ("market_appendix", PStr (market_appendix r));
    ("extracted_tickers", PStrList (extracted_tickers r)) ]%string.
End Backend.

Arguments parsed {json} _.
Arguments error {json} _.
Arguments yesterday_unavailable {json} _.
Arguments yesterday_note {json} _.
Arguments layer_0 {json} _.
Arguments layer_1 {json} _.
Arguments layer_2 {json} _.
Arguments layer_3 {json} _.
Arguments layer_4 {json} _.
Arguments layer_5 {json} _.
Arguments news_summary {json} _.
Arguments market_appendix {json} _.
Arguments hidden_layer_output {json} _.
Arguments extracted_tickers {json} _.
Arguments report_fields {json} _.
Arguments yesterday_warning {json} _.
End PreMarketAnalyzer.

(** * Concrete inputs *)

Module Inputs.
Import EntityMatcher.

(** A generation backend that answers the prompts of the layers with
    a text without section markers, and one that fails on its [k]-th
    call. *)
Definition calm_text : pystr := PyStr.u "Markets are calm today.".

(** The first call, of the hidden layer, is answered with JSON. *)
Definition answer (n : nat) : pystr :=
  if n =? 0 then PyStr.u "{}" else calm_text.

Definition backend_ok (n : nat) (prompt : pystr) : result pystr :=
  Ok (answer n).

Definition backend_failing_at (k n : nat) (prompt : pystr)
  : result pystr :=
  if n =? k then Raise (Exc "ServerError" (PyStr.u "503 UNAVAILABLE"))
  else Ok (answer n).

(** Prompt templates that join their arguments, with the JSON of the
    hidden layer left as text. *)
Definition hidden_prompt (a b c d e : pystr) : pystr :=
  a ++ b ++ c ++ d ++ e.
Definition layer_0_1_prompt
           (h : PreMarketAnalyzer.hidden_output pystr)
           (a b c : pystr) : pystr := a ++ b ++ c.
Definition layer_2_3_prompt (a b c : pystr) : pystr := a ++ b ++ c.
Definition layer_4_5_prompt (a b c d e : pystr)
           (h : PreMarketAnalyzer.hidden_output pystr) : pystr :=
  a ++ b ++ c ++ d ++ e.
Definition news_prompt (a b : pystr) : pystr := a ++ b.
Definition json_text (s : pystr) : result pystr := Ok s.

Definition no_yesterday : PreMarketAnalyzer.yesterday_report :=
  {| PreMarketAnalyzer.y_content := Some [];
     PreMarketAnalyzer.y_available := Some false;
     PreMarketAnalyzer.y_fallback_note :=
       Some (PyStr.u "昨日報告不可用，變化判斷基於較長時間框架") |}.

(** The dict of a hidden layer whose call failed; the stages below
    run after its one call. *)
Definition hidden_failed : PreMarketAnalyzer.hidden_output pystr :=
  {| PreMarketAnalyzer.parsed := None;
     PreMarketAnalyzer.error := Some (PyStr.u "503 UNAVAILABLE");
     PreMarketAnalyzer.yesterday_unavailable := true;
     PreMarketAnalyzer.yesterday_note := PyStr.u "昨日報告不可用" |}.

Definition stage_01 (backend : nat -> pystr -> result pystr)
  : pystr * pystr :=
  fst (PreMarketAnalyzer._generate_layer_0_1
         PyStr.ascii_ci_eq pystr layer_0_1_prompt backend hidden_failed
         (PyStr.u "S&P 500: 5,000.00") (PyStr.u "- [wire] Fed holds rates")
         [PyStr.u "hidden"]).

Definition stage_23 (backend : nat -> pystr -> result pystr)
  : pystr * pystr :=
  fst (PreMarketAnalyzer._generate_layer_2_3
         PyStr.ascii_ci_eq layer_2_3_prompt backend
         (PyStr.u "snapshot") (PyStr.u "changes")
         (PyStr.u "S&P 500: 5,000.00") [PyStr.u "hidden"]).

(** One run of the pipeline over a given backend. *)
Definition run (backend : nat -> pystr -> result pystr)
  : PreMarketAnalyzer.LayeredReportResult pystr * list pystr :=
  PreMarketAnalyzer.generate_layered_report
    PyStr.ascii_ci_eq pystr json_text hidden_prompt layer_0_1_prompt
    layer_2_3_prompt layer_4_5_prompt news_prompt backend
    (PyStr.u "- [wire] Fed holds rates") (PyStr.u "S&P 500: 5,000.00")
    (PyStr.u "| NVDA |") (PyStr.u "## appendix")
    (fun layer_4 => [])
    no_yesterday [] [] [].

(** A tracked stock that reports earnings today, with RSI 75 and no
    other trigger. *)
Definition earnings_stock : PreMarketV3.StockData.t :=
  {| PreMarketV3.StockData.symbol := PyStr.u "NVDA";
     PreMarketV3.StockData.name := PyStr.u "NVIDIA";
     PreMarketV3.StockData.current_price := 100;
     PreMarketV3.StockData.change_percent := 0.5;
     PreMarketV3.StockData.volume_ratio := 1;
     PreMarketV3.StockData.support_levels := [];
     PreMarketV3.StockData.resistance_levels := [];
     PreMarketV3.StockData.sma_20 := None;
     PreMarketV3.StockData.sma_50 := None;
     PreMarketV3.StockData.sma_200 := None;
     PreMarketV3.StockData.rsi_14 := Some 75%float;
     PreMarketV3.StockData.change_1w := Some 1%float;
     PreMarketV3.StockData.change_1m := Some 2%float |}.

Definition earnings_today : list PreMarketV3.EarningsEvent.t :=
  [ {| PreMarketV3.EarningsEvent.symbol := PyStr.u "NVDA";
       PreMarketV3.EarningsEvent.company := PyStr.u "NVIDIA" |} ].

(** A tracked stock after fourteen sessions without a gain: its RSI is
    0.0, and nothing else triggers. *)
Definition falling_stock : PreMarketV3.StockData.t :=
  {| PreMarketV3.StockData.symbol := PyStr.u "XYZ";
     PreMarketV3.StockData.name := PyStr.u "XYZ Corp";
     PreMarketV3.StockData.current_price := 10;
     PreMarketV3.StockData.change_percent := (-1.5);
     PreMarketV3.StockData.volume_ratio := 1;
     PreMarketV3.StockData.support_levels := [];
     PreMarketV3.StockData.resistance_levels := [];
     PreMarketV3.StockData.sma_20 := None;
     PreMarketV3.StockData.sma_50 := None;
     PreMarketV3.StockData.sma_200 := None;
     PreMarketV3.StockData.rsi_14 := Some 0%float;
     PreMarketV3.StockData.change_1w := Some (-3)%float;
     PreMarketV3.StockData.change_1m := Some (-4)%float |}.

(** A catalog with one listed company and no aliases. *)
Definition listed_only : catalog :=
  {| entities :=
       Some [ (PyStr.u "ai",
               {| listed :=
                    Some [ {| co_name := Some (PyStr.u "NVIDIA");
                              co_ticker := Some (PyStr.u "NVDA");
                              co_aliases := None |} ];
                  unlisted := None |}) ];
     key_people := None;
     institutions := None |}.

(** A catalog in which "Eli Lilly" and "Lilly" are aliases of one
    company, and "Dr Eli" is a person. *)
Definition lilly : catalog :=
  {| entities :=
       Some [ (PyStr.u "healthcare",
               {| listed :=
                    Some [ {| co_name := Some (PyStr.u "Eli Lilly");
                              co_ticker := Some (PyStr.u "LLY");
                              co_aliases :=
                                Some [PyStr.u "Eli Lilly";
                                      PyStr.u "Lilly"] |} ];
                  unlisted := None |}) ];
     key_people :=
       Some [ {| pe_name := Some (PyStr.u "Dr Eli");
                 pe_entities := None;
                 pe_aliases := None |} ];
     institutions := None |}.

(** A catalog with the one-character alias "X". *)
Definition one_letter : catalog :=
  {| entities :=
       Some [ (PyStr.u "social",
               {| listed := None;
                  unlisted :=
                    Some [ {| co_name := Some (PyStr.u "X Corp");
                              co_ticker := None;
                              co_aliases := Some [PyStr.u "X"] |} ] |}) ];
     key_people := None;
     institutions := None |}.

(** The matcher of a catalog that is accepted. *)
Definition matcher_of (data : catalog) : matcher :=
  match load_ascii data with
  | Ok mt => mt
  | Raise _ => _build_patterns empty_tables
  end.

(** A catalog whose listed company has no ["name"] key. *)
Definition nameless : catalog :=
  {| entities :=
       Some [ (PyStr.u "ai",
               {| listed :=
                    Some [ {| co_name := None;
                              co_ticker := Some (PyStr.u "NVDA");
                              co_aliases := Some [PyStr.u "Nvidia"] |} ];
                  unlisted := None |}) ];
     key_people := None;
     institutions := None |}.
(** A store that holds the report of 2026-11-03 only, and one that
    holds the report of 2026-11-04. *)
Definition store_1103 (title : pystr) : option pystr :=
  if decide (title = PyStr.u "261103_Pre-market")
  then Some (PyStr.u "page-1103") else None.
Definition store_1104 (title : pystr) : option pystr :=
  if decide (title = PyStr.u "261104_Pre-market")
  then Some (PyStr.u "page-1104") else None.
Definition empty_store (title : pystr) : option pystr := None.
Definition page_text (page_id : pystr) : pystr := PyStr.u "# Pre-market".
End Inputs.

(** * [src/main.py] *)

Module Main.

(** [get_previous_trading_day] of [generate_post_market_report], on
    the ordinal of the date. *)
Definition get_previous_trading_day (date : Z) : Z :=
  let result := (date - 1)%Z in
  if (NotionOutput.weekday result =? 6)%Z then (result - 2)%Z
  else if (NotionOutput.weekday result =? 5)%Z then (result - 1)%Z
  else result.

End Main.

(** * Calendar notions for the statements about trading days *)

Module Calendar.

(** The weekdays (Monday to Friday) among the [n] days from [lo] on. *)
Fixpoint weekdays_from (lo : Z) (n : nat) : nat :=
  match n with
  | O => 0
  | S n' =>
    (if (NotionOutput.weekday lo <? 5)%Z then 1 else 0)
    + weekdays_from (lo + 1)%Z n'
  end.

(** The weekdays from [lo] up to the day before [hi]. *)
Definition weekdays_between (lo hi : Z) : nat :=
  weekdays_from lo (Z.to_nat (hi - lo)).

End Calendar.

(** * More of [src/collectors/entity_matcher.py] *)

Module EntityQueries.
Import EntityMatcher.

(** The entity names that the tables may refer to: the names that have
    an entry of [entity_to_info], and the names whose entry is still to
    be written by the loop body at work. *)
Definition known_entity (pending : list pystr) (tb : tables)
           (e : pystr) : Prop :=
  e ∈ PyDict.keys (entity_to_info tb) \/ e ∈ pending.

(** The tables refer to each other consistently. *)
Record consistent (pending : list pystr) (tb : tables) : Prop := {
  tickers_named :
    forall t info, (t, info) ∈ ticker_to_info tb ->
      t <> [] /\ known_entity pending tb (ti_name info)
      /\ ti_industry info ∈ industries tb;
  aliases_named :
    forall a e, (a, e) ∈ alias_to_entity tb -> known_entity pending tb e;
  aliases_listed :
    forall a t, (a, t) ∈ alias_to_ticker tb ->
      t ∈ PyDict.keys (ticker_to_info tb);
  companies_placed :
    forall e i tk l, (e, CompanyInfo i tk l) ∈ entity_to_info tb ->
      i ∈ industries tb }.

(** What [find_matches] reports is taken from the tables. *)
Definition from_tables (tb : tables) (r : matches) : Prop :=
  (forall t, t ∈ m_tickers r -> t ∈ PyDict.keys (ticker_to_info tb))
  /\ (forall e, e ∈ m_entities r -> e ∈ PyDict.keys (entity_to_info tb))
  /\ (forall i, i ∈ m_industries r -> i ∈ industries tb).

End EntityQueries.

(** * More of [src/analyzers/pre_market_v3.py] *)

Module Ranking.
Import PreMarketV3.

(** The news items that mention a ticker, in the order of the news. *)
Definition mentions (lower : pystr -> pystr) (is_word : N -> bool)
           (ud : UniverseData.t) (ticker : pystr)
           (news_items : list NewsItem.t) : list NewsItem.t :=
  List.filter
    (fun item => bool_decide (ticker ∈ matched_tickers lower is_word item ud))
    news_items.

(** A ticker that may become an event-driven candidate: outside the
    watchlist symbols and in the universe. *)
Definition eligible (ud : UniverseData.t) (watchlist_symbols : gset pystr)
           (ticker : pystr) : Prop :=
  (ticker ∉ watchlist_symbols) /\ ticker ∈ UniverseData.tickers ud.

(** The entry of a ticker after the news items given: none when no
    item mentions it, and else the number of the items that mention it
    and the titles of the first three of them. *)
Definition expected_entry (lower : pystr -> pystr) (is_word : N -> bool)
           (ud : UniverseData.t) (ticker : pystr)
           (news_items : list NewsItem.t) : option EventCandidate.t :=
  match mentions lower is_word ud ticker news_items with
  | [] => None
  | ms =>
    Some {| EventCandidate.symbol := ticker;
            EventCandidate.name :=
              get_or (PyDict.get (UniverseData.ticker_to_name ud) ticker) [];
            EventCandidate.headlines := take 3 (map NewsItem.title ms);
            EventCandidate.count := Z.of_nat (length ms) |}
  end.

(** The entry that [count_mention] writes for a ticker whose entry was
    [o]. *)
Definition entry_after (ud : UniverseData.t) (title ticker : pystr)
           (o : option EventCandidate.t) : EventCandidate.t :=
  let entry :=
    match o with
    | Some e => e
    | None =>
      {| EventCandidate.symbol := ticker;
         EventCandidate.name :=
           get_or (PyDict.get (UniverseData.ticker_to_name ud) ticker) [];
         EventCandidate.headlines := [];
         EventCandidate.count := 0 |}
    end in
  {| EventCandidate.symbol := EventCandidate.symbol entry;
     EventCandidate.name := EventCandidate.name entry;
     EventCandidate.headlines :=
       if length (EventCandidate.headlines entry) <? 3
       then EventCandidate.headlines entry ++ [title]
       else EventCandidate.headlines entry;
     EventCandidate.count := (EventCandidate.count entry + 1)%Z |}.

(** After the news items [done], the dict holds the expected entry of
    every eligible ticker, and nothing else. *)
Definition counted (lower : pystr -> pystr) (is_word : N -> bool)
           (ud : UniverseData.t) (watchlist_symbols : gset pystr)
           (done : list NewsItem.t)
           (c : list (pystr * EventCandidate.t)) : Prop :=
  NoDup (PyDict.keys c)
  /\ forall k, PyDict.get c k
               = if bool_decide (eligible ud watchlist_symbols k)
                 then expected_entry lower is_word ud k done else None.

(** At most [k] reasons, and a score from one point for each reason to
    [s] points more. *)
Definition within (k : nat) (s : Z) (acc : tally) : Prop :=
  length (fst acc) <= k
  /\ (Z.of_nat (length (fst acc)) <= snd acc
      <= Z.of_nat (length (fst acc)) + s)%Z.

(** A lower-case letter, a digit or a space. *)
Definition plain (c : N) : bool :=
  ((97 <=? c) && (c <=? 122) || (48 <=? c) && (c <=? 57) || (c =? 32))%N.


(** No two spaces in a row. *)
Fixpoint single_spaced (s : pystr) : bool :=
  match s with
  | a :: (b :: _) as s' =>
    negb ((a =? 32)%N && (b =? 32)%N) && single_spaced s'
  | _ => true
  end.

End Ranking.

(** * More concrete inputs *)

Module Answers.

(** An answer with both headings of the first stage. *)
Definition snapshot_body : pystr := [10%N] ++ PyStr.u "Calm." ++ [10%N].
Definition changes_rest : pystr := [10%N] ++ PyStr.u "Nothing changed.".
Definition marked_text : pystr :=
  PyStr.u "### Layer 0" ++ snapshot_body
  ++ PyStr.u "### Layer 1" ++ changes_rest.

(** An answer without headings that names the second layer. *)
Definition intro : pystr := PyStr.u "Intro. ".
Definition after_name : pystr := PyStr.u " changes".

End Answers.

(** ** The queries of the matcher *)

Module MatcherQueries.
Import EntityMatcher.

(** [get_entity_info]: [None] is the empty dict returned for a name
    without an entry. *)
Definition get_entity_info (mt : matcher) (entity_name : pystr)
  : option entity_info :=
  PyDict.get (entity_to_info (tbl mt)) entity_name.

Definition get_all_entities (mt : matcher) : list pystr :=
  PyDict.keys (entity_to_info (tbl mt)).

(** [info.get("industry")] *)
Definition info_industry (info : entity_info) : option pystr :=
  match info with
  | CompanyInfo industry _ _ => Some industry
  | PersonInfo _ => None
  | InstitutionInfo => None
  end.

Definition get_entities_by_industry (mt : matcher) (industry : pystr)
  : list pystr :=
  map fst (filter (fun ni => info_industry (snd ni) = Some industry)
                  (entity_to_info (tbl mt))).

(** ** What the tables hold of a catalog *)

Section Indexed.
Variable lower : pystr -> pystr.

(** Each of the aliases is a key of [alias_to_entity]. *)
Definition aliases_indexed (tb : tables) (aliases : list pystr) : Prop :=
  forall a, a ∈ aliases -> lower a ∈ PyDict.keys (alias_to_entity tb).

(** A listed company: its name has an entry of [entity_to_info] and
    its aliases are keys of [alias_to_entity]; with a ticker, the
    ticker has an entry of [ticker_to_info] and the name, the ticker
    and the aliases are keys of [alias_to_ticker]. *)
Definition listed_indexed (tb : tables) (c : company) : Prop :=
  exists name,
    co_name c = Some name
    /\ name ∈ PyDict.keys (entity_to_info tb)
    /\ aliases_indexed tb (get_or (co_aliases c) [])
    /\ let ticker := get_or (co_ticker c) [] in
       (PyStr.truthy ticker = true ->
        ticker ∈ PyDict.keys (ticker_to_info tb)
        /\ forall a, a ∈ name :: ticker :: get_or (co_aliases c) [] ->
                     lower a ∈ PyDict.keys (alias_to_ticker tb)).

(** An unlisted company, a person or an institution: its name has an
    entry of [entity_to_info], and the name and the aliases are keys of
    [alias_to_entity]. *)
Definition named_indexed (tb : tables) (name : option pystr)
           (aliases : option (list pystr)) : Prop :=
  exists n,
    name = Some n
    /\ n ∈ PyDict.keys (entity_to_info tb)
    /\ aliases_indexed tb (n :: get_or aliases []).

Definition industry_indexed (tb : tables) (ic : pystr * categories)
  : Prop :=
  fst ic ∈ industries tb
  /\ (forall c, c ∈ get_or (listed (snd ic)) [] -> listed_indexed tb c)
  /\ (forall c, c ∈ get_or (unlisted (snd ic)) [] ->
                named_indexed tb (co_name c) (co_aliases c)).

Definition person_indexed (tb : tables) (p : person) : Prop :=
  named_indexed tb (pe_name p) (pe_aliases p).

Definition institution_indexed (tb : tables) (i : institution) : Prop :=
  named_indexed tb (in_name i) (in_aliases i).

Definition catalog_indexed (data : catalog) (tb : tables) : Prop :=
  (forall ic, ic ∈ get_or (entities data) [] -> industry_indexed tb ic)
  /\ (forall p, p ∈ get_or (key_people data) [] -> person_indexed tb p)
  /\ (forall i, i ∈ get_or (institutions data) [] ->
                institution_indexed tb i).

End Indexed.

(** The tables only grow: no key and no industry is ever removed. *)
Record grows (tb tb' : tables) : Prop := {
  grows_tickers :
    forall k, k ∈ PyDict.keys (ticker_to_info tb) ->
              k ∈ PyDict.keys (ticker_to_info tb');
  grows_entities :
    forall k, k ∈ PyDict.keys (entity_to_info tb) ->
              k ∈ PyDict.keys (entity_to_info tb');
  grows_aliases :
    forall k, k ∈ PyDict.keys (alias_to_entity tb) ->
              k ∈ PyDict.keys (alias_to_entity tb');
  grows_alias_tickers :
    forall k, k ∈ PyDict.keys (alias_to_ticker tb) ->
              k ∈ PyDict.keys (alias_to_ticker tb');
  grows_industries :
    forall i, i ∈ industries tb -> i ∈ industries tb' }.

End MatcherQueries.

(** * More of [src/outputs/notion.py]: pages as blocks *)

Module NotionBlocks.

(** The blocks that [_markdown_to_blocks] makes: the type of the block
    and the content of its one rich-text item (none for a divider; for
    code also the language). *)
Inductive block :=
| heading_1 (content : pystr)
| heading_2 (content : pystr)
| heading_3 (content : pystr)
| divider
| bulleted_list_item (content : pystr)
| quote (content : pystr)
| code (content language : pystr)
| paragraph (content : pystr).

(** [s.split("\n")] *)
Fixpoint split_lines (s : pystr) : list pystr :=
  match s with
  | [] => [[]]
  | c :: s' =>
    if (c =? 10)%N then [] :: split_lines s'
    else match split_lines s' with
         | l :: ls => (c :: l) :: ls
         | [] => [[c]]
         end
  end.

(** [sep.join(parts)] *)
Fixpoint join (sep : pystr) (parts : list pystr) : pystr :=
  match parts with
  | [] => []
  | p :: ps =>
    match ps with
    | [] => p
    | _ :: _ => p ++ sep ++ join sep ps
    end
  end.

(** [line.strip().startswith("```")] and [line.strip().startswith("|")] *)
Definition is_fence (line : pystr) : bool :=
  PyStr.starts_with (PyStr.u "```") (PyStr.strip line).

Definition is_table (line : pystr) : bool :=
  PyStr.starts_with (PyStr.u "|") (PyStr.strip line).

(** The inner [while] loops: how many lines in a row, from the first
    of [lines], satisfy [keep]. *)
Fixpoint run_length (keep : pystr -> bool) (lines : list pystr) : nat :=
  match lines with
  | [] => 0
  | l :: ls => if keep l then S (run_length keep ls) else 0
  end.

(** The content of a code block *)
Definition truncated_code (content : pystr) : pystr :=
  if 1900 <? length content
  then take 1900 content ++ [10%N] ++ PyStr.u "... (truncated)"
  else content.

Definition languages : list pystr :=
  [PyStr.u "python"; PyStr.u "javascript"; PyStr.u "json";
   PyStr.u "bash"; PyStr.u "sql"; PyStr.u "plain text"].

(** The text of a paragraph *)
Definition truncated_text (text : pystr) : pystr :=
  if 1900 <? length text then take 1900 text ++ PyStr.u "..." else text.

(** The [while i < len(lines)] loop over the lines from [lines[i]] on.
    [skip] is the number of the next lines that an inner loop has
    already consumed: the lines of a code block with its closing fence,
    or the further rows of a table. *)
Fixpoint scan_lines (skip : nat) (lines : list pystr) : list block :=
  match lines with
  | [] => []
  | line :: rest =>
    match skip with
    | S skip' => scan_lines skip' rest
    | O =>
      if negb (PyStr.truthy (PyStr.strip line)) then scan_lines 0 rest
      else if PyStr.starts_with (PyStr.u "# ") line
      then heading_1 (drop 2 line) :: scan_lines 0 rest
      else if PyStr.starts_with (PyStr.u "## ") line
      then heading_2 (drop 3 line) :: scan_lines 0 rest
      else if PyStr.starts_with (PyStr.u "### ") line
      then heading_3 (drop 4 line) :: scan_lines 0 rest
      else if bool_decide (PyStr.strip line = PyStr.u "---")
      then divider :: scan_lines 0 rest
      else if PyStr.starts_with (PyStr.u "- ") (PyStr.strip line)
      then bulleted_list_item (drop 2 (PyStr.strip line))
             :: scan_lines 0 rest
      else if PyStr.starts_with (PyStr.u "> ") (PyStr.strip line)
      then quote (drop 2 (PyStr.strip line)) :: scan_lines 0 rest
      else if is_fence line then
        let language :=
          let l := drop 3 (PyStr.strip line) in
          if PyStr.truthy l then l else PyStr.u "plain text" in
        let n := run_length (fun l => negb (is_fence l)) rest in
        let code_lines := take n rest in
        code (truncated_code (join [10%N] code_lines))
             (if bool_decide (language ∈ languages) then language
              else PyStr.u "plain text")
          :: scan_lines (S n) rest
      else if is_table line then
        let n := run_length is_table rest in
        let table_lines := line :: take n rest in
        code (truncated_code (join [10%N] table_lines))
             (PyStr.u "plain text")
          :: scan_lines n rest
      else paragraph (truncated_text (PyStr.strip line))
             :: scan_lines 0 rest
    end
  end.

Definition _markdown_to_blocks (markdown : pystr) : list block :=
  take 100 (scan_lines 0 (split_lines markdown)).

(** A block as the client lists it: its type and the [plain_text] of
    the items of its [rich_text] (none when the block has no such
    key; a block without a type has none either). *)
Record listed_block := {
  block_type : pystr;
  rich_text : list pystr }.

(** The part of the page text that [get_page_content] makes of a
    block, if any. *)
Definition content_part (b : listed_block) : option pystr :=
  match rich_text b with
  | _ :: _ =>
    let text := concat (rich_text b) in
    if bool_decide (block_type b = PyStr.u "heading_1")
    then Some (PyStr.u "# " ++ text)
    else if bool_decide (block_type b = PyStr.u "heading_2")
    then Some (PyStr.u "## " ++ text)
    else if bool_decide (block_type b = PyStr.u "heading_3")
    then Some (PyStr.u "### " ++ text)
    else if bool_decide (block_type b = PyStr.u "bulleted_list_item")
    then Some (PyStr.u "- " ++ text)
    else if bool_decide (block_type b = PyStr.u "numbered_list_item")
    then Some (PyStr.u "1. " ++ text)
    else if bool_decide (block_type b = PyStr.u "quote")
    then Some (PyStr.u "> " ++ text)
    else if bool_decide (block_type b = PyStr.u "code")
    then Some (PyStr.u "```" ++ [10%N] ++ text ++ [10%N] ++ PyStr.u "```")
    else Some text
  | [] =>
    if bool_decide (block_type b = PyStr.u "divider")
    then Some (PyStr.u "---")
    else None
  end.

(** [get_page_content], given what the client answers to the request
    for the blocks of the page: the blocks, or an exception. *)
Definition get_page_content (response : result (list listed_block))
  : pystr :=
  match response with
  | Ok results => join [10%N; 10%N] (omap content_part results)
  | Raise _ => []
  end.

(** A block of [_markdown_to_blocks] as a store lists it that keeps
    the content as it was sent, in one rich-text item. *)
Definition as_listed (b : block) : listed_block :=
  match b with
  | heading_1 c => {| block_type := PyStr.u "heading_1"; rich_text := [c] |}
  | heading_2 c => {| block_type := PyStr.u "heading_2"; rich_text := [c] |}
  | heading_3 c => {| block_type := PyStr.u "heading_3"; rich_text := [c] |}
  | divider => {| block_type := PyStr.u "divider"; rich_text := [] |}
  | bulleted_list_item c =>
    {| block_type := PyStr.u "bulleted_list_item"; rich_text := [c] |}
  | quote c => {| block_type := PyStr.u "quote"; rich_text := [c] |}
  | code c _ => {| block_type := PyStr.u "code"; rich_text := [c] |}
  | paragraph c => {| block_type := PyStr.u "paragraph"; rich_text := [c] |}
  end.

(** The limits of a block: a paragraph and a code block are cut, and
    the language of a code block is one of the known ones. *)
Definition within_limits (b : block) : Prop :=
  match b with
  | paragraph c => length c <= 1903
  | code c language => length c <= 1916 /\ language ∈ languages
  | _ => True
  end.

(** The content of a block, if it has one. *)
Definition block_content (b : block) : option pystr :=
  match b with
  | heading_1 c | heading_2 c | heading_3 c | bulleted_list_item c
  | quote c | paragraph c | code c _ => Some c
  | divider => None
  end.

(** A line that is written back as it is: stripped, not empty, without
    a line feed, of at most 1900 characters, neither a fence nor a row
    of a table. *)
Definition simple_line (l : pystr) : bool :=
  PyStr.truthy l && bool_decide (PyStr.strip l = l)
  && bool_decide (10%N ∉ l) && (length l <=? 1900)
  && negb (is_fence l) && negb (is_table l).

End NotionBlocks.

(** * [src/collectors/universe.py] *)

Module UniverseCollector.
Import PreMarketV3.

(** An item of a list of constituents or of holdings, as the API
    gives it; a key that is absent or null is [None]. *)
Record item := {
  symbol : option pystr;
  name : option pystr;
  asset : option pystr;
  assetName : option pystr }.

(** [x or y], where [x] is a string or [None] *)
Definition or_else (x : option pystr) (y : pystr) : pystr :=
  match x with
  | Some s => if PyStr.truthy s then s else y
  | None => y
  end.

(** [d.setdefault(k, v)] *)
Definition setdefault {V} (d : list (pystr * V)) (k : pystr) (v : V)
  : list (pystr * V) :=
  match PyDict.get d k with
  | Some _ => d
  | None => PyDict.setitem d k v
  end.

Definition suffixes : list pystr :=
  [PyStr.u "inc"; PyStr.u "incorporated"; PyStr.u "corp";
   PyStr.u "corporation"; PyStr.u "ltd"; PyStr.u "plc"; PyStr.u "co";
   PyStr.u "company"; PyStr.u "holdings"; PyStr.u "holding";
   PyStr.u "group"; PyStr.u "sa"; PyStr.u "ag"; PyStr.u "nv";
   PyStr.u "lp"].

Section Unicode.
(** The Unicode tables of the runtime: [str.lower], [str.upper] and
    the word characters [\w]. *)
Variable lower upper : pystr -> pystr.
Variable is_word : N -> bool.

(** [re.sub(rf"\b{suffix}\b", " ", text)] from the character after
    [prev] on. [skip] is the number of the next characters that belong
    to the match just replaced. *)
Fixpoint sub_word (suffix : pystr) (skip : nat) (prev : option N)
         (text : pystr) : pystr :=
  match text with
  | [] => []
  | c :: rest =>
    match skip with
    | S skip' => sub_word suffix skip' (Some c) rest
    | O =>
      if PyRe.boundary is_word prev (Some c)
         && PyStr.starts_with suffix text
         && PyRe.boundary is_word (last suffix)
                          (head (drop (length suffix) text))
      then 32%N :: sub_word suffix (length suffix - 1) (Some c) rest
      else c :: sub_word suffix 0 (Some c) rest
    end
  end.

Definition _normalize_name (name : pystr) : pystr :=
  let text := lower name in
  let text := map keep_or_space text in
  let text :=
    fold_left (fun text suffix => sub_word suffix 0 None text)
              suffixes text in
  PyStr.strip (collapse_spaces false text).

(** The settings and the API *)
Variable api_key : option pystr.
Variable UNIVERSE_INCLUDE_SP500 : bool.
Variable UNIVERSE_ETF_HOLDINGS : list pystr.
Variable _fetch_sp500 : list item.
Variable _fetch_etf_holdings : pystr -> list item.

(** The body of the loop over the constituents *)
Definition add_constituent (tickers : list (pystr * pystr)) (it : item)
  : list (pystr * pystr) :=
  let symbol := upper (PyStr.strip (or_else (symbol it) [])) in
  let name := PyStr.strip (or_else (name it) []) in
  if PyStr.truthy symbol then setdefault tickers symbol name else tickers.

(** The body of the loop over the holdings of one fund *)
Definition add_holding (tickers : list (pystr * pystr)) (it : item)
  : list (pystr * pystr) :=
  let symbol :=
    upper (PyStr.strip (or_else (symbol it) (or_else (asset it) []))) in
  let name :=
    PyStr.strip (or_else (name it) (or_else (assetName it) [])) in
  if PyStr.truthy symbol then setdefault tickers symbol name else tickers.

(** The body of the loop that makes [name_to_ticker] *)
Definition add_names (name_to_ticker : list (pystr * pystr))
           (entry : pystr * pystr) : list (pystr * pystr) :=
  let '(symbol, name) := entry in
  if negb (PyStr.truthy name) then name_to_ticker
  else
    let raw_name := PyStr.strip (lower name) in
    let name_to_ticker :=
      if 4 <=? length raw_name
      then setdefault name_to_ticker raw_name symbol
      else name_to_ticker in
    let normalized := _normalize_name name in
    if PyStr.truthy normalized && (4 <=? length normalized)
    then setdefault name_to_ticker normalized symbol
    else name_to_ticker.

(** [get_universe]: the universe and [last_warning]. *)
Definition get_universe : UniverseData.t * pystr :=
  if negb (PyStr.truthy (get_or api_key [])) then
    ({| UniverseData.tickers := ∅;
        UniverseData.ticker_to_name := [];
        UniverseData.name_to_ticker := [] |},
     PyStr.u "未設定 FMP_API_KEY")
  else
    let tickers :=
      if UNIVERSE_INCLUDE_SP500
      then fold_left add_constituent _fetch_sp500 []
      else [] in
    let tickers :=
      fold_left (fun tickers etf =>
                   fold_left add_holding (_fetch_etf_holdings etf) tickers)
                UNIVERSE_ETF_HOLDINGS tickers in
    let ticker_to_name := tickers in
    let name_to_ticker := fold_left add_names ticker_to_name [] in
    ({| UniverseData.tickers := list_to_set (PyDict.keys ticker_to_name);
        UniverseData.ticker_to_name := ticker_to_name;
        UniverseData.name_to_ticker := name_to_ticker |}, []).

End Unicode.

(** The two names under which a company is filed: its name in lower
    case, stripped, and its normalized name. *)
Definition filed_as (lower : pystr -> pystr) (is_word : N -> bool)
           (full n : pystr) : Prop :=
  n = PyStr.strip (lower full) \/ n = _normalize_name lower is_word full.

End UniverseCollector.

(** * [src/collectors/news.py]: duplicates *)

Module NewsCollector.
Import PreMarketV3.

Section Unicode.
(** The Unicode tables of the runtime: [str.lower] and the word
    characters [\w]. *)
Variable lower : pystr -> pystr.
Variable is_word : N -> bool.

(** [re.sub(r'[^\w\s]', '', title.lower())[:50]] *)
Definition normalized_title (title : pystr) : pystr :=
  take 50 (filter (fun c => is_word c || PyStr.is_space c) (lower title)).

(** The loop of [_deduplicate], with its two variables. *)
Fixpoint dedup_loop (items : list NewsItem.t) (seen_titles : gset pystr)
         (unique_items : list NewsItem.t) : list NewsItem.t :=
  match items with
  | [] => unique_items
  | item :: items' =>
    let normalized := normalized_title (NewsItem.title item) in
    if bool_decide (normalized ∉ seen_titles)
    then dedup_loop items' (seen_titles ∪ {[ normalized ]})
                    (unique_items ++ [item])
    else dedup_loop items' seen_titles unique_items
  end.

Definition _deduplicate (items : list NewsItem.t) : list NewsItem.t :=
  dedup_loop items ∅ [].

(** What the loop appends to [unique_items]. *)
Fixpoint appended (seen_titles : gset pystr) (items : list NewsItem.t)
  : list NewsItem.t :=
  match items with
  | [] => []
  | item :: items' =>
    let normalized := normalized_title (NewsItem.title item) in
    if bool_decide (normalized ∉ seen_titles)
    then item :: appended (seen_titles ∪ {[ normalized ]}) items'
    else appended seen_titles items'
  end.

End Unicode.
End NewsCollector.

(** * The catalog as a YAML document *)

Module RawCatalog.
Import EntityMatcher.

(** A value that [yaml.safe_load] returns for the tags null, bool,
    int, float, timestamp, str, seq and map. A boolean, a number or a
    timestamp is a scalar that is hashable and is neither a string nor
    a container: all that [_load_entities] can tell of it is its truth
    value. The keys of a mapping are distinct and can be hashed. *)
#[warnings="-register-all"]
Inductive yaml :=
| YNull
| YScalar (truth : bool)
| YStr (s : pystr)
| YSeq (items : list yaml)
| YMap (entries : list (yaml * yaml)).

(** What a run comes to: it is done, or an exception of a class
    escapes. *)
Inductive attempt (A : Type) : Type :=
| Done (a : A)
| Fails (class : string).
Arguments Done {A} a.
Arguments Fails {A} class.

Definition abind {A B} (r : attempt A) (k : A -> attempt B) : attempt B :=
  match r with
  | Done a => k a
  | Fails c => Fails c
  end.

Notation "x <~~ r ;; k" := (abind r (fun x => k))
  (at level 100, r at next level, right associativity).

(** A [for] loop over values. *)
Fixpoint each {A} (body : A -> attempt unit) (xs : list A) : attempt unit :=
  match xs with
  | [] => Done tt
  | x :: xs' => _ <~~ body x ;; each body xs'
  end.

(** [bool(v)] *)
Definition truthy (v : yaml) : bool :=
  match v with
  | YNull => false
  | YScalar truth => truth
  | YStr s => PyStr.truthy s
  | YSeq items => match items with [] => false | _ => true end
  | YMap entries => match entries with [] => false | _ => true end
  end.

(** The value of a mapping under the string key [k]. *)
Definition is_key (k : string) (y : yaml) : bool :=
  match y with
  | YStr s => bool_decide (s = PyStr.u k)
  | _ => false
  end.

Fixpoint entry (k : string) (entries : list (yaml * yaml)) : option yaml :=
  match entries with
  | [] => None
  | (y, v) :: entries' => if is_key k y then Some v else entry k entries'
  end.

(** [v.get(k, dflt)]: only a mapping has the method. *)
Definition get (v : yaml) (k : string) (dflt : yaml) : attempt yaml :=
  match v with
  | YMap entries => Done (get_or (entry k entries) dflt)
  | _ => Fails "AttributeError"
  end.

(** [v.items()] *)
Definition items (v : yaml) : attempt (list (yaml * yaml)) :=
  match v with
  | YMap entries => Done entries
  | _ => Fails "AttributeError"
  end.

(** [v[k]] for a string [k]: a mapping without the key raises
    [KeyError]; no other value can be indexed by a string. *)
Definition subscript (v : yaml) (k : string) : attempt yaml :=
  match v with
  | YMap entries =>
    match entry k entries with
    | Some x => Done x
    | None => Fails "KeyError"
    end
  | _ => Fails "TypeError"
  end.

(** [for x in v]: a string gives its characters, a mapping its keys. *)
Definition iter (v : yaml) : attempt (list yaml) :=
  match v with
  | YSeq items => Done items
  | YStr s => Done (map (fun c => YStr [c]) s)
  | YMap entries => Done (map fst entries)
  | YNull => Fails "TypeError"
  | YScalar _ => Fails "TypeError"
  end.

(** [v.lower()]: only a string has the method. *)
Definition lower_of (v : yaml) : attempt unit :=
  match v with
  | YStr _ => Done tt
  | _ => Fails "AttributeError"
  end.

(** [d[v] = ...]: a sequence and a mapping cannot be hashed. *)
Definition as_key (v : yaml) : attempt unit :=
  match v with
  | YSeq _ => Fails "TypeError"
  | YMap _ => Fails "TypeError"
  | _ => Done tt
  end.

(** ** The statements of [_load_entities] that can raise, in their
    order. The writes to the tables raise only through their key. *)

Definition load_listed (company : yaml) : attempt unit :=
  name <~~ subscript company "name" ;;
  ticker <~~ get company "ticker" (YStr []) ;;
  aliases <~~ get company "aliases" (YSeq []) ;;
  _ <~~ (if truthy ticker then
           _ <~~ as_key ticker ;;
           _ <~~ lower_of name ;;
           lower_of ticker
         else Done tt) ;;
  _ <~~ as_key name ;;
  aliases <~~ iter aliases ;;
  each lower_of aliases.

Definition load_unlisted (company : yaml) : attempt unit :=
  name <~~ subscript company "name" ;;
  aliases <~~ get company "aliases" (YSeq []) ;;
  _ <~~ as_key name ;;
  _ <~~ lower_of name ;;
  aliases <~~ iter aliases ;;
  each lower_of aliases.

Definition load_industry (industry_categories : yaml * yaml)
  : attempt unit :=
  let categories := snd industry_categories in
  listed <~~ get categories "listed" (YSeq []) ;;
  listed <~~ iter listed ;;
  _ <~~ each load_listed listed ;;
  unlisted <~~ get categories "unlisted" (YSeq []) ;;
  unlisted <~~ iter unlisted ;;
  each load_unlisted unlisted.

Definition load_person (person : yaml) : attempt unit :=
  name <~~ subscript person "name" ;;
  entities <~~ get person "entities" (YSeq []) ;;
  aliases <~~ get person "aliases" (YSeq []) ;;
  _ <~~ lower_of name ;;
  aliases <~~ iter aliases ;;
  _ <~~ each lower_of aliases ;;
  as_key name.

Definition load_institution (inst : yaml) : attempt unit :=
  name <~~ subscript inst "name" ;;
  aliases <~~ get inst "aliases" (YSeq []) ;;
  _ <~~ as_key name ;;
  _ <~~ lower_of name ;;
  aliases <~~ iter aliases ;;
  each lower_of aliases.

Definition _load_entities (data : yaml) : attempt unit :=
  entities <~~ get data "entities" (YMap []) ;;
  entities <~~ items entities ;;
  _ <~~ each load_industry entities ;;
  people <~~ get data "key_people" (YSeq []) ;;
  people <~~ iter people ;;
  _ <~~ each load_person people ;;
  institutions <~~ get data "institutions" (YSeq []) ;;
  institutions <~~ iter institutions ;;
  each load_institution institutions.

(** ** The documents whose values have the expected types *)

Definition field (k : string) (v : option yaml) : list (yaml * yaml) :=
  match v with
  | Some v => [(YStr (PyStr.u k), v)]
  | None => []
  end.

Definition strings (l : list pystr) : yaml := YSeq (map YStr l).

Definition of_company (c : company) : yaml :=
  YMap (field "name" (option_map YStr (co_name c))
        ++ field "ticker" (option_map YStr (co_ticker c))
        ++ field "aliases" (option_map strings (co_aliases c))).

Definition of_categories (cats : categories) : yaml :=
  YMap (field "listed"
              (option_map (fun l => YSeq (map of_company l)) (listed cats))
        ++ field "unlisted"
                 (option_map (fun l => YSeq (map of_company l))
                             (unlisted cats))).

Definition of_person (p : person) : yaml :=
  YMap (field "name" (option_map YStr (pe_name p))
        ++ field "entities" (option_map strings (pe_entities p))
        ++ field "aliases" (option_map strings (pe_aliases p))).

Definition of_institution (i : institution) : yaml :=
  YMap (field "name" (option_map YStr (in_name i))
        ++ field "aliases" (option_map strings (in_aliases i))).

(** The document of a catalog: a key is present when the catalog has
    it, with a value of the expected type. *)
Definition of_catalog (data : catalog) : yaml :=
  YMap (field "entities"
              (option_map
                 (fun l => YMap (map (fun ic => (YStr (fst ic),
                                                 of_categories (snd ic))) l))
                 (entities data))
        ++ field "key_people"
                 (option_map (fun l => YSeq (map of_person l))
                             (key_people data))
        ++ field "institutions"
                 (option_map (fun l => YSeq (map of_institution l))
                             (institutions data))).

(** The outcome of the construction of the matcher. *)
Definition outcome (r : result matcher) : attempt unit :=
  match r with
  | Ok _ => Done tt
  | Raise e => Fails (exc_class e)
  end.

(** The classes of the exceptions of the construction. *)
Definition builtin_error (class : string) : Prop :=
  class = "KeyError"%string \/ class = "TypeError"%string
  \/ class = "AttributeError"%string.

Definition builtin_outcome {A} (r : attempt A) : Prop :=
  match r with
  | Done _ => True
  | Fails class => builtin_error class
  end.

(** Documents that miss no key, with a value of another type: an
    empty file, null aliases, and a number as the name of a company
    with a ticker. *)
Definition empty_file : yaml := YNull.

Definition company_doc (name aliases : yaml) : yaml :=
  YMap [(YStr (PyStr.u "entities"),
         YMap [(YStr (PyStr.u "ai"),
                YMap [(YStr (PyStr.u "listed"),
                       YSeq [YMap [(YStr (PyStr.u "name"), name);
                                   (YStr (PyStr.u "ticker"),
                                    YStr (PyStr.u "NVDA"));
                                   (YStr (PyStr.u "aliases"), aliases)]])])])].

Definition null_aliases : yaml :=
  company_doc (YStr (PyStr.u "NVIDIA")) YNull.

Definition number_as_name : yaml :=
  company_doc (YScalar true) (YSeq []).

End RawCatalog.

(** * Aliases of one character: inputs *)

Module ShortAliases.
Import EntityMatcher.

(** [str.lower] on the ASCII letters and on "İ" (U+0130), whose lower
    case has the two code points "i" and U+0307 (combining dot above);
    every other character is kept. *)
Definition dotted_lower_cp (c : N) : pystr :=
  if (c =? 304)%N then [105%N; 775%N] else [PyStr.ascii_lower_cp c].
Definition dotted_lower (s : pystr) : pystr :=
  flat_map dotted_lower_cp s.

(** The aliases that a catalog registers for the entity pattern: the
    aliases of every entry, and the names of the unlisted companies, of
    the people and of the institutions. *)
Definition name_list (o : option pystr) : list pystr :=
  match o with Some n => [n] | None => [] end.

Definition industry_aliases (ic : pystr * categories) : list pystr :=
  flat_map (fun c => get_or (co_aliases c) []) (get_or (listed (snd ic)) [])
  ++ flat_map (fun c => name_list (co_name c) ++ get_or (co_aliases c) [])
              (get_or (unlisted (snd ic)) []).

Definition registered_aliases (data : catalog) : list pystr :=
  flat_map industry_aliases (get_or (entities data) [])
  ++ flat_map (fun p => name_list (pe_name p) ++ get_or (pe_aliases p) [])
              (get_or (key_people data) [])
  ++ flat_map (fun i => name_list (in_name i) ++ get_or (in_aliases i) [])
              (get_or (institutions data) []).

(** A catalog with the one-character alias "İ". *)
Definition isbank : catalog :=
  {| entities :=
       Some [ (PyStr.u "banks",
               {| listed := None;
                  unlisted :=
                    Some [ {| co_name := Some (PyStr.u "Isbank");
                              co_ticker := None;
                              co_aliases := Some [PyStr.u "İ"] |} ] |}) ];
     key_people := None;
     institutions := None |}.

Definition isbank_matcher : matcher :=
  match _load_entities dotted_lower isbank with
  | Ok mt => mt
  | Raise _ => _build_patterns empty_tables
  end.

End ShortAliases.

(** * The previous-content lookup *)

Module NotionFacts.
Import NotionOutput.

Lemma loop_unfold offset result days_back :
  trading_day_loop offset result days_back =
  if decide (days_back < offset)%Z then
    if decide (weekday (result - 1) < 5)%Z
    then trading_day_loop offset (result - 1) (days_back + 1)
    else trading_day_loop offset (result - 1) days_back
  else result.
Proof.
  rewrite trading_day_loop_equation_1.
  destruct (decide (days_back < offset)%Z); simpl; [|reflexivity].
  destruct (decide (weekday (result - 1) < 5)%Z); simpl;
    simp trading_day_loop; reflexivity.
Qed.

(** Whenever the loop runs at least once, it stops on a weekday. *)
Lemma loop_weekday offset result days_back :
  (days_back < offset)%Z ->
  (0 <= weekday (trading_day_loop offset result days_back) < 5)%Z.
Proof.
  funelim (trading_day_loop offset result days_back); intros Hlt.
  - contradiction.
  - destruct (decide (days_back + 1 < offset)%Z) as [Hmore|Hdone].
    + auto.
    + rewrite loop_unfold.
      destruct (decide (days_back + 1 < offset)%Z); [contradiction|].
      split; [|assumption]. unfold weekday. apply Z.mod_pos_bound. lia.
  - auto.
Qed.

Ltac weekday_arith :=
  unfold weekday in *; Z.to_euclidean_division_equations; lia.

(** The first date tried: one day back, or the Friday before a Sunday
    or a Monday. *)
Lemma previous_trading_day_1 d :
  get_previous_trading_day d 1 =
  (d - (if weekday d =? 0 then 3 else if weekday d =? 6 then 2 else 1))%Z.
Proof.
  unfold get_previous_trading_day.
  destruct (Z.eqb_spec (weekday d) 0) as [Hmon|Hmon];
    [|destruct (Z.eqb_spec (weekday d) 6) as [Hsun|Hsun]];
    do 4 (rewrite loop_unfold; repeat case_decide; try lia;
          try weekday_arith).
Qed.

Section Store.
Variable find_page_by_title : pystr -> option pystr.
Variable get_page_content : pystr -> pystr.

Local Abbreviation fetch :=
  (get_pre_market_content find_page_by_title get_page_content).
Local Abbreviation resolve :=
  (get_yesterday_pre_market find_page_by_title get_page_content).
Local Abbreviation tries :=
  (try_lookbacks find_page_by_title get_page_content).

Lemma try_lookbacks_asked current lookbacks asked :
  Forall (fun k => (0 < k)%Z) lookbacks ->
  Forall (fun d => (0 <= weekday d < 5)%Z) asked ->
  Forall (fun d => (0 <= weekday d < 5)%Z)
         (snd (tries current lookbacks asked))
  /\ length (snd (tries current lookbacks asked))
     <= length asked + length lookbacks.
Proof.
  revert asked. induction lookbacks as [|k ks IH]; intros asked Hk Ha.
  - cbn [try_lookbacks snd length]. split; [assumption|lia].
  - inversion Hk as [|? ? Hk0 Hks]; subst.
    assert (Hnew : Forall (fun d => (0 <= weekday d < 5)%Z)
                     (asked ++ [get_previous_trading_day current k])).
    { apply Forall_app. split; [assumption|].
      constructor; [|constructor].
      apply loop_weekday. assumption. }
    cbn [try_lookbacks].
    destruct (PyStr.truthy _).
    + destruct (k =? 1)%Z; cbn [snd length]; rewrite length_app;
        cbn [length]; (split; [assumption|lia]).
    + destruct (IH _ Hks Hnew) as [IH1 IH2].
      rewrite length_app in IH2. cbn [length] in *.
      split; [assumption|lia].
Qed.

(** The dates asked for so far stay at the head of the list. *)
Lemma try_lookbacks_extends current lookbacks asked :
  exists more, snd (tries current lookbacks asked) = asked ++ more.
Proof.
  revert asked. induction lookbacks as [|k ks IH]; intros asked.
  - exists []. cbn [try_lookbacks snd]. rewrite app_nil_r. reflexivity.
  - cbn [try_lookbacks].
    destruct (PyStr.truthy _).
    + exists [get_previous_trading_day current k].
      destruct (k =? 1)%Z; reflexivity.
    + destruct (IH (asked ++ [get_previous_trading_day current k]))
        as [more Hmore].
      exists (get_previous_trading_day current k :: more).
      rewrite Hmore, <- app_assoc. reflexivity.
Qed.

(** C7: every date for which the store is asked is a weekday, the
    store is asked for one to three dates, and the first of them is
    the day before the current date, or the Friday before it when the
    current date is a Monday (or a Sunday). *)
Theorem attempted_dates_are_weekdays (current_date : Z) :
  let asked := snd (resolve current_date) in
  Forall (fun d => (0 <= weekday d < 5)%Z) asked
  /\ 1 <= length asked <= 3
  /\ head asked =
     Some (current_date
           - (if weekday current_date =? 0 then 3
              else if weekday current_date =? 6 then 2 else 1))%Z.
Proof.
  unfold get_yesterday_pre_market. cbv zeta.
  assert (Hpos : Forall (fun k => (0 < k)%Z) [1; 2; 3]%Z)
    by (repeat constructor).
  destruct (try_lookbacks_asked current_date [1; 2; 3]%Z [] Hpos
                                (List.Forall_nil _)) as [Hall Hlen].
  assert (Hhead : exists more,
             snd (tries current_date [1; 2; 3]%Z [])
             = get_previous_trading_day current_date 1 :: more).
  { cbn [try_lookbacks].
    destruct (PyStr.truthy _).
    - exists []. reflexivity.
    - apply (try_lookbacks_extends current_date [2; 3]%Z
               ([] ++ [get_previous_trading_day current_date 1])). }
  destruct Hhead as [more Hmore].
  split; [assumption|]. split.
  - rewrite Hmore in *. cbn [length] in *. lia.
  - rewrite Hmore. cbn [head]. rewrite previous_trading_day_1.
    reflexivity.
Qed.

(** The note of a fallback report is never empty. *)
Lemma fallback_note_not_empty (a b c d : pystr) :
  PyStr.u "使用 " ++ a ++ b ++ c ++ d <> [].
Proof.
  destruct (PyStr.u "使用 ") eqn:E; [vm_compute in E; discriminate|].
  discriminate.
Qed.

(** C6: content on the first business day tried gives an available
    report from the source ["notion"] (the primary source); content
    only on the second or the third gives an available report from
    the source ["fallback"] with a note that is not empty; no content
    on any of the three gives the unavailable report with its fixed
    note. *)
Theorem previous_content_provenance (current_date : Z) :
  let r := fst (resolve current_date) in
  let found k :=
    PyStr.truthy (fetch (get_previous_trading_day current_date k)) in
  (found 1%Z = true ->
   available r = true /\ source r = PyStr.u "notion")
  /\ (found 1%Z = false -> found 2%Z = true \/ found 3%Z = true ->
      available r = true /\ source r = PyStr.u "fallback"
      /\ fallback_note r <> [])
  /\ (found 1%Z = false -> found 2%Z = false -> found 3%Z = false ->
      available r = false /\ source r = PyStr.u "unavailable"
      /\ fallback_note r
         = PyStr.u "昨日報告不可用，變化判斷基於較長時間框架"
      /\ content r = []).
Proof.
  unfold get_yesterday_pre_market. cbv zeta.
  cbn [try_lookbacks].
  change (1 =? 1)%Z with true. change (2 =? 1)%Z with false.
  change (3 =? 1)%Z with false. cbv iota.
  generalize (get_pre_market_content find_page_by_title get_page_content
                (get_previous_trading_day current_date 1)) as c1.
  generalize (get_pre_market_content find_page_by_title get_page_content
                (get_previous_trading_day current_date 2)) as c2.
  generalize (get_pre_market_content find_page_by_title get_page_content
                (get_previous_trading_day current_date 3)) as c3.
  intros c3 c2 c1.
  destruct (PyStr.truthy c1), (PyStr.truthy c2), (PyStr.truthy c3);
    cbn [fst available source fallback_note content];
    (split; [|split]); intros; repeat split;
    try discriminate; try reflexivity;
    try match goal with
        | H : _ \/ _ |- _ => destruct H; discriminate
        end;
    apply fallback_note_not_empty.
Qed.
End Store.

(** On Thursday 2026-11-05 (ordinal 739925): the three cases. *)
Lemma previous_content_provenance_witness :
  let r4 := fst (get_yesterday_pre_market Inputs.store_1104 Inputs.page_text 739925) in
  let r3 := fst (get_yesterday_pre_market Inputs.store_1103 Inputs.page_text 739925) in
  let r0 := fst (get_yesterday_pre_market Inputs.empty_store Inputs.page_text 739925) in
  (available r4 = true /\ source r4 = PyStr.u "notion")
  /\ (available r3 = true /\ source r3 = PyStr.u "fallback"
      /\ fallback_note r3 <> [])
  /\ (available r0 = false /\ source r0 = PyStr.u "unavailable"
      /\ fallback_note r0
         = PyStr.u "昨日報告不可用，變化判斷基於較長時間框架"
      /\ content r0 = []).
Proof.
  split; [|split].
  - apply (previous_content_provenance Inputs.store_1104 Inputs.page_text 739925).
    vm_compute. reflexivity.
  - apply (previous_content_provenance Inputs.store_1103 Inputs.page_text 739925).
    + vm_compute. reflexivity.
    + left. vm_compute. reflexivity.
  - apply (previous_content_provenance Inputs.empty_store Inputs.page_text 739925);
      vm_compute; reflexivity.
Defined.
End NotionFacts.

(** * The alias index and the matcher *)

Module EntityMatcherFacts.
Import EntityMatcher.

(** ** Loops that may raise *)

Section ForEach.
Context {A S : Type} (body : S -> A -> result S) (named : A -> bool).
Variable e0 : pyexc.
Hypothesis body_named :
  forall s x, named x = true -> exists s', body s x = Ok s'.
Hypothesis body_nameless :
  forall s x, named x = false -> body s x = Raise e0.

Lemma for_each_named xs s :
  forallb named xs = true -> exists s', for_each body xs s = Ok s'.
Proof.
  revert s. induction xs as [|x xs IH]; intros s Hall.
  - exists s. reflexivity.
  - cbn [forallb] in Hall. apply andb_prop in Hall as [Hx Hxs].
    destruct (body_named s x Hx) as [s' Hs'].
    cbn [for_each]. rewrite Hs'. cbn [rbind]. apply IH. assumption.
Qed.

Lemma for_each_nameless xs s :
  forallb named xs = false -> for_each body xs s = Raise e0.
Proof.
  revert s. induction xs as [|x xs IH]; intros s Hsome.
  - discriminate.
  - cbn [forallb] in Hsome. cbn [for_each].
    destruct (named x) eqn:Hx.
    + destruct (body_named s x Hx) as [s' Hs']. rewrite Hs'.
      cbn [rbind]. apply IH. assumption.
    + rewrite (body_nameless s x Hx). reflexivity.
Qed.
End ForEach.

Section Load.
Variable lower : pystr -> pystr.

Lemma load_listed_named industry tb c :
  has_name (co_name c) = true ->
  exists tb', load_listed lower industry tb c = Ok tb'.
Proof.
  unfold load_listed. destruct (co_name c); [|discriminate].
  intros _. cbn [getitem rbind]. eexists. reflexivity.
Qed.

Lemma load_listed_nameless industry tb c :
  has_name (co_name c) = false ->
  load_listed lower industry tb c = Raise (KeyError "name").
Proof.
  unfold load_listed. destruct (co_name c); [discriminate|reflexivity].
Qed.

Lemma load_unlisted_named industry tb c :
  has_name (co_name c) = true ->
  exists tb', load_unlisted lower industry tb c = Ok tb'.
Proof.
  unfold load_unlisted. destruct (co_name c); [|discriminate].
  intros _. cbn [getitem rbind]. eexists. reflexivity.
Qed.

Lemma load_unlisted_nameless industry tb c :
  has_name (co_name c) = false ->
  load_unlisted lower industry tb c = Raise (KeyError "name").
Proof.
  unfold load_unlisted. destruct (co_name c); [discriminate|reflexivity].
Qed.

Lemma load_industry_named tb ic :
  categories_named ic = true ->
  exists tb', load_industry lower tb ic = Ok tb'.
Proof.
  destruct ic as [industry cats]. unfold categories_named, load_industry.
  cbn [snd]. intros H. apply andb_prop in H as [Hl Hu].
  destruct (for_each_named (load_listed lower industry)
              (fun c => has_name (co_name c))
              (load_listed_named industry)
              (get_or (listed cats) []) (add_industry tb industry) Hl)
    as [tb1 H1].
  rewrite H1. cbn [rbind].
  apply (for_each_named (load_unlisted lower industry)
           (fun c => has_name (co_name c))
           (load_unlisted_named industry)). assumption.
Qed.

Lemma load_industry_nameless tb ic :
  categories_named ic = false ->
  load_industry lower tb ic = Raise (KeyError "name").
Proof.
  destruct ic as [industry cats]. unfold categories_named, load_industry.
  cbn [snd]. intros H.
  destruct (forallb (fun c => has_name (co_name c))
                    (get_or (listed cats) [])) eqn:Hl.
  - destruct (for_each_named (load_listed lower industry)
                (fun c => has_name (co_name c))
                (load_listed_named industry)
                (get_or (listed cats) []) (add_industry tb industry) Hl)
      as [tb1 H1].
    rewrite H1. cbn [rbind].
    apply (for_each_nameless (load_unlisted lower industry)
             (fun c => has_name (co_name c)) (KeyError "name")
             (load_unlisted_named industry)
             (load_unlisted_nameless industry)).
    cbn [andb] in H. assumption.
  - rewrite (for_each_nameless (load_listed lower industry)
               (fun c => has_name (co_name c)) (KeyError "name")
               (load_listed_named industry)
               (load_listed_nameless industry) _ _ Hl).
    reflexivity.
Qed.

Lemma load_person_named tb p :
  has_name (pe_name p) = true ->
  exists tb', load_person lower tb p = Ok tb'.
Proof.
  unfold load_person. destruct (pe_name p); [|discriminate].
  intros _. cbn [getitem rbind]. eexists. reflexivity.
Qed.

Lemma load_person_nameless tb p :
  has_name (pe_name p) = false ->
  load_person lower tb p = Raise (KeyError "name").
Proof.
  unfold load_person. destruct (pe_name p); [discriminate|reflexivity].
Qed.

Lemma load_institution_named tb i :
  has_name (in_name i) = true ->
  exists tb', load_institution lower tb i = Ok tb'.
Proof.
  unfold load_institution. destruct (in_name i); [|discriminate].
  intros _. cbn [getitem rbind]. eexists. reflexivity.
Qed.

Lemma load_institution_nameless tb i :
  has_name (in_name i) = false ->
  load_institution lower tb i = Raise (KeyError "name").
Proof.
  unfold load_institution. destruct (in_name i); [discriminate|reflexivity].
Qed.

(** A catalog in which some company, person or institution lacks its
    ["name"] key makes the construction fail with [KeyError('name')];
    every other catalog is accepted. *)
Lemma nameless_catalog_raises_KeyError (data : catalog) :
  (catalog_named data = false ->
   _load_entities lower data = Raise (KeyError "name"))
  /\ (catalog_named data = true ->
      exists mt, _load_entities lower data = Ok mt).
Proof.
  unfold catalog_named, _load_entities, load_tables.
  destruct (forallb categories_named (get_or (entities data) [])) eqn:He.
  - destruct (for_each_named (load_industry lower) categories_named
                load_industry_named _ empty_tables He) as [tb1 H1].
    rewrite H1. cbn [rbind andb].
    destruct (forallb (fun p => has_name (pe_name p))
                      (get_or (key_people data) [])) eqn:Hp.
    + destruct (for_each_named (load_person lower)
                  (fun p => has_name (pe_name p))
                  load_person_named _ tb1 Hp) as [tb2 H2].
      rewrite H2. cbn [rbind andb].
      split; intros Hi.
      * rewrite (for_each_nameless (load_institution lower)
                   (fun i => has_name (in_name i)) (KeyError "name")
                   load_institution_named load_institution_nameless
                   _ tb2 Hi).
        reflexivity.
      * destruct (for_each_named (load_institution lower)
                    (fun i => has_name (in_name i))
                    load_institution_named _ tb2 Hi) as [tb3 H3].
        rewrite H3. cbn [rbind]. eexists. reflexivity.
    + rewrite (for_each_nameless (load_person lower)
                 (fun p => has_name (pe_name p)) (KeyError "name")
                 load_person_named load_person_nameless _ tb1 Hp).
      cbn [rbind andb]. split; [reflexivity|discriminate].
  - rewrite (for_each_nameless (load_industry lower) categories_named
               (KeyError "name") load_industry_named
               load_industry_nameless _ empty_tables He).
    cbn [rbind andb]. split; [reflexivity|discriminate].
Qed.
End Load.

(** C9, as stated, fails: the catalog [Inputs.nameless] misses a
    required key, and the error it is refused with is of class
    [KeyError], not [ConfigError]. *)
Lemma nameless_catalog_error_is_not_ConfigError :
  catalog_named Inputs.nameless = false
  /\ exists e, load_ascii Inputs.nameless = Raise e
               /\ exc_class e = "KeyError"%string
               /\ exc_class e <> "ConfigError"%string.
Proof.
  split; [vm_compute; reflexivity|].
  exists (KeyError "name"). split; [vm_compute; reflexivity|].
  split; [reflexivity|]. vm_compute. discriminate.
Qed.

(** ** The order of the alternatives *)

Lemma insert_by_len_elem (y x : pystr) (l : list pystr) :
  y ∈ insert_by_len x l <-> y = x \/ y ∈ l.
Proof.
  induction l as [|z l IH]; cbn [insert_by_len].
  - rewrite elem_of_cons, elem_of_nil. tauto.
  - destruct (length x <? length z).
    + rewrite !elem_of_cons, IH. tauto.
    + rewrite !elem_of_cons. tauto.
Qed.

Lemma insert_by_len_sorted (x : pystr) (l : list pystr) :
  longest_first l -> longest_first (insert_by_len x l).
Proof.
  unfold longest_first.
  induction l as [|z l IH]; intros Hs; cbn [insert_by_len].
  - repeat constructor.
  - apply StronglySorted_inv in Hs as [Hs Hz].
    destruct (Nat.ltb_spec (length x) (length z)) as [Hlt|Hge].
    + constructor; [auto|].
      apply Forall_forall. intros y Hy.
      apply insert_by_len_elem in Hy as [->|Hy]; [lia|].
      rewrite Forall_forall in Hz. auto.
    + constructor; [constructor; assumption|].
      constructor; [assumption|].
      eapply Forall_impl; [exact Hz|]. cbn. intros; lia.
Qed.

Lemma sorted_by_len_desc_elem (y : pystr) (l : list pystr) :
  y ∈ sorted_by_len_desc l <-> y ∈ l.
Proof.
  unfold sorted_by_len_desc.
  induction l as [|x l IH]; cbn [foldr]; [reflexivity|].
  rewrite insert_by_len_elem, elem_of_cons, IH. reflexivity.
Qed.

Lemma sorted_by_len_desc_sorted (l : list pystr) :
  longest_first (sorted_by_len_desc l).
Proof.
  unfold sorted_by_len_desc.
  induction l as [|x l IH]; cbn [foldr].
  - constructor.
  - apply insert_by_len_sorted. assumption.
Qed.

Lemma longest_first_filter (P : pystr -> Prop) `{!forall x, Decision (P x)}
      (l : list pystr) :
  longest_first l -> longest_first (filter P l).
Proof.
  unfold longest_first. induction 1 as [|x l Hs IH Hx].
  - constructor.
  - rewrite filter_cons. destruct (decide (P x)); [|assumption].
    constructor; [assumption|].
    apply Forall_forall. intros y Hy.
    apply list_elem_of_filter in Hy as [_ Hy].
    rewrite Forall_forall in Hx. auto.
Qed.

Lemma pattern_aliases_elem (tb : tables) (a : pystr) :
  a ∈ pattern_aliases tb <->
  2 <= length a /\ a ∈ PyDict.keys (alias_to_entity tb).
Proof.
  unfold pattern_aliases.
  rewrite list_elem_of_filter, sorted_by_len_desc_elem.
  destruct (Nat.leb_spec 2 (length a)); cbn; intuition lia.
Qed.

Lemma pattern_aliases_sorted (tb : tables) :
  longest_first (pattern_aliases tb).
Proof.
  unfold pattern_aliases, longest_first.
  apply longest_first_filter. apply sorted_by_len_desc_sorted.
Qed.

Lemma entity_alts_eq (tb : tables) :
  entity_alts tb = map alt_of_alias (pattern_aliases tb).
Proof. reflexivity. Qed.

(** ** The scan of the entity pattern *)

Lemma prev_at_cons (prev : option N) (c : N) (rest : pystr) (k : nat) :
  prev_at prev (c :: rest) (S k) = prev_at (Some c) rest k.
Proof. destruct k; reflexivity. Qed.

Section Scan.
Variable ci_eq : N -> N -> bool.
Variable is_word : N -> bool.

Local Abbreviation alt_match := (EntityMatcher.alt_match ci_eq is_word).
Local Abbreviation first_match := (EntityMatcher.first_match ci_eq is_word).
Local Abbreviation scan_entity := (EntityMatcher.scan_entity ci_eq is_word).

Lemma ci_prefix_length (lit s : pystr) :
  PyRe.ci_prefix ci_eq lit s = true -> length lit <= length s.
Proof.
  revert s. induction lit as [|a lit IH]; intros s H; cbn [length].
  - lia.
  - destruct s as [|b s]; [discriminate|].
    cbn [PyRe.ci_prefix] in H. apply andb_prop in H as [_ H].
    apply IH in H. cbn [length]. lia.
Qed.

Lemma alt_match_length (a : alt) (prev : option N) (rest : pystr) :
  alt_match a prev rest = true -> length (alt_lit a) <= length rest.
Proof.
  unfold EntityMatcher.alt_match. intros H.
  apply andb_prop in H as [H _]. apply ci_prefix_length. assumption.
Qed.

Lemma first_match_Some (alts : list alt) (prev : option N)
      (rest s : pystr) :
  first_match alts prev rest = Some s ->
  exists a, a ∈ alts /\ alt_match a prev rest = true
            /\ s = take (length (alt_lit a)) rest
            /\ length s = length (alt_lit a).
Proof.
  induction alts as [|a alts IH]; cbn [EntityMatcher.first_match];
    [discriminate|].
  destruct (alt_match a prev rest) eqn:Ha.
  - intros [= <-]. exists a. rewrite elem_of_cons.
    repeat split; auto.
    apply length_take_le. eapply alt_match_length. eassumption.
  - intros H. destruct (IH H) as (b & Hb & Hrest).
    exists b. rewrite elem_of_cons. auto.
Qed.

(** Among longest-first alternatives the first that matches is a
    longest that matches. *)
Lemma first_match_longest (lits : list pystr) (prev : option N)
      (rest a : pystr) :
  longest_first lits -> a ∈ lits ->
  alt_match (alt_of_alias a) prev rest = true ->
  exists s, first_match (map alt_of_alias lits) prev rest = Some s
            /\ length a <= length s.
Proof.
  unfold longest_first.
  induction 1 as [|x lits Hs IH Hx]; intros Ha Hm.
  - apply elem_of_nil in Ha. contradiction.
  - cbn [map EntityMatcher.first_match].
    destruct (alt_match (alt_of_alias x) prev rest) eqn:Hxm.
    + eexists. split; [reflexivity|].
      rewrite length_take_le
        by (eapply alt_match_length; eassumption).
      cbn [alt_lit alt_of_alias].
      apply elem_of_cons in Ha as [->|Ha]; [lia|].
      rewrite Forall_forall in Hx. auto.
    + apply elem_of_cons in Ha as [->|Ha]; [congruence|].
      auto.
Qed.

(** A match that [finditer] reports was found by the alternation at
    its position. *)
Lemma scan_entity_inv (alts : list alt) (rest : pystr) :
  forall (prev : option N) (skip pos q : nat) (s : pystr),
    (q, s) ∈ scan_entity alts prev rest skip pos ->
    exists k, q = pos + k /\ skip <= k /\ k < length rest
              /\ first_match alts (prev_at prev rest k) (drop k rest)
                 = Some s.
Proof.
  induction rest as [|c rest IH]; intros prev skip pos q s;
    cbn [EntityMatcher.scan_entity].
  - intros H. apply elem_of_nil in H. contradiction.
  - assert (Hrec : forall skip',
               (q, s) ∈ scan_entity alts (Some c) rest skip' (S pos) ->
               exists k, q = pos + k /\ skip' < k /\ k < length (c :: rest)
                 /\ first_match alts (prev_at prev (c :: rest) k)
                                (drop k (c :: rest)) = Some s).
    { intros skip' H. destruct (IH _ _ _ _ _ H) as (k & -> & Hk & Hl & Hf).
      exists (S k). rewrite prev_at_cons. cbn [length drop].
      repeat split; try lia. assumption. }
    destruct skip as [|skip].
    + destruct (first_match alts prev (c :: rest)) as [m|] eqn:Hm.
      * intros H. apply elem_of_cons in H as [[= -> ->]|H].
        -- exists 0. cbn [prev_at drop length].
           repeat split; try lia. assumption.
        -- destruct (Hrec _ H) as (k & ? & ? & ? & ?).
           exists k. repeat split; try lia; assumption.
      * intros H. destruct (Hrec _ H) as (k & ? & ? & ? & ?).
        exists k. repeat split; try lia; assumption.
    + intros H. destruct (Hrec _ H) as (k & ? & ? & ? & ?).
      exists k. repeat split; try lia; assumption.
Qed.

(** A position that the scan reaches, and at which the alternation
    matches, is reported. *)
Lemma scan_entity_intro (alts : list alt) (rest : pystr) :
  forall (prev : option N) (skip pos k : nat) (s : pystr),
    skip <= k -> k < length rest ->
    first_match alts (prev_at prev rest k) (drop k rest) = Some s ->
    (forall q s', (q, s') ∈ scan_entity alts prev rest skip pos ->
                  ~ (q < pos + k < q + length s')) ->
    (pos + k, s) ∈ scan_entity alts prev rest skip pos.
Proof.
  induction rest as [|c rest IH]; intros prev skip pos k s Hsk Hk Hf Hfree;
    cbn [length] in Hk; [lia|].
  cbn [EntityMatcher.scan_entity] in *.
  destruct skip as [|skip].
  - destruct (first_match alts prev (c :: rest)) as [m|] eqn:Hm.
    + destruct k as [|k].
      * cbn [prev_at drop] in Hf. rewrite Hm in Hf.
        injection Hf as ->. rewrite Nat.add_0_r.
        apply elem_of_cons. left. reflexivity.
      * apply elem_of_cons. right.
        replace (pos + S k) with (S pos + k) by lia.
        apply IH.
        -- specialize (Hfree pos m).
           rewrite elem_of_cons in Hfree.
           specialize (Hfree (or_introl eq_refl)). lia.
        -- lia.
        -- rewrite <- prev_at_cons with (prev := prev). exact Hf.
        -- intros q s' Hq.
           replace (S pos + k) with (pos + S k) by lia.
           apply Hfree. apply elem_of_cons. right. assumption.
    + destruct k as [|k].
      * cbn [prev_at drop] in Hf. congruence.
      * replace (pos + S k) with (S pos + k) by lia.
        apply IH; try lia.
        -- rewrite <- prev_at_cons with (prev := prev). exact Hf.
        -- intros q s' Hq.
           replace (S pos + k) with (pos + S k) by lia.
           apply Hfree. assumption.
  - destruct k as [|k]; [lia|].
    replace (pos + S k) with (S pos + k) by lia.
    apply IH; try lia.
    + rewrite <- prev_at_cons with (prev := prev). exact Hf.
    + intros q s' Hq.
      replace (S pos + k) with (pos + S k) by lia.
      apply Hfree. assumption.
Qed.
(** The matches that [finditer] reports do not overlap: a later match
    starts where an earlier one has ended, or after it. *)
Lemma scan_entity_apart (alts : list alt) (rest : pystr) :
  forall (prev : option N) (skip pos q q' : nat) (s s' : pystr),
    (q, s) ∈ scan_entity alts prev rest skip pos ->
    (q', s') ∈ scan_entity alts prev rest skip pos ->
    q < q' -> q + length s <= q'.
Proof.
  induction rest as [|c rest IH]; intros prev skip pos q q' s s';
    cbn [EntityMatcher.scan_entity].
  - intros H. apply elem_of_nil in H. contradiction.
  - destruct skip as [|skip]; [|apply IH].
    destruct (first_match alts prev (c :: rest)) as [m|] eqn:Hm;
      [|apply IH].
    intros H H' Hlt.
    apply elem_of_cons in H as [[= -> ->]|H];
      apply elem_of_cons in H' as [[= -> ->]|H'].
    + lia.
    + apply scan_entity_inv in H'
        as (k & -> & Hk & _). lia.
    + apply scan_entity_inv in H
        as (k & -> & _). lia.
    + eapply IH; eassumption.
Qed.
End Scan.

(** ** The matcher of a catalog *)

Lemma load_matcher (lower : pystr -> pystr) (data : catalog)
      (mt : matcher) :
  _load_entities lower data = Ok mt -> mt = _build_patterns (tbl mt).
Proof.
  unfold _load_entities. destruct (load_tables lower data); [|discriminate].
  cbn [rbind]. intros [= <-]. reflexivity.
Qed.

Section Resolve.
Variable lower upper : pystr -> pystr.
Variable ci_eq : N -> N -> bool.
Variable is_word : N -> bool.

Local Abbreviation scan_entity := (EntityMatcher.scan_entity ci_eq is_word).
Local Abbreviation alias_hits :=
  (EntityMatcher.alias_hits lower ci_eq is_word).
Local Abbreviation find_matches :=
  (EntityMatcher.find_matches lower upper ci_eq is_word).
Local Abbreviation ticker_path := (EntityMatcher.ticker_path upper ci_eq).
Local Abbreviation alias_occurs_at :=
  (EntityMatcher.alias_occurs_at lower ci_eq is_word).

Lemma scan_entity_no_alts (rest : pystr) :
  forall prev skip pos, scan_entity [] prev rest skip pos = [].
Proof.
  induction rest as [|c rest IH]; intros prev skip pos;
    cbn [EntityMatcher.scan_entity EntityMatcher.first_match];
    [reflexivity|].
  destruct skip; apply IH.
Qed.

Lemma alias_hits_scan (tb : tables) (text : pystr) :
  alias_hits (_build_patterns tb) text
  = scan_entity (map alt_of_alias (pattern_aliases tb)) None
                (lower text) 0 0.
Proof.
  unfold EntityMatcher.alias_hits, _build_patterns.
  cbn [entity_pattern]. rewrite entity_alts_eq.
  destruct (map alt_of_alias (pattern_aliases tb)) eqn:E.
  - rewrite scan_entity_no_alts. reflexivity.
  - reflexivity.
Qed.

(** Every match of the entity pattern is a slice of the text as long
    as an alias of at least two characters. *)
Lemma alias_hit_alias (tb : tables) (text : pystr) (q : nat) (s : pystr) :
  (q, s) ∈ alias_hits (_build_patterns tb) text ->
  exists a, 2 <= length a /\ a ∈ PyDict.keys (alias_to_entity tb)
            /\ length s = length a.
Proof.
  rewrite alias_hits_scan. intros H.
  apply scan_entity_inv in H as (k & _ & _ & _ & Hf).
  apply first_match_Some in Hf as (a & Ha & _ & _ & Hlen).
  apply list_elem_of_In, in_map_iff in Ha as (lit & <- & Hlit).
  apply list_elem_of_In, pattern_aliases_elem in Hlit as [H2 Hkey].
  exists lit. cbn [alt_lit alt_of_alias] in Hlen. auto.
Qed.

(** *** Where the loop over the alias matches takes its results from *)

Lemma entity_step_entities (tb : tables) (r : matches) (h : nat * pystr)
      (e : pystr) :
  e ∈ m_entities (entity_step lower tb r h) ->
  e ∈ m_entities r
  \/ PyDict.get (alias_to_entity tb) (lower (snd h)) = Some e.
Proof.
  unfold entity_step.
  destruct (PyDict.get (alias_to_entity tb) (lower (snd h))) as [en|];
    [|auto].
  destruct (PyDict.get (alias_to_ticker tb) (lower (snd h)));
    destruct (PyDict.get (entity_to_info tb) en) as [[]|];
    cbn [m_entities add_entity add_ticker add_match_industry];
    intros H; apply elem_of_union in H as [H|H]; auto;
    apply elem_of_singleton in H; subst; auto.
Qed.

Lemma entity_step_tickers (tb : tables) (r : matches) (h : nat * pystr)
      (t : pystr) :
  t ∈ m_tickers (entity_step lower tb r h) ->
  t ∈ m_tickers r
  \/ PyDict.get (alias_to_ticker tb) (lower (snd h)) = Some t.
Proof.
  unfold entity_step.
  destruct (PyDict.get (alias_to_entity tb) (lower (snd h))) as [en|];
    [|auto].
  destruct (PyDict.get (alias_to_ticker tb) (lower (snd h)));
    destruct (PyDict.get (entity_to_info tb) en) as [[]|];
    cbn [m_tickers add_entity add_ticker add_match_industry];
    intros H; auto;
    apply elem_of_union in H as [H|H]; auto;
    apply elem_of_singleton in H; subst; auto.
Qed.

Lemma entity_step_industries (tb : tables) (r : matches) (h : nat * pystr)
      (i : pystr) :
  i ∈ m_industries (entity_step lower tb r h) ->
  i ∈ m_industries r
  \/ exists e tk l,
       PyDict.get (alias_to_entity tb) (lower (snd h)) = Some e
       /\ PyDict.get (entity_to_info tb) e = Some (CompanyInfo i tk l).
Proof.
  unfold entity_step.
  destruct (PyDict.get (alias_to_entity tb) (lower (snd h))) as [en|];
    [|auto].
  destruct (PyDict.get (alias_to_ticker tb) (lower (snd h)));
    destruct (PyDict.get (entity_to_info tb) en)
      as [[ind tk0 lst0| |]|] eqn:Ei;
    cbn [m_industries add_entity add_ticker add_match_industry];
    intros H; auto;
    apply elem_of_union in H as [H|H]; auto;
    apply elem_of_singleton in H; subst; right; eauto.
Qed.

Lemma entity_fold_sources (tb : tables) (hits : list (nat * pystr)) :
  forall r : matches,
    let r' := fold_left (entity_step lower tb) hits r in
    (forall e, e ∈ m_entities r' ->
       e ∈ m_entities r
       \/ exists h, h ∈ hits
            /\ PyDict.get (alias_to_entity tb) (lower (snd h)) = Some e)
    /\ (forall t, t ∈ m_tickers r' ->
          t ∈ m_tickers r
          \/ exists h, h ∈ hits
               /\ PyDict.get (alias_to_ticker tb) (lower (snd h)) = Some t)
    /\ (forall i, i ∈ m_industries r' ->
          i ∈ m_industries r
          \/ exists h e tk l, h ∈ hits
               /\ PyDict.get (alias_to_entity tb) (lower (snd h)) = Some e
               /\ PyDict.get (entity_to_info tb) e
                  = Some (CompanyInfo i tk l)).
Proof.
  induction hits as [|h hits IH]; intros r; cbn [fold_left]; cbv zeta.
  - repeat split; auto.
  - destruct (IH (entity_step lower tb r h)) as (IHe & IHt & IHi).
    repeat split.
    + intros e He. destruct (IHe e He) as [H|(h' & Hh' & H)].
      * apply entity_step_entities in H as [H|H]; [auto|].
        right. exists h. rewrite elem_of_cons. auto.
      * right. exists h'. rewrite elem_of_cons. auto.
    + intros t Ht. destruct (IHt t Ht) as [H|(h' & Hh' & H)].
      * apply entity_step_tickers in H as [H|H]; [auto|].
        right. exists h. rewrite elem_of_cons. auto.
      * right. exists h'. rewrite elem_of_cons. auto.
    + intros i Hi.
      destruct (IHi i Hi) as [H|(h' & e & tk & l & Hh' & H)].
      * apply entity_step_industries in H as [H|(e & tk & l & H)];
          [auto|].
        right. exists h, e, tk, l. rewrite elem_of_cons. auto.
      * right. exists h', e, tk, l. rewrite elem_of_cons. auto.
Qed.

(** The compiled entity pattern holds no alternative shorter than two
    characters, every alias match is at least two characters long, and
    every ticker, entity and industry that [find_matches] reports comes
    from the ticker pattern or from such an alias match. *)
Lemma alias_matches_have_two_characters (data : catalog) (mt : matcher)
        (text : pystr) :
  _load_entities lower data = Ok mt ->
  let hits := alias_hits mt text in
  let r := find_matches mt text in
  let tp := ticker_path mt text in
  (forall alts a, entity_pattern mt = Some alts -> a ∈ alts ->
                  2 <= length (alt_lit a))
  /\ Forall (fun h => 2 <= length (snd h)) hits
  /\ (forall e, e ∈ m_entities r ->
        e ∈ m_entities tp
        \/ exists h, h ∈ hits /\ 2 <= length (snd h)
             /\ PyDict.get (alias_to_entity (tbl mt)) (lower (snd h))
                = Some e)
  /\ (forall t, t ∈ m_tickers r ->
        t ∈ m_tickers tp
        \/ exists h, h ∈ hits /\ 2 <= length (snd h)
             /\ PyDict.get (alias_to_ticker (tbl mt)) (lower (snd h))
                = Some t)
  /\ (forall i, i ∈ m_industries r ->
        i ∈ m_industries tp
        \/ exists h e tk l, h ∈ hits /\ 2 <= length (snd h)
             /\ PyDict.get (alias_to_entity (tbl mt)) (lower (snd h))
                = Some e
             /\ PyDict.get (entity_to_info (tbl mt)) e
                = Some (CompanyInfo i tk l)).
Proof.
  intros Hload. apply load_matcher in Hload.
  set (tb := tbl mt) in *. cbv zeta.
  assert (Hhits : Forall (fun h => 2 <= length (snd h))
                         (alias_hits mt text)).
  { apply Forall_forall. intros [q s] Hqs. rewrite Hload in Hqs.
    apply alias_hit_alias in Hqs as (a & Ha & _ & Hlen).
    cbn [snd]. lia. }
  split; [|split; [exact Hhits|]].
  - intros alts a Hp Ha. rewrite Hload in Hp.
    unfold _build_patterns in Hp. cbn [entity_pattern] in Hp.
    rewrite entity_alts_eq in Hp.
    destruct (map alt_of_alias (pattern_aliases tb)) eqn:E;
      [discriminate|].
    injection Hp as <-. rewrite <- E in Ha.
    apply list_elem_of_In, in_map_iff in Ha as (lit & <- & Hlit).
    apply list_elem_of_In, pattern_aliases_elem in Hlit as [H2 _].
    exact H2.
  - rewrite Forall_forall in Hhits.
    unfold EntityMatcher.find_matches.
    destruct (negb (PyStr.truthy text)).
    + repeat split; intros x Hx; cbn in Hx;
        apply elem_of_empty in Hx; contradiction.
    + destruct (entity_fold_sources tb (alias_hits mt text)
                  (ticker_path mt text)) as (He & Ht & Hi).
      repeat split.
      * intros e H. destruct (He e H) as [?|(h & Hh & ?)]; [auto|].
        right. exists h. auto.
      * intros t H. destruct (Ht t H) as [?|(h & Hh & ?)]; [auto|].
        right. exists h. auto.
      * intros i H.
        destruct (Hi i H) as [?|(h & e & tk & l & Hh & ? & ?)]; [auto|].
        right. exists h, e, tk, l. auto.
Qed.

(** C2, as amended: at a position that the scan reaches (no earlier
    match runs over it) and at which an alias of the catalog matches
    with its anchors, exactly one match is reported, and it is at least
    as long as that alias; every other match ends before the position
    or starts after the end of that match, so no alias is matched
    inside it. *)
Theorem longest_alias_wins_where_scan_arrives (data : catalog)
        (mt : matcher) (text alias : pystr) (p : nat) :
  _load_entities lower data = Ok mt ->
  alias ∈ PyDict.keys (alias_to_entity (tbl mt)) ->
  2 <= length alias ->
  alias_occurs_at alias text p = true ->
  (forall q s, (q, s) ∈ alias_hits mt text -> ~ (q < p < q + length s)) ->
  exists s, (p, s) ∈ alias_hits mt text
            /\ length alias <= length s
            /\ (forall s', (p, s') ∈ alias_hits mt text -> s' = s)
            /\ (forall q s', (q, s') ∈ alias_hits mt text -> q <> p ->
                  q + length s' <= p \/ p + length s <= q).
Proof.
  intros Hload Hkey H2 Hocc Hfree.
  apply load_matcher in Hload.
  set (tb := tbl mt) in *. rewrite Hload in Hfree |- *.
  rewrite alias_hits_scan in Hfree.
  rewrite alias_hits_scan.
  unfold EntityMatcher.alias_occurs_at in Hocc.
  assert (Hin : alias ∈ pattern_aliases tb)
    by (apply pattern_aliases_elem; auto).
  destruct (first_match_longest ci_eq is_word
              (pattern_aliases tb)
              (prev_at None (lower text) p) (drop p (lower text)) alias
              (pattern_aliases_sorted tb) Hin)
    as (s & Hs & Hlen).
  { destruct p; exact Hocc. }
  assert (Hp : p < length (lower text)).
  { apply alt_match_length in Hocc.
    cbn [alt_lit alt_of_alias] in Hocc.
    rewrite length_drop in Hocc. lia. }
  assert (Hps : (p, s) ∈ scan_entity (map alt_of_alias (pattern_aliases tb))
                           None (lower text) 0 0).
  { apply (scan_entity_intro ci_eq is_word _
             (lower text) None 0 0 p s); auto; lia. }
  exists s. split; [exact Hps|]. split; [exact Hlen|]. split.
  - intros s' Hs'.
    apply scan_entity_inv in Hs'
      as (k & Hk & _ & _ & Hf).
    cbn in Hk. subst k. congruence.
  - intros q s' Hq Hne.
    destruct (Nat.lt_total q p) as [Hlt|[->|Hgt]]; [|contradiction|].
    + left. specialize (Hfree q s' Hq). lia.
    + right. eapply scan_entity_apart; eassumption.
Qed.
End Resolve.

(** ** The claims on concrete catalogs *)

Ltac in_list :=
  match goal with
  | |- ?P => apply (@bool_decide_unpack P _); vm_compute; exact I
  end.

(** On the catalog [Inputs.lilly] the text "Eli Lilly gains" matches
    "eli lilly" at position 0, and nothing at a position inside it. *)
Lemma longest_alias_wins_where_scan_arrives_witness :
  let mt := Inputs.matcher_of Inputs.lilly in
  let text := PyStr.u "Eli Lilly gains" in
  exists s, (0, s) ∈ alias_hits_ascii mt text
            /\ length (PyStr.u "eli lilly") <= length s
            /\ (forall s', (0, s') ∈ alias_hits_ascii mt text -> s' = s)
            /\ (forall q s', (q, s') ∈ alias_hits_ascii mt text -> q <> 0 ->
                  q + length s' <= 0 \/ 0 + length s <= q).
Proof.
  apply (longest_alias_wins_where_scan_arrives
           PyStr.ascii_lower PyStr.ascii_ci_eq PyStr.ascii_cjk_word
           Inputs.lilly (Inputs.matcher_of Inputs.lilly)
           (PyStr.u "Eli Lilly gains") (PyStr.u "eli lilly") 0).
  - vm_compute. reflexivity.
  - in_list.
  - vm_compute. lia.
  - vm_compute. reflexivity.
  - intros q s _. lia.
Defined.

(** C2, as stated, fails: on the catalog [Inputs.lilly] the text
    "Dr Eli Lilly" contains the alias "eli lilly" at position 3, between
    word boundaries, and "lilly" is a shorter alias that it contains;
    yet the matches are "dr eli" at 0 and "lilly" at 7, a match of the
    shorter alias inside the occurrence of the longer one, which itself
    is not matched. *)
Lemma shorter_alias_matched_inside_longer :
  let mt := Inputs.matcher_of Inputs.lilly in
  let text := PyStr.u "Dr Eli Lilly" in
  load_ascii Inputs.lilly = Ok mt
  /\ PyStr.u "eli lilly" ∈ PyDict.keys (alias_to_entity (tbl mt))
  /\ PyStr.u "lilly" ∈ PyDict.keys (alias_to_entity (tbl mt))
  /\ PyStr.contains (PyStr.u "lilly") (PyStr.u "eli lilly") = true
  /\ alias_occurs_at PyStr.ascii_lower PyStr.ascii_ci_eq
                     PyStr.ascii_cjk_word (PyStr.u "eli lilly") text 3
     = true
  /\ alias_hits_ascii mt text
     = [(0, PyStr.u "dr eli"); (7, PyStr.u "lilly")].
Proof.
  cbv zeta. repeat split; try (vm_compute; reflexivity); in_list.
Qed.

(** C1 fails on the catalog [Inputs.listed_only]: the name and the
    ticker of the listed company are keys of [alias_to_ticker] and not
    of [alias_to_entity], which is empty; a text with the ticker
    resolves to the entity "NVIDIA", a text with the name to nothing. *)
Lemma listed_name_is_no_entity_alias :
  let mt := Inputs.matcher_of Inputs.listed_only in
  load_ascii Inputs.listed_only = Ok mt
  /\ PyDict.keys (alias_to_ticker (tbl mt))
     = [PyStr.u "nvidia"; PyStr.u "nvda"]
  /\ PyDict.keys (alias_to_entity (tbl mt)) = []
  /\ elements (m_entities (find_ascii mt (PyStr.u "NVDA rallies")))
     = [PyStr.u "NVIDIA"]
  /\ elements (m_entities (find_ascii mt (PyStr.u "NVIDIA rallies")))
     = []
  /\ elements (m_tickers (find_ascii mt (PyStr.u "NVIDIA rallies")))
     = [].
Proof.
  cbv zeta. repeat split; vm_compute; reflexivity.
Qed.
End EntityMatcherFacts.

(** * The candidate ranking *)

Module PreMarketV3Facts.
Import PreMarketV3.

(** ** Dictionaries and sorting *)

Lemma get_Some_elem {V} (d : list (pystr * V)) (k : pystr) (v : V) :
  PyDict.get d k = Some v -> (k, v) ∈ d.
Proof.
  induction d as [|[k' v'] d IH]; cbn [PyDict.get]; [discriminate|].
  destruct (decide (k' = k)) as [->|_].
  - intros [= ->]. apply elem_of_cons. auto.
  - intros H. apply elem_of_cons. auto.
Qed.

Lemma setitem_elem {V} (d : list (pystr * V)) (k : pystr) (v : V)
      (kv : pystr * V) :
  kv ∈ PyDict.setitem d k v -> kv = (k, v) \/ kv ∈ d.
Proof.
  induction d as [|[k' v'] d IH]; cbn [PyDict.setitem].
  - rewrite elem_of_cons, elem_of_nil. tauto.
  - destruct (decide (k' = k)) as [->|_]; rewrite !elem_of_cons.
    + tauto.
    + intros [H|H]; [auto|]. destruct (IH H); auto.
Qed.

Lemma insert_desc_elem {A} (lt : A -> A -> bool) (y x : A) (l : list A) :
  y ∈ insert_desc lt x l <-> y = x \/ y ∈ l.
Proof.
  induction l as [|z l IH]; cbn [insert_desc].
  - rewrite elem_of_cons, elem_of_nil. tauto.
  - destruct (lt x z); rewrite !elem_of_cons; [rewrite IH|]; tauto.
Qed.

Lemma sort_desc_elem {A} (lt : A -> A -> bool) (y : A) (l : list A) :
  y ∈ sort_desc lt l <-> y ∈ l.
Proof.
  unfold sort_desc. induction l as [|x l IH]; cbn [foldr]; [reflexivity|].
  rewrite insert_desc_elem, elem_of_cons, IH. reflexivity.
Qed.

(** ** The discovery list avoids the watchlist symbols *)

Section Discovery.
Variable lower : pystr -> pystr.
Variable is_word : N -> bool.
Variable ud : UniverseData.t.
Variable watchlist_symbols : gset pystr.

Lemma count_mention_outside (title : pystr)
      (candidates : list (pystr * EventCandidate.t)) (ticker : pystr) :
  ticker ∉ watchlist_symbols ->
  outside_watchlist watchlist_symbols candidates ->
  outside_watchlist watchlist_symbols (count_mention ud title candidates ticker).
Proof.
  unfold outside_watchlist, count_mention. intros Hout Hinv.
  rewrite Forall_forall in Hinv |- *. intros kv Hkv.
  apply setitem_elem in Hkv as [->|Hkv]; [|auto].
  cbn [fst snd EventCandidate.symbol]. split; [assumption|].
  destruct (PyDict.get candidates ticker) as [e|] eqn:He; [|reflexivity].
  apply get_Some_elem in He. apply (Hinv _ He).
Qed.

Lemma visit_ticker_outside (title : pystr)
      (candidates : list (pystr * EventCandidate.t)) (ticker : pystr) :
  outside_watchlist watchlist_symbols candidates ->
  outside_watchlist watchlist_symbols (visit_ticker ud watchlist_symbols title candidates
                                  ticker).
Proof.
  unfold visit_ticker. intros Hinv.
  destruct (bool_decide_reflect (ticker ∈ watchlist_symbols)); [assumption|].
  destruct (negb _); [assumption|].
  apply count_mention_outside; assumption.
Qed.

Lemma visit_item_outside (candidates : list (pystr * EventCandidate.t))
      (item : NewsItem.t) :
  outside_watchlist watchlist_symbols candidates ->
  outside_watchlist watchlist_symbols (visit_item lower is_word ud watchlist_symbols
                                candidates item).
Proof.
  unfold visit_item.
  generalize (elements (matched_tickers lower is_word item ud)).
  intros tickers. revert candidates.
  induction tickers as [|t tickers IH]; intros candidates Hinv;
    cbn [fold_left]; [assumption|].
  apply IH. apply visit_ticker_outside. assumption.
Qed.

Lemma visit_items_outside (news_items : list NewsItem.t)
      (candidates : list (pystr * EventCandidate.t)) :
  outside_watchlist watchlist_symbols candidates ->
  outside_watchlist watchlist_symbols
    (fold_left (visit_item lower is_word ud watchlist_symbols)
               news_items candidates).
Proof.
  revert candidates.
  induction news_items as [|item items IH]; intros candidates Hinv;
    cbn [fold_left]; [assumption|].
  apply IH. apply visit_item_outside. assumption.
Qed.
End Discovery.

Lemma event_driven_outside (lower : pystr -> pystr) (is_word : N -> bool)
      (news_items : list NewsItem.t)
      (universe_data : option UniverseData.t)
      (watchlist_symbols : gset pystr) :
  let r := _build_event_driven_candidates lower is_word news_items
                                          universe_data watchlist_symbols in
  snd r = map EventCandidate.symbol (fst r)
  /\ Forall (fun c => EventCandidate.symbol c ∉ watchlist_symbols) (fst r).
Proof.
  unfold _build_event_driven_candidates. cbv zeta.
  destruct universe_data as [ud|]; [|split; [reflexivity|constructor]].
  destruct (bool_decide _); [split; [reflexivity|constructor]|].
  cbn [fst snd]. split; [reflexivity|].
  apply Forall_forall. intros c Hc.
  apply sort_desc_elem in Hc.
  apply list_elem_of_In, in_map_iff in Hc as ([k e] & <- & Hke).
  apply list_elem_of_In in Hke.
  pose proof (visit_items_outside lower is_word ud watchlist_symbols
                news_items [] (List.Forall_nil _)) as Hinv.
  unfold outside_watchlist in Hinv. rewrite Forall_forall in Hinv.
  destruct (Hinv _ Hke) as [Hout Hsym]. cbn [fst snd] in *.
  rewrite Hsym. exact Hout.
Qed.

(** C8: in one ranking call the symbols of the watchlist candidates
    and the symbols of the event-driven candidates are disjoint, both
    as the two symbol collections that the call returns and entry by
    entry. *)
Theorem candidate_sets_disjoint (lower : pystr -> pystr)
        (is_word : N -> bool) (stocks : list StockData.t)
        (news_items : list NewsItem.t)
        (earnings_events : list EarningsEvent.t)
        (universe_data : option UniverseData.t) :
  let r := candidate_lists lower is_word stocks news_items earnings_events
                           universe_data in
  let watchlist := fst r in
  let discovery := snd r in
  (list_to_set (snd discovery) : gset pystr) ## snd watchlist
  /\ forall c d, c ∈ fst watchlist -> d ∈ fst discovery ->
                 Candidate.symbol c <> EventCandidate.symbol d.
Proof.
  unfold candidate_lists. cbv zeta. cbn [fst snd].
  set (wl := _build_watchlist_candidates stocks news_items
                                         earnings_events).
  destruct (event_driven_outside lower is_word news_items universe_data
              (snd wl)) as [Hsym Hout].
  rewrite Forall_forall in Hout.
  split.
  - rewrite Hsym. intros x Hx Hw.
    apply elem_of_list_to_set in Hx.
    apply list_elem_of_In, in_map_iff in Hx as (d & <- & Hd).
    apply list_elem_of_In in Hd. exact (Hout d Hd Hw).
  - intros c d Hc Hd Heq. apply (Hout d Hd).
    rewrite <- Heq. subst wl. unfold _build_watchlist_candidates.
    cbn [snd fst] in *. apply elem_of_list_to_set.
    apply list_elem_of_In, in_map_iff. exists c.
    split; [reflexivity|]. apply list_elem_of_In. exact Hc.
Qed.

(** ** The watchlist score and the rule table *)

(** A float that is falsy is a zero. *)
Lemma falsy_is_zero (x : float) :
  PyFloat.truthy x = false ->
  Prim2SF x = S754_zero false \/ Prim2SF x = S754_zero true.
Proof.
  unfold PyFloat.truthy. rewrite FloatAxioms.eqb_spec.
  change (Prim2SF 0) with (S754_zero false).
  destruct (Prim2SF x) as [[|]|[|]| |[|] m e]; cbn; auto; discriminate.
Qed.

(** The guard [x and abs(x) >= 5] adds nothing to [abs(x) >= 5]. *)
Lemma week_guard (w : float) :
  PyFloat.truthy w && PyFloat.ge (PrimFloat.abs w) 5
  = PyFloat.ge (PrimFloat.abs w) 5.
Proof.
  destruct (PyFloat.truthy w) eqn:Hw; [reflexivity|].
  cbn [andb]. symmetry. unfold PyFloat.ge.
  rewrite FloatAxioms.leb_spec, FloatAxioms.abs_spec.
  destruct (falsy_is_zero w Hw) as [-> | ->]; vm_compute; reflexivity.
Qed.

(** The guard [x and x >= 1.5] adds nothing to [x >= 1.5]. *)
Lemma volume_guard (v : float) :
  PyFloat.truthy v && PyFloat.ge v 1.5 = PyFloat.ge v 1.5.
Proof.
  destruct (PyFloat.truthy v) eqn:Hv; [reflexivity|].
  cbn [andb]. symmetry. unfold PyFloat.ge.
  rewrite FloatAxioms.leb_spec.
  destruct (falsy_is_zero v Hv) as [-> | ->]; vm_compute; reflexivity.
Qed.

Lemma near_loop_within (price : float) (levels : list (option float)) :
  Forall nonzero_opt levels ->
  near_loop price levels = within_2_percent price levels.
Proof.
  unfold within_2_percent.
  induction 1 as [|[lvl|] levels Hl _ IH]; cbn [near_loop existsb].
  - reflexivity.
  - cbn [nonzero_opt] in Hl. rewrite Hl, IH. cbn [andb].
    destruct (PyFloat.le _ threshold); reflexivity.
  - rewrite IH. reflexivity.
Qed.

Lemma near_level_within (price : float) (levels : list (option float)) :
  PyFloat.truthy price = true ->
  Forall nonzero_opt levels ->
  bool_decide (levels <> []) && _near_level price levels
  = within_2_percent price levels.
Proof.
  intros Hp Hl. unfold _near_level. rewrite Hp. cbn [negb orb].
  destruct levels as [|l levels].
  - reflexivity.
  - rewrite (bool_decide_eq_true_2 (l :: levels <> [])) by discriminate.
    cbn [negb andb]. apply near_loop_within. assumption.
Qed.

(** X8: Whenever the guards let the values through, the reasons and the
    score are those of the fired rules of the specification, in the
    order of the rules, and a stock is a candidate exactly when a rule
    fired. *)
Theorem watchlist_score_is_sum_of_fired_weights
        (earnings_symbols news_symbols : gset pystr) (stock : StockData.t) :
  guards_pass stock ->
  score_stock earnings_symbols news_symbols stock
  = fired_tally earnings_symbols news_symbols stock
  /\ (candidate_of earnings_symbols news_symbols stock = None
      <-> fired earnings_symbols news_symbols stock = []).
Proof.
  intros (Hrsi & Hprice & Hsup & Hres).
  assert (Hscore : score_stock earnings_symbols news_symbols stock
                   = fired_tally earnings_symbols news_symbols stock).
  { unfold score_stock, fired_tally, fired, rules_in_order.
    cbn [List.filter fires].
    rewrite volume_guard, !near_level_within by assumption.
    destruct (StockData.change_1w stock) as [w|] eqn:Ew;
      [rewrite week_guard|];
      (destruct (StockData.rsi_14 stock) as [x|] eqn:Ex;
       [cbn [nonzero_opt] in Hrsi; rewrite Hrsi|]);
      repeat (match goal with
              | |- context [if ?b then _ else _] => destruct b
              end; cbn [negb andb]);
      cbn [map reason_of]; rewrite ?Ew, ?Ex; reflexivity. }
  split; [exact Hscore|].
  unfold candidate_of. rewrite Hscore. unfold fired_tally.
  destruct (fired earnings_symbols news_symbols stock); cbn [map];
    split; intros; try reflexivity; discriminate.
Qed.

(** ** The watchlist score on concrete stocks *)

(** The example of C3: earnings today and RSI 75, and nothing else,
    score 4 with the two reasons in the order of the rules. *)
Lemma earnings_and_rsi_75_score_4 :
  let r := _build_watchlist_candidates [Inputs.earnings_stock] []
                                       Inputs.earnings_today in
  map Candidate.symbol (fst r) = [PyStr.u "NVDA"]
  /\ map Candidate.score (fst r) = [4%Z]
  /\ map Candidate.reasons (fst r)
     = [[PyStr.u "今日財報"; PyStr.u "RSI 75 超買"]]
  /\ elements (snd r) = [PyStr.u "NVDA"].
Proof.
  cbv zeta. repeat split; vm_compute; reflexivity.
Qed.

(** C3 fails on the stock [Inputs.falling_stock]: its RSI is 0.0, which
    is at most 30, so the oversold rule of the claim fires; but the
    guard [if stock.rsi_14:] takes 0.0 for an absent value, no rule
    fires in the code, and the stock is left out of the ranking. *)
Lemma rsi_zero_is_not_flagged_oversold :
  PreMarketV3.StockData.rsi_14 Inputs.falling_stock = Some 0%float
  /\ PyFloat.le 0 30 = true
  /\ score_stock ∅ ∅ Inputs.falling_stock = ([], 0%Z)
  /\ fst (_build_watchlist_candidates [Inputs.falling_stock] [] []) = [].
Proof.
  repeat split; vm_compute; reflexivity.
Qed.
End PreMarketV3Facts.

(** * The staged generation *)

Module PreMarketAnalyzerFacts.
Import PreMarketAnalyzer.

(** ** Searching a text *)

Lemma starts_with_app (p s : pystr) :
  PyStr.starts_with p s = true <-> exists suf, s = p ++ suf.
Proof.
  revert s. induction p as [|a p IH]; intros s; cbn [PyStr.starts_with].
  - split; [intros _; exists s; reflexivity|reflexivity].
  - destruct s as [|b s].
    + split; [discriminate|intros [suf H]; discriminate].
    + rewrite andb_true_iff, N.eqb_eq, IH. split.
      * intros [-> [suf ->]]. exists suf. reflexivity.
      * intros [suf [= -> ->]]. split; [reflexivity|].
        exists suf. reflexivity.
Qed.

Lemma occurs_at_start (sep text : pystr) :
  PyStr.starts_with sep text = true -> occurs sep text.
Proof.
  intros H. apply starts_with_app in H as [suf H].
  exists [], suf. exact H.
Qed.

Lemma occurs_later (sep : pystr) (c : N) (text : pystr) :
  PyStr.starts_with sep (c :: text) = false ->
  occurs sep (c :: text) <-> occurs sep text.
Proof.
  intros Hs. unfold occurs. split.
  - intros (pre & suf & Heq). destruct pre as [|c' pre].
    + assert (PyStr.starts_with sep (c :: text) = true)
        by (apply starts_with_app; exists suf; exact Heq).
      congruence.
    + injection Heq as -> ->. exists pre, suf. reflexivity.
  - intros (pre & suf & ->). exists (c :: pre), suf. reflexivity.
Qed.

Lemma split_once_None (sep text : pystr) :
  forall before, split_once sep text before = None <-> ~ occurs sep text.
Proof.
  induction text as [|c text IH]; intros before; cbn [split_once].
  - destruct (PyStr.starts_with sep []) eqn:Hs.
    + split; [discriminate|].
      intros H. exfalso. apply H, occurs_at_start, Hs.
    + split; [|reflexivity].
      intros _ (pre & suf & H). destruct pre as [|? ?]; [|discriminate].
      assert (PyStr.starts_with sep [] = true)
        by (apply starts_with_app; exists suf; exact H).
      congruence.
  - destruct (PyStr.starts_with sep (c :: text)) eqn:Hs.
    + split; [discriminate|].
      intros H. exfalso. apply H, occurs_at_start, Hs.
    + rewrite IH, (occurs_later _ _ _ Hs). reflexivity.
Qed.

Section Markers.
Variable ci_eq : N -> N -> bool.

Local Abbreviation ci_prefix := (PyRe.ci_prefix ci_eq).
Local Abbreviation search_marker := (PreMarketAnalyzer.search_marker ci_eq).

Lemma ci_prefix_Forall2 (marker s : pystr) :
  ci_prefix marker s = true <->
  exists mid suf, s = mid ++ suf
                  /\ Forall2 (fun m c => ci_eq m c = true) marker mid.
Proof.
  revert s. induction marker as [|a marker IH]; intros s;
    cbn [PyRe.ci_prefix].
  - split; [|reflexivity]. intros _. exists [], s. split; constructor.
  - destruct s as [|b s].
    + split; [discriminate|].
      intros (mid & suf & H & HF). inversion HF; subst. discriminate.
    + rewrite andb_true_iff, IH. split.
      * intros [Hab (mid & suf & -> & HF)].
        exists (b :: mid), suf. split; [reflexivity|].
        constructor; assumption.
      * intros (mid & suf & H & HF).
        inversion HF as [|? c ? mid' Hac HF']; subst.
        injection H as -> ->. split; [assumption|].
        exists mid', suf. split; [reflexivity|assumption].
Qed.

Lemma search_marker_None (marker text : pystr) :
  search_marker marker text = None <-> ~ occurs_ci ci_eq marker text.
Proof.
  unfold occurs_ci.
  induction text as [|c text IH]; cbn [PreMarketAnalyzer.search_marker].
  - destruct (ci_prefix marker []) eqn:Hp.
    + split; [discriminate|]. intros H. exfalso. apply H.
      apply ci_prefix_Forall2 in Hp as (mid & suf & Hp & HF).
      exists [], mid, suf. split; assumption.
    + split; [|reflexivity].
      intros _ (pre & mid & suf & H & HF).
      destruct pre as [|? ?]; [|discriminate].
      assert (ci_prefix marker [] = true)
        by (apply ci_prefix_Forall2; exists mid, suf; split; assumption).
      congruence.
  - destruct (ci_prefix marker (c :: text)) eqn:Hp.
    + split; [discriminate|]. intros H. exfalso. apply H.
      apply ci_prefix_Forall2 in Hp as (mid & suf & Hp & HF).
      exists [], mid, suf. split; assumption.
    + rewrite IH. split.
      * intros H (pre & mid & suf & Heq & HF).
        destruct pre as [|c' pre].
        -- assert (ci_prefix marker (c :: text) = true)
             by (apply ci_prefix_Forall2; exists mid, suf;
                 split; assumption).
           congruence.
        -- injection Heq as -> ->. apply H.
           exists pre, mid, suf. split; [reflexivity|assumption].
      * intros H (pre & mid & suf & -> & HF). apply H.
        exists (c :: pre), mid, suf. split; [reflexivity|assumption].
Qed.

(** A text with neither marker and without the literal name of the
    second layer is returned whole as the first section. *)
Lemma split_layers_unmarked (a b : string) (text : pystr) :
  ~ occurs_ci ci_eq (PyStr.u ("### Layer " ++ a)) text ->
  ~ occurs_ci ci_eq (PyStr.u ("### Layer " ++ b)) text ->
  ~ occurs (PyStr.u ("Layer " ++ b)) text ->
  split_layers ci_eq a b text = (text, []).
Proof.
  intros Ha Hb Hl. unfold split_layers, first_section_match,
    second_section_match.
  apply search_marker_None in Ha, Hb. rewrite Ha, Hb.
  cbn [PyStr.truthy negb andb].
  apply (split_once_None _ _ []) in Hl. rewrite Hl. reflexivity.
Qed.
End Markers.

(** ** The stages and the run *)

Section Pipeline.
Variable ci_eq : N -> N -> bool.
Variable json : Type.
Variable json_loads : pystr -> result json.
Variable HIDDEN_LAYER_PROMPT :
  pystr -> pystr -> pystr -> pystr -> pystr -> pystr.
Variable LAYER_0_1_PROMPT :
  hidden_output json -> pystr -> pystr -> pystr -> pystr.
Variable LAYER_2_3_PROMPT : pystr -> pystr -> pystr -> pystr.
Variable LAYER_4_5_PROMPT :
  pystr -> pystr -> pystr -> pystr -> pystr -> hidden_output json -> pystr.
Variable NEWS_SUMMARY_PROMPT : pystr -> pystr -> pystr.
Variable backend : nat -> pystr -> result pystr.
Variable news_data market_data watchlist_data appendix : pystr.
Variable extract_hashtags_from_report : pystr -> list pystr.

Local Abbreviation generate_layers :=
  (PreMarketAnalyzer.generate_layers ci_eq backend).
Local Abbreviation layer_0_1 :=
  (_generate_layer_0_1 ci_eq json LAYER_0_1_PROMPT backend).
Local Abbreviation layer_2_3 :=
  (_generate_layer_2_3 ci_eq LAYER_2_3_PROMPT backend).
Local Abbreviation layer_4_5 :=
  (_generate_layer_4_5 ci_eq json LAYER_4_5_PROMPT backend).
Local Abbreviation hidden_layer :=
  (process_hidden_layer json json_loads HIDDEN_LAYER_PROMPT backend).
Local Abbreviation summary :=
  (generate_news_summary NEWS_SUMMARY_PROMPT backend).
Local Abbreviation pipeline :=
  (generate_layered_report ci_eq json json_loads HIDDEN_LAYER_PROMPT
     LAYER_0_1_PROMPT LAYER_2_3_PROMPT LAYER_4_5_PROMPT
     NEWS_SUMMARY_PROMPT backend news_data market_data watchlist_data
     appendix extract_hashtags_from_report).

Lemma generate_layers_log (a b : string) (prompt : pystr) (log : calls) :
  snd (generate_layers a b prompt log) = log ++ [prompt].
Proof. reflexivity. Qed.

Lemma generate_layers_Ok (a b : string) (prompt : pystr) (log : calls)
      (text : pystr) :
  backend (length log) prompt = Ok text ->
  fst (generate_layers a b prompt log) = split_layers ci_eq a b text.
Proof.
  unfold PreMarketAnalyzer.generate_layers, generate_content.
  intros ->. reflexivity.
Qed.

Lemma generate_layers_Raise (a b : string) (prompt : pystr) (log : calls)
      (e : pyexc) :
  backend (length log) prompt = Raise e ->
  fst (generate_layers a b prompt log) = (diagnostic a b e, []).
Proof.
  unfold PreMarketAnalyzer.generate_layers, generate_content.
  intros ->. reflexivity.
Qed.

Lemma hidden_layer_log (yr : yesterday_report)
      (news sec fda market : pystr) (log : calls) :
  exists prompt,
    snd (hidden_layer yr news sec fda market log) = log ++ [prompt]
    /\ forall e, backend (length log) prompt = Raise e ->
                 error (fst (hidden_layer yr news sec fda market log))
                 = Some (exc_str e).
Proof.
  unfold process_hidden_layer, generate_content. cbv zeta.
  eexists. split; [reflexivity|].
  intros e ->. reflexivity.
Qed.

Lemma summary_log (news market : pystr) (log : calls) :
  exists prompt,
    snd (summary news market log) = log ++ [prompt]
    /\ forall e, backend (length log) prompt = Raise e ->
                 fst (summary news market log)
                 = PyStr.u "無法生成新聞摘要: " ++ exc_str e.
Proof.
  unfold generate_news_summary, generate_content.
  eexists. split; [reflexivity|].
  intros e ->. reflexivity.
Qed.

(** C4, as amended: whatever the backend answers, the stages of
    Layer 0-1 and Layer 2-3 return two strings; and when the answer is a
    text with neither marker of the stage (up to case) and without the
    literal name of its second layer, the two strings are the whole
    text and the empty string. *)
Theorem unmarked_text_is_first_section (h : hidden_output json)
        (news layer_0 layer_1 : pystr) (log : calls) :
  let stage_01 := fst (layer_0_1 h market_data news log) in
  let stage_23 := fst (layer_2_3 layer_0 layer_1 market_data log) in
  (exists s0 s1 s2 s3,
      stage_value stage_01 = [PStr s0; PStr s1]
      /\ stage_value stage_23 = [PStr s2; PStr s3])
  /\ (forall text,
        backend (length log)
                (LAYER_0_1_PROMPT h market_data (take 4000 news)
                                  (yesterday_warning h)) = Ok text ->
        ~ occurs_ci ci_eq (PyStr.u "### Layer 0") text ->
        ~ occurs_ci ci_eq (PyStr.u "### Layer 1") text ->
        ~ occurs (PyStr.u "Layer 1") text ->
        stage_01 = (text, []))
  /\ (forall text,
        backend (length log)
                (LAYER_2_3_PROMPT layer_0 layer_1 market_data) = Ok text ->
        ~ occurs_ci ci_eq (PyStr.u "### Layer 2") text ->
        ~ occurs_ci ci_eq (PyStr.u "### Layer 3") text ->
        ~ occurs (PyStr.u "Layer 3") text ->
        stage_23 = (text, [])).
Proof.
  cbv zeta. split; [|split].
  - unfold stage_value. do 4 eexists. split; reflexivity.
  - intros text Hb H0 H1 Hl. unfold _generate_layer_0_1.
    rewrite (generate_layers_Ok _ _ _ _ _ Hb).
    apply split_layers_unmarked; assumption.
  - intros text Hb H2 H3 Hl. unfold _generate_layer_2_3.
    rewrite (generate_layers_Ok _ _ _ _ _ Hb).
    apply split_layers_unmarked; assumption.
Qed.

End Pipeline.

(** ** The claims on concrete runs *)

Ltac no_marker :=
  first [ apply search_marker_None; vm_compute; reflexivity
        | apply (split_once_None _ _ []); vm_compute; reflexivity ].

(** The text [Inputs.calm_text] has no marker: both stages return it
    whole. *)
Lemma unmarked_text_is_first_section_witness :
  Inputs.stage_01 Inputs.backend_ok = (Inputs.calm_text, [])
  /\ Inputs.stage_23 Inputs.backend_ok = (Inputs.calm_text, []).
Proof.
  unfold Inputs.stage_01, Inputs.stage_23.
  destruct (unmarked_text_is_first_section
              PyStr.ascii_ci_eq pystr Inputs.layer_0_1_prompt
              Inputs.layer_2_3_prompt Inputs.backend_ok
              (PyStr.u "S&P 500: 5,000.00") Inputs.hidden_failed
              (PyStr.u "- [wire] Fed holds rates")
              (PyStr.u "snapshot") (PyStr.u "changes") [PyStr.u "hidden"])
    as (_ & H01 & H23).
  split.
  - apply H01; [reflexivity|no_marker..].
  - apply H23; [reflexivity|no_marker..].
Defined.

(** C4, as stated, fails: for the text [Inputs.calm_text], which has
    no marker, the stage returns exactly the two strings, the text and
    the empty string; no component of the result is a flag, so nothing
    in it is [parse_degraded = true]. *)
Lemma unmarked_text_result_has_no_flag :
  let r := Inputs.stage_01 Inputs.backend_ok in
  r = (Inputs.calm_text, [])
  /\ stage_value r = [PStr Inputs.calm_text; PStr []]
  /\ forall b, PBool b ∉ stage_value r.
Proof.
  cbv zeta. split; [vm_compute; reflexivity|].
  split; [vm_compute; reflexivity|].
  intros b H. unfold stage_value in H.
  apply elem_of_cons in H as [H|H]; [discriminate|].
  apply elem_of_cons in H as [H|H]; [discriminate|].
  apply elem_of_nil in H. exact H.
Qed.


End PreMarketAnalyzerFacts.

(** * More on the previous-content lookup *)

Module TradingDayFacts.
Import NotionOutput.

Local Abbreviation loop_unfold := NotionFacts.loop_unfold.

(** The loop goes back in time. *)
Lemma loop_le offset result days_back :
  (trading_day_loop offset result days_back <= result)%Z.
Proof.
  funelim (trading_day_loop offset result days_back); lia.
Qed.

(** Only the number of trading days still to count matters. *)
Lemma loop_shift c offset result days_back :
  trading_day_loop (offset + c) result (days_back + c)
  = trading_day_loop offset result days_back.
Proof.
  funelim (trading_day_loop offset result days_back);
    rewrite (loop_unfold (offset + c)); repeat case_decide; try lia.
  - replace (days_back + c + 1)%Z with (days_back + 1 + c)%Z by lia.
    apply H.
  - apply H.
Qed.

(** One more trading day back is one trading day back from where the
    loop stops. *)
Lemma loop_succ offset result days_back :
  (days_back <= offset)%Z ->
  trading_day_loop (offset + 1) result days_back
  = trading_day_loop 1 (trading_day_loop offset result days_back) 0.
Proof.
  funelim (trading_day_loop offset result days_back); intros Hle.
  - assert (days_back = offset) by lia. subst days_back.
    match goal with
    | |- _ = trading_day_loop 1 ?r 0 =>
      rewrite <- (loop_shift offset 1 r 0)
    end.
    f_equal; lia.
  - rewrite (loop_unfold (offset + 1)). repeat case_decide; lia.
  - rewrite (loop_unfold (offset + 1)). repeat case_decide; lia.
Qed.

Lemma weekdays_from_snoc (lo : Z) (n : nat) :
  Calendar.weekdays_from lo (S n)
  = Calendar.weekdays_from lo n
    + (if (weekday (lo + Z.of_nat n) <? 5)%Z then 1 else 0).
Proof.
  revert lo. induction n as [|n IH]; intros lo.
  - cbn [Calendar.weekdays_from]. rewrite Z.add_0_r. lia.
  - change (Calendar.weekdays_from lo (S (S n)))
      with ((if (weekday lo <? 5)%Z then 1 else 0)
            + Calendar.weekdays_from (lo + 1) (S n)).
    rewrite IH. cbn [Calendar.weekdays_from].
    replace (lo + 1 + Z.of_nat n)%Z with (lo + Z.of_nat (S n))%Z by lia.
    lia.
Qed.

Lemma weekdays_between_snoc (lo hi : Z) :
  (lo <= hi - 1)%Z ->
  Calendar.weekdays_between lo hi
  = Calendar.weekdays_between lo (hi - 1)
    + (if (weekday (hi - 1) <? 5)%Z then 1 else 0).
Proof.
  intros Hle. unfold Calendar.weekdays_between.
  replace (Z.to_nat (hi - lo)) with (S (Z.to_nat (hi - 1 - lo))) by lia.
  rewrite weekdays_from_snoc.
  replace (lo + Z.of_nat (Z.to_nat (hi - 1 - lo)))%Z with (hi - 1)%Z by lia.
  reflexivity.
Qed.

(** The loop counts the weekdays it passes. *)
Lemma loop_counts offset result days_back :
  Calendar.weekdays_between (trading_day_loop offset result days_back) result
  = Z.to_nat (offset - days_back).
Proof.
  funelim (trading_day_loop offset result days_back).
  - unfold Calendar.weekdays_between. rewrite Z.sub_diag.
    change (Z.to_nat 0) with 0. cbn [Calendar.weekdays_from]. lia.
  - rewrite weekdays_between_snoc by apply loop_le.
    rewrite H.
    match goal with
    | |- context [(?a <? 5)%Z] => destruct (Z.ltb_spec a 5)
    end; lia.
  - rewrite weekdays_between_snoc by apply loop_le.
    rewrite H.
    match goal with
    | |- context [(?a <? 5)%Z] => destruct (Z.ltb_spec a 5)
    end; lia.
Qed.

(** X1: The [k]-th previous trading day is the weekday with exactly [k]
    weekdays from it up to the day before the date; for [k = 0] it is
    the date itself. *)
Theorem kth_previous_trading_day (date : Z) (k : nat) :
  let r := get_previous_trading_day date (Z.of_nat k) in
  (r <= date)%Z
  /\ Calendar.weekdays_between r date = k
  /\ match k with
     | O => r = date
     | S _ => (0 <= weekday r < 5)%Z
     end.
Proof.
  cbv zeta. unfold get_previous_trading_day.
  split; [apply loop_le|]. split.
  - rewrite loop_counts. lia.
  - destruct k as [|k].
    + rewrite loop_unfold. case_decide; [lia|reflexivity].
    + apply NotionFacts.loop_weekday. lia.
Qed.

Lemma trading_day_one_more (date : Z) (k : nat) :
  get_previous_trading_day date (Z.of_nat (S k))
  = get_previous_trading_day (get_previous_trading_day date (Z.of_nat k)) 1.
Proof.
  unfold get_previous_trading_day.
  replace (Z.of_nat (S k)) with (Z.of_nat k + 1)%Z by lia.
  apply loop_succ. lia.
Qed.

(** X2: [k + 1] trading days back is one trading day back from [k] trading
    days back. *)
Theorem previous_trading_day_succ (date : Z) (k : nat) :
  get_previous_trading_day date (Z.of_nat (S k))
  = get_previous_trading_day (get_previous_trading_day date (Z.of_nat k)) 1.
Proof.
  exact (trading_day_one_more date k).
Qed.

(** X3: The previous trading day of the post-market report is the first
    lookback of the previous-content lookup. *)
Theorem post_market_previous_trading_day (date : Z) :
  Main.get_previous_trading_day date = get_previous_trading_day date 1.
Proof.
  rewrite NotionFacts.previous_trading_day_1.
  unfold Main.get_previous_trading_day. cbv zeta.
  repeat match goal with
         | |- context [(?a =? ?b)%Z] => destruct (Z.eqb_spec a b)
         end;
    unfold weekday in *; Z.to_euclidean_division_equations; lia.
Qed.

(** The three lookbacks, as dates. *)
Lemma lookback_dates (d : Z) :
  let back x :=
    (x - (if weekday x =? 0 then 3 else if weekday x =? 6 then 2 else 1))%Z in
  get_previous_trading_day d 1 = back d
  /\ get_previous_trading_day d 2 = back (back d)
  /\ get_previous_trading_day d 3 = back (back (back d)).
Proof.
  cbv zeta. split; [apply NotionFacts.previous_trading_day_1|]. split.
  - change 2%Z with (Z.of_nat 2).
    rewrite (trading_day_one_more d 1).
    change (Z.of_nat 1) with 1%Z.
    rewrite !NotionFacts.previous_trading_day_1. reflexivity.
  - change 3%Z with (Z.of_nat 3).
    rewrite (trading_day_one_more d 2).
    rewrite (trading_day_one_more d 1).
    change (Z.of_nat 1) with 1%Z.
    rewrite !NotionFacts.previous_trading_day_1. reflexivity.
Qed.

Section Store.
Variable find_page_by_title : pystr -> option pystr.
Variable get_page_content : pystr -> pystr.

Local Abbreviation fetch :=
  (get_pre_market_content find_page_by_title get_page_content).
Local Abbreviation resolve :=
  (get_yesterday_pre_market find_page_by_title get_page_content).
Local Abbreviation tries :=
  (try_lookbacks find_page_by_title get_page_content).

Lemma try_lookbacks_prefix current lookbacks asked :
  exists n, n <= length lookbacks
            /\ (lookbacks <> [] -> 1 <= n)
            /\ snd (tries current lookbacks asked)
               = asked ++ take n (map (get_previous_trading_day current)
                                      lookbacks).
Proof.
  revert asked. induction lookbacks as [|k ks IH]; intros asked.
  - exists 0. cbn [try_lookbacks snd take map length].
    rewrite app_nil_r. repeat split; [lia|congruence].
  - cbn [try_lookbacks].
    destruct (PyStr.truthy _).
    + exists 1. cbn [length map take].
      repeat split; [lia|lia|].
      destruct (k =? 1)%Z; reflexivity.
    + destruct (IH (asked ++ [get_previous_trading_day current k]))
        as (n & Hn & _ & Heq).
      exists (S n). cbn [length map take].
      repeat split; [lia|lia|].
      rewrite Heq, <- app_assoc. reflexivity.
Qed.

(** X4: The dates for which the store is asked go strictly back in time,
    from the day before the current date to at most five days before
    it; so no date is asked for twice. *)
Theorem lookbacks_go_strictly_back (current_date : Z) :
  let t := get_previous_trading_day current_date in
  (current_date - 5 <= t 3 < t 2)%Z
  /\ (t 2 < t 1 < current_date)%Z
  /\ exists n, 1 <= n <= 3
               /\ snd (resolve current_date) = take n [t 1; t 2; t 3]%Z.
Proof.
  cbv zeta.
  destruct (lookback_dates current_date) as (H1 & H2 & H3).
  cbv zeta in H1, H2, H3.
  split; [|split].
  - rewrite H2, H3.
    repeat match goal with
           | |- context [(?a =? ?b)%Z] => destruct (Z.eqb_spec a b)
           end;
      unfold weekday in *; Z.to_euclidean_division_equations; lia.
  - rewrite H1, H2.
    repeat match goal with
           | |- context [(?a =? ?b)%Z] => destruct (Z.eqb_spec a b)
           end;
      unfold weekday in *; Z.to_euclidean_division_equations; lia.
  - unfold get_yesterday_pre_market.
    destruct (try_lookbacks_prefix current_date [1; 2; 3]%Z [])
      as (n & Hn & Hpos & Heq).
    exists n. cbn [length] in Hn.
    split; [split; [apply Hpos; discriminate|exact Hn]|].
    rewrite Heq. reflexivity.
Qed.

Lemma strftime_Ymd_not_empty (d : Z) : strftime_Ymd d <> [].
Proof.
  unfold strftime_Ymd. destruct (ord2ymd d) as [[y m] dd].
  intros H. apply app_eq_nil in H as [_ H]. discriminate.
Qed.

(** X5: The report holds the content and the date of the first lookback
    for which the store has content, and is unavailable exactly when
    the store has content for none of the three. *)
Theorem resolver_returns_first_hit (current_date : Z) :
  let r := fst (resolve current_date) in
  let t := get_previous_trading_day current_date in
  (exists k, (1 <= k <= 3)%Z
     /\ available r = true
     /\ content r = fetch (t k) /\ content r <> []
     /\ date r = strftime_Ymd (t k) /\ date r <> []
     /\ (forall j, (1 <= j < k)%Z -> fetch (t j) = [])
     /\ (source r = PyStr.u "notion" <-> k = 1%Z))
  \/ (available r = false /\ content r = [] /\ date r = []
      /\ forall j, (1 <= j <= 3)%Z -> fetch (t j) = []).
Proof.
  cbv zeta. unfold get_yesterday_pre_market. cbn [try_lookbacks].
  change (1 =? 1)%Z with true. change (2 =? 1)%Z with false.
  change (3 =? 1)%Z with false. cbv iota.
  pose proof (strftime_Ymd_not_empty
                (get_previous_trading_day current_date 1)) as D1.
  pose proof (strftime_Ymd_not_empty
                (get_previous_trading_day current_date 2)) as D2.
  pose proof (strftime_Ymd_not_empty
                (get_previous_trading_day current_date 3)) as D3.
  destruct (fetch (get_previous_trading_day current_date 1))
    as [|a1 c1] eqn:E1; cbn [PyStr.truthy].
  2:{ left. exists 1%Z. cbn [fst available content date source].
      rewrite E1. repeat split; try lia; try discriminate; auto. }
  destruct (fetch (get_previous_trading_day current_date 2))
    as [|a2 c2] eqn:E2; cbn [PyStr.truthy].
  2:{ left. exists 2%Z. cbn [fst available content date source].
      rewrite E2. repeat split; try lia; try discriminate; auto;
        try (intros j Hj; assert (j = 1%Z) as -> by lia; exact E1);
        intros H; vm_compute in H; discriminate. }
  destruct (fetch (get_previous_trading_day current_date 3))
    as [|a3 c3] eqn:E3; cbn [PyStr.truthy].
  2:{ left. exists 3%Z. cbn [fst available content date source].
      rewrite E3. repeat split; try lia; try discriminate; auto;
        try (intros j Hj;
             assert (j = 1%Z \/ j = 2%Z) as [-> | ->] by lia; assumption);
        intros H; vm_compute in H; discriminate. }
  right. cbn [fst available content date].
  repeat split.
  intros j Hj.
  assert (j = 1%Z \/ j = 2%Z \/ j = 3%Z) as [-> | [-> | ->]] by lia;
    assumption.
Qed.
End Store.

End TradingDayFacts.

(** * More on the alias index *)

Module EntityQueriesFacts.
Import EntityMatcher EntityQueries.

Local Abbreviation get_Some_elem := PreMarketV3Facts.get_Some_elem.
Local Abbreviation setitem_elem := PreMarketV3Facts.setitem_elem.

Lemma setitem_keys {V} (d : list (pystr * V)) (k : pystr) (v : V)
      (k' : pystr) :
  k' ∈ PyDict.keys (PyDict.setitem d k v) <-> k' = k \/ k' ∈ PyDict.keys d.
Proof.
  unfold PyDict.keys.
  induction d as [|[k0 v0] d IH]; cbn [PyDict.setitem map fst].
  - rewrite elem_of_cons, elem_of_nil. tauto.
  - destruct (decide (k0 = k)) as [->|Hne]; cbn [map fst];
      rewrite !elem_of_cons.
    + tauto.
    + rewrite IH. tauto.
Qed.

Lemma elem_keys {V} (d : list (pystr * V)) (k : pystr) (v : V) :
  (k, v) ∈ d -> k ∈ PyDict.keys d.
Proof.
  intros H. unfold PyDict.keys. apply list_elem_of_In, in_map_iff.
  exists (k, v). split; [reflexivity|]. apply list_elem_of_In. exact H.
Qed.

Lemma known_more (pending : list pystr) (tb tb' : tables) (e : pystr) :
  (forall x, x ∈ PyDict.keys (entity_to_info tb) ->
             x ∈ PyDict.keys (entity_to_info tb')) ->
  known_entity pending tb e -> known_entity pending tb' e.
Proof. intros Hsub [H|H]; [left; auto|right; exact H]. Qed.

Section Load.
Variable lower : pystr -> pystr.

Lemma consistent_empty : consistent [] empty_tables.
Proof.
  split; cbn [empty_tables ticker_to_info alias_to_entity alias_to_ticker
              entity_to_info];
    intros; match goal with H : _ ∈ [] |- _ => apply elem_of_nil in H end;
    contradiction.
Qed.

Lemma consistent_add_industry pending tb i :
  consistent pending tb -> consistent pending (add_industry tb i)
  /\ i ∈ industries (add_industry tb i).
Proof.
  intros [H1 H2 H3 H4]. split; [split|]; cbn [add_industry ticker_to_info
    alias_to_entity alias_to_ticker entity_to_info industries].
  - intros t info Ht. destruct (H1 t info Ht) as (? & ? & ?).
    repeat split; auto. apply elem_of_union. auto.
  - exact H2.
  - exact H3.
  - intros e i0 tk l He. specialize (H4 e i0 tk l He).
    apply elem_of_union. auto.
  - apply elem_of_union. right. apply elem_of_singleton. reflexivity.
Qed.

Lemma consistent_set_alias_entity pending tb a e :
  consistent pending tb -> known_entity pending tb e ->
  consistent pending (set_alias_entity tb a e).
Proof.
  intros [H1 H2 H3 H4] He. split; cbn [set_alias_entity ticker_to_info
    alias_to_entity alias_to_ticker entity_to_info industries]; auto.
  intros a' e' Hin. apply setitem_elem in Hin as [[= -> ->]|Hin]; eauto.
Qed.

Lemma consistent_set_alias_ticker pending tb a t :
  consistent pending tb -> t ∈ PyDict.keys (ticker_to_info tb) ->
  consistent pending (set_alias_ticker tb a t).
Proof.
  intros [H1 H2 H3 H4] Ht. split; cbn [set_alias_ticker ticker_to_info
    alias_to_entity alias_to_ticker entity_to_info industries]; auto.
  intros a' t' Hin. apply setitem_elem in Hin as [[= -> ->]|Hin]; eauto.
Qed.

Lemma consistent_set_ticker_info pending tb t info :
  consistent pending tb -> t <> [] ->
  known_entity pending tb (ti_name info) ->
  ti_industry info ∈ industries tb ->
  consistent pending (set_ticker_info tb t info).
Proof.
  intros [H1 H2 H3 H4] Ht Hn Hi. split; cbn [set_ticker_info ticker_to_info
    alias_to_entity alias_to_ticker entity_to_info industries]; auto.
  - intros t' info' Hin.
    apply setitem_elem in Hin as [[= -> ->]|Hin]; eauto.
  - intros a t' Hin. apply setitem_keys. right. eauto.
Qed.

(** Writing the entry of a name settles it. *)
Lemma consistent_set_entity_info pending tb name v :
  consistent (name :: pending) tb ->
  (forall i tk l, v = CompanyInfo i tk l -> i ∈ industries tb) ->
  consistent pending (set_entity_info tb name v).
Proof.
  intros [H1 H2 H3 H4] Hv.
  assert (Hk : forall e, known_entity (name :: pending) tb e ->
                 known_entity pending (set_entity_info tb name v) e).
  { intros e [He|He].
    - left. cbn [set_entity_info entity_to_info].
      apply setitem_keys. auto.
    - apply elem_of_cons in He as [->|He]; [|right; exact He].
      left. cbn [set_entity_info entity_to_info].
      apply setitem_keys. auto. }
  split; cbn [set_entity_info ticker_to_info alias_to_entity
              alias_to_ticker industries]; auto.
  - intros t info Hin. destruct (H1 t info Hin) as (? & ? & ?). auto.
  - intros a e Hin. eauto.
  - cbn [entity_to_info]. intros e i tk l Hin.
    apply setitem_elem in Hin as [Heq|Hin]; [|eauto].
    injection Heq as -> Heq. eapply Hv. symmetry. exact Heq.
Qed.

Lemma consistent_pending pending tb name :
  consistent pending tb -> consistent (name :: pending) tb.
Proof.
  intros [H1 H2 H3 H4].
  assert (Hk : forall e, known_entity pending tb e ->
                 known_entity (name :: pending) tb e).
  { intros e [He|He]; [left; exact He|right].
    apply elem_of_cons. auto. }
  split; auto.
  - intros t info Hin. destruct (H1 t info Hin) as (? & ? & ?). auto.
  - intros a e Hin. eauto.
Qed.

Lemma known_head pending tb name :
  known_entity (name :: pending) tb name.
Proof. right. apply elem_of_cons. auto. Qed.

Lemma index_alias_consistent pending name aliases tb :
  consistent pending tb -> known_entity pending tb name ->
  consistent pending (fold_left (index_alias lower name) aliases tb).
Proof.
  revert tb. induction aliases as [|a aliases IH]; intros tb Hc Hn;
    cbn [fold_left]; [exact Hc|].
  apply IH.
  - unfold index_alias. apply consistent_set_alias_entity; assumption.
  - destruct Hn as [Hn|Hn]; [left|right]; exact Hn.
Qed.

Lemma index_alias_industries name aliases tb :
  industries (fold_left (index_alias lower name) aliases tb)
  = industries tb.
Proof.
  revert tb. induction aliases as [|a aliases IH]; intros tb;
    cbn [fold_left]; [reflexivity|].
  rewrite IH. reflexivity.
Qed.

Lemma index_alias_entity_info name aliases tb :
  entity_to_info (fold_left (index_alias lower name) aliases tb)
  = entity_to_info tb.
Proof.
  revert tb. induction aliases as [|a aliases IH]; intros tb;
    cbn [fold_left]; [reflexivity|].
  rewrite IH. reflexivity.
Qed.

Lemma index_alias_listed_consistent pending name ticker aliases tb :
  (PyStr.truthy ticker = true -> ticker ∈ PyDict.keys (ticker_to_info tb)) ->
  consistent pending tb ->
  known_entity pending tb name ->
  consistent pending
             (fold_left (index_alias_listed lower name ticker) aliases tb).
Proof.
  revert tb. induction aliases as [|a aliases IH]; intros tb Ht Hc Hn;
    cbn [fold_left]; [exact Hc|].
  unfold index_alias_listed at 2.
  destruct (PyStr.truthy ticker) eqn:E.
  - apply IH.
    + intros _. cbn [set_alias_ticker set_alias_entity ticker_to_info].
      auto.
    + apply consistent_set_alias_ticker; [|cbn; auto].
      apply consistent_set_alias_entity; assumption.
    + destruct Hn as [Hn|Hn]; [left|right]; exact Hn.
  - apply IH.
    + discriminate.
    + apply consistent_set_alias_entity; assumption.
    + destruct Hn as [Hn|Hn]; [left|right]; exact Hn.
Qed.

Lemma truthy_not_nil (s : pystr) : PyStr.truthy s = true -> s <> [].
Proof. destruct s; [discriminate|discriminate]. Qed.

Lemma load_listed_consistent industry tb c tb' :
  consistent [] tb -> industry ∈ industries tb ->
  load_listed lower industry tb c = Ok tb' ->
  consistent [] tb' /\ industry ∈ industries tb'.
Proof.
  intros Hc Hi. unfold load_listed.
  destruct (co_name c) as [name|]; [|discriminate].
  cbn [getitem rbind]. intros [= <-].
  set (ticker := get_or (co_ticker c) []).
  set (aliases := get_or (co_aliases c) []).
  set (info := {| ti_name := name; ti_industry := industry |}).
  set (tb1 := if PyStr.truthy ticker
              then set_alias_ticker
                     (set_alias_ticker (set_ticker_info tb ticker info)
                                       (lower name) ticker)
                     (lower ticker) ticker
              else tb).
  assert (H1 : consistent [name] tb1
               /\ industries tb1 = industries tb
               /\ (PyStr.truthy ticker = true ->
                   ticker ∈ PyDict.keys (ticker_to_info tb1))).
  { subst tb1. destruct (PyStr.truthy ticker) eqn:E.
    - split; [|split; [reflexivity|]].
      + apply consistent_set_alias_ticker;
          [apply consistent_set_alias_ticker|];
          [apply consistent_set_ticker_info| |].
        * apply consistent_pending. exact Hc.
        * apply truthy_not_nil. exact E.
        * apply known_head.
        * exact Hi.
        * cbn [set_ticker_info ticker_to_info]. apply setitem_keys. auto.
        * cbn [set_alias_ticker set_ticker_info ticker_to_info].
          apply setitem_keys. auto.
      + intros _. cbn [set_alias_ticker set_ticker_info ticker_to_info].
        apply setitem_keys. auto.
    - split; [apply consistent_pending; exact Hc|].
      split; [reflexivity|discriminate]. }
  destruct H1 as (Hc1 & Hi1 & Ht1).
  set (tb2 := set_entity_info tb1 name
                (CompanyInfo industry (Some ticker) true)).
  assert (Hc2 : consistent [] tb2).
  { apply consistent_set_entity_info; [exact Hc1|].
    intros i tk l [= <- _ _]. pose proof Hi as Hi'.
    rewrite <- Hi1 in Hi'. exact Hi'. }
  assert (Hind : forall als tb0,
             industries (fold_left (index_alias_listed lower name ticker)
                                   als tb0) = industries tb0).
  { induction als as [|a als IH]; intros tb0; cbn [fold_left];
      [reflexivity|].
    rewrite IH. unfold index_alias_listed.
    destruct (PyStr.truthy ticker); reflexivity. }
  split.
  - apply index_alias_listed_consistent; [|exact Hc2|].
    + intros E. cbn [set_entity_info ticker_to_info]. auto.
    + left. cbn [set_entity_info entity_to_info]. apply setitem_keys. auto.
  - rewrite Hind. pose proof Hi as Hi'. rewrite <- Hi1 in Hi'. exact Hi'.
Qed.

(** The aliases of a name whose entry is written. *)
Lemma named_aliases_consistent name aliases tb :
  consistent [] tb -> name ∈ PyDict.keys (entity_to_info tb) ->
  consistent []
    (fold_left (index_alias lower name) aliases
               (set_alias_entity tb (lower name) name)).
Proof.
  intros Hc Hn.
  apply index_alias_consistent.
  - apply consistent_set_alias_entity; [exact Hc|left; exact Hn].
  - left. exact Hn.
Qed.

Lemma load_unlisted_consistent industry tb c tb' :
  consistent [] tb -> industry ∈ industries tb ->
  load_unlisted lower industry tb c = Ok tb' ->
  consistent [] tb' /\ industry ∈ industries tb'.
Proof.
  intros Hc Hi. unfold load_unlisted.
  destruct (co_name c) as [name|]; [|discriminate].
  cbn [getitem rbind]. intros [= <-]. split.
  - apply named_aliases_consistent.
    + apply consistent_set_entity_info;
        [apply consistent_pending; exact Hc|].
      intros i tk l [= <- _ _]. exact Hi.
    + cbn [set_entity_info entity_to_info]. apply setitem_keys. auto.
  - rewrite index_alias_industries. exact Hi.
Qed.

Lemma for_each_invariant {A S} (body : S -> A -> result S)
      (P : S -> Prop) :
  (forall s x s', P s -> body s x = Ok s' -> P s') ->
  forall xs s s', P s -> for_each body xs s = Ok s' -> P s'.
Proof.
  intros Hbody. induction xs as [|x xs IH]; intros s s' Hs;
    cbn [for_each].
  - intros [= <-]. exact Hs.
  - destruct (body s x) as [s1|e] eqn:E; cbn [rbind]; [|discriminate].
    apply IH. eapply Hbody; eassumption.
Qed.

Lemma load_industry_consistent tb ic tb' :
  consistent [] tb -> load_industry lower tb ic = Ok tb' ->
  consistent [] tb'.
Proof.
  destruct ic as [industry cats]. intros Hc. unfold load_industry.
  destruct (consistent_add_industry [] tb industry Hc) as [Hc0 Hi0].
  destruct (for_each (load_listed lower industry) _ _) as [tb1|e] eqn:E1;
    cbn [rbind]; [|discriminate].
  intros E2.
  assert (H1 : consistent [] tb1 /\ industry ∈ industries tb1).
  { apply (for_each_invariant (load_listed lower industry)
             (fun t => consistent [] t /\ industry ∈ industries t))
      with (3 := E1); [|auto].
    intros s x s' [Hs Hi] Hx.
    eapply load_listed_consistent; eassumption. }
  apply (for_each_invariant (load_unlisted lower industry)
           (fun t => consistent [] t /\ industry ∈ industries t))
    with (3 := E2); [|exact H1].
  intros s x s' [Hs Hi] Hx.
  eapply load_unlisted_consistent; eassumption.
Qed.

Lemma load_person_consistent tb p tb' :
  consistent [] tb -> load_person lower tb p = Ok tb' ->
  consistent [] tb'.
Proof.
  intros Hc. unfold load_person.
  destruct (pe_name p) as [name|]; [|discriminate].
  cbn [getitem rbind]. intros [= <-].
  apply consistent_set_entity_info; [|discriminate].
  apply index_alias_consistent; [|apply known_head].
  apply consistent_set_alias_entity;
    [apply consistent_pending; exact Hc|apply known_head].
Qed.

Lemma load_institution_consistent tb i tb' :
  consistent [] tb -> load_institution lower tb i = Ok tb' ->
  consistent [] tb'.
Proof.
  intros Hc. unfold load_institution.
  destruct (in_name i) as [name|]; [|discriminate].
  cbn [getitem rbind]. intros [= <-].
  apply named_aliases_consistent.
  - apply consistent_set_entity_info;
      [apply consistent_pending; exact Hc|discriminate].
  - cbn [set_entity_info entity_to_info]. apply setitem_keys. auto.
Qed.

(** The tables of an accepted catalog are consistent. *)
Lemma load_tables_consistent data tb :
  load_tables lower data = Ok tb -> consistent [] tb.
Proof.
  unfold load_tables.
  destruct (for_each (load_industry lower) _ _) as [tb1|e] eqn:E1;
    cbn [rbind]; [|discriminate].
  destruct (for_each (load_person lower) _ _) as [tb2|e] eqn:E2;
    cbn [rbind]; [|discriminate].
  intros E3.
  apply (for_each_invariant (load_institution lower) (consistent []))
    with (3 := E3); [apply load_institution_consistent|].
  apply (for_each_invariant (load_person lower) (consistent []))
    with (3 := E2); [apply load_person_consistent|].
  apply (for_each_invariant (load_industry lower) (consistent []))
    with (3 := E1); [apply load_industry_consistent|].
  apply consistent_empty.
Qed.

End Load.

Section Resolve.
Variable lower upper : pystr -> pystr.
Variable ci_eq : N -> N -> bool.
Variable is_word : N -> bool.

Local Abbreviation find_matches :=
  (EntityMatcher.find_matches lower upper ci_eq is_word).

Lemma from_tables_none (tb : tables) : from_tables tb no_matches.
Proof.
  repeat split; cbn [no_matches m_tickers m_entities m_industries];
    intros x Hx; apply elem_of_empty in Hx; contradiction.
Qed.

Lemma ticker_step_from (tb : tables) (r : matches) (g : pystr) :
  consistent [] tb -> from_tables tb r ->
  from_tables tb (ticker_step upper tb r g).
Proof.
  intros [H1 H2 H3 H4] (Ht & He & Hi). unfold ticker_step.
  destruct (PyDict.get (ticker_to_info tb) (upper g)) as [info|] eqn:E;
    [|repeat split; assumption].
  apply get_Some_elem in E.
  destruct (H1 _ _ E) as (_ & [Hn|Hn] & Hind);
    [|apply elem_of_nil in Hn; contradiction].
  repeat split;
    cbn [add_match_industry add_entity add_ticker
         m_tickers m_entities m_industries];
    intros x Hx; apply elem_of_union in Hx as [Hx|Hx]; auto;
    apply elem_of_singleton in Hx; subst x; auto.
  eapply elem_keys. exact E.
Qed.

Lemma entity_step_from (tb : tables) (r : matches) (h : nat * pystr) :
  consistent [] tb -> from_tables tb r ->
  from_tables tb (entity_step lower tb r h).
Proof.
  intros [H1 H2 H3 H4] (Ht & He & Hi).
  repeat split.
  - intros t Hin.
    apply (EntityMatcherFacts.entity_step_tickers lower) in Hin
      as [Hin|Hin]; [auto|].
    apply get_Some_elem in Hin. eauto.
  - intros e Hin.
    apply (EntityMatcherFacts.entity_step_entities lower) in Hin
      as [Hin|Hin]; [auto|].
    apply get_Some_elem in Hin.
    destruct (H2 _ _ Hin) as [Hk|Hk]; [exact Hk|].
    apply elem_of_nil in Hk. contradiction.
  - intros i Hin.
    apply (EntityMatcherFacts.entity_step_industries lower) in Hin
      as [Hin|(e & tk & l & _ & Hin)]; [auto|].
    apply get_Some_elem in Hin. eauto.
Qed.

Lemma fold_from {A} (step : matches -> A -> matches) (tb : tables) :
  (forall r x, from_tables tb r -> from_tables tb (step r x)) ->
  forall xs r, from_tables tb r -> from_tables tb (fold_left step xs r).
Proof.
  intros Hstep. induction xs as [|x xs IH]; intros r Hr; cbn [fold_left];
    auto.
Qed.

(** X6: Whatever the text, [find_matches] reports only tickers that have
    an entry of [ticker_to_info], none of them empty, entity names that
    have an entry of [entity_to_info], and industries of the
    catalog. *)
Theorem find_matches_reports_catalog_entries (data : catalog)
        (mt : matcher) (text : pystr) :
  _load_entities lower data = Ok mt ->
  let r := find_matches mt text in
  (forall t, t ∈ m_tickers r ->
             t <> [] /\ t ∈ PyDict.keys (ticker_to_info (tbl mt)))
  /\ (forall e, e ∈ m_entities r ->
                e ∈ PyDict.keys (entity_to_info (tbl mt)))
  /\ (forall i, i ∈ m_industries r -> i ∈ industries (tbl mt)).
Proof.
  intros Hload. pose proof (EntityMatcherFacts.load_matcher _ _ _ Hload)
    as Hmt.
  unfold _load_entities in Hload.
  destruct (load_tables lower data) as [tb|e] eqn:E; [|discriminate].
  cbn [rbind] in Hload. injection Hload as <-.
  cbn [_build_patterns tbl] in *.
  pose proof (load_tables_consistent lower data tb E) as Hc.
  assert (Hfrom : from_tables tb (find_matches (_build_patterns tb) text)).
  { unfold EntityMatcher.find_matches.
    destruct (negb (PyStr.truthy text)); [apply from_tables_none|].
    cbn [tbl _build_patterns].
    apply fold_from; [intros; apply entity_step_from; assumption|].
    unfold ticker_path. cbn [tbl _build_patterns].
    apply fold_from; [intros; apply ticker_step_from; assumption|].
    apply from_tables_none. }
  destruct Hfrom as (Ht & He & Hi). cbv zeta.
  split; [|split; assumption].
  intros t Hin. specialize (Ht t Hin). split; [|exact Ht].
  unfold PyDict.keys in Ht.
  apply list_elem_of_In, in_map_iff in Ht as ([t' info] & Heq & Hin').
  cbn [fst] in Heq. subst t'. apply list_elem_of_In in Hin'.
  destruct Hc as [H1 _ _ _]. destruct (H1 _ _ Hin') as (Hne & _).
  exact Hne.
Qed.
End Resolve.

Section TickerText.
Variable lower upper : pystr -> pystr.
Variable ci_eq : N -> N -> bool.
Variable is_word : N -> bool.
Hypothesis ci_eq_refl : forall c, ci_eq c c = true.

Local Abbreviation find_matches :=
  (EntityMatcher.find_matches lower upper ci_eq is_word).

Lemma ci_prefix_refl (s : pystr) : PyRe.ci_prefix ci_eq s s = true.
Proof.
  induction s as [|c s IH]; cbn [PyRe.ci_prefix]; [reflexivity|].
  rewrite ci_eq_refl, IH. reflexivity.
Qed.

(** Among longest-first alternatives, a ticker that is the whole text
    is what the alternation matches. *)
Lemma ticker_alts_self (tickers : list pystr) (t : pystr) :
  longest_first tickers -> t ∈ tickers ->
  ticker_alts ci_eq tickers t = Some (t, length t).
Proof.
  unfold longest_first.
  induction 1 as [|x tickers Hs IH Hx]; intros Hin.
  - apply elem_of_nil in Hin. contradiction.
  - cbn [ticker_alts].
    destruct (PyRe.ci_prefix ci_eq x t) eqn:Hp.
    + assert (Hlen : length x = length t).
      { apply (EntityMatcherFacts.ci_prefix_length ci_eq) in Hp.
        apply elem_of_cons in Hin as [->|Hin]; [reflexivity|].
        rewrite Forall_forall in Hx. specialize (Hx t Hin). lia. }
      rewrite Hlen, drop_all, firstn_all. cbn [trailer].
      rewrite Nat.add_0_r. reflexivity.
    + apply elem_of_cons in Hin as [->|Hin]; [|auto].
      rewrite ci_prefix_refl in Hp. discriminate.
Qed.

Lemma ticker_step_keeps (tb : tables) (r : matches) (g : pystr) :
  m_tickers r ⊆ m_tickers (ticker_step upper tb r g)
  /\ m_entities r ⊆ m_entities (ticker_step upper tb r g)
  /\ m_industries r ⊆ m_industries (ticker_step upper tb r g).
Proof.
  unfold ticker_step.
  destruct (PyDict.get (ticker_to_info tb) (upper g)); [|auto].
  cbn [add_match_industry add_entity add_ticker
       m_tickers m_entities m_industries].
  repeat split; intros x Hx; try apply elem_of_union; auto.
Qed.

Lemma entity_step_keeps (tb : tables) (r : matches) (h : nat * pystr) :
  m_tickers r ⊆ m_tickers (entity_step lower tb r h)
  /\ m_entities r ⊆ m_entities (entity_step lower tb r h)
  /\ m_industries r ⊆ m_industries (entity_step lower tb r h).
Proof.
  unfold entity_step.
  destruct (PyDict.get (alias_to_entity tb) (lower (snd h))) as [en|];
    [|auto].
  destruct (PyDict.get (alias_to_ticker tb) (lower (snd h)));
    destruct (PyDict.get (entity_to_info tb) en) as [[]|];
    cbn [add_match_industry add_entity add_ticker
         m_tickers m_entities m_industries];
    repeat split; intros x Hx; try apply elem_of_union; auto.
Qed.

Lemma fold_keeps {A} (step : matches -> A -> matches) :
  (forall r x, m_tickers r ⊆ m_tickers (step r x)
               /\ m_entities r ⊆ m_entities (step r x)
               /\ m_industries r ⊆ m_industries (step r x)) ->
  forall xs r,
    m_tickers r ⊆ m_tickers (fold_left step xs r)
    /\ m_entities r ⊆ m_entities (fold_left step xs r)
    /\ m_industries r ⊆ m_industries (fold_left step xs r).
Proof.
  intros Hstep. induction xs as [|x xs IH]; intros r; cbn [fold_left];
    [auto|].
  destruct (Hstep r x) as (H1 & H2 & H3).
  destruct (IH (step r x)) as (I1 & I2 & I3).
  repeat split; intros y Hy; auto.
Qed.

(** X7: A text that is just a ticker of the catalog, written in upper
    case, resolves to the ticker and to the company and the industry
    that [ticker_to_info] holds for it. *)
Theorem ticker_text_resolves (data : catalog) (mt : matcher)
        (t : pystr) (info : ticker_info) :
  _load_entities lower data = Ok mt ->
  PyDict.get (ticker_to_info (tbl mt)) t = Some info ->
  upper t = t ->
  let r := find_matches mt t in
  t ∈ m_tickers r /\ ti_name info ∈ m_entities r
  /\ ti_industry info ∈ m_industries r.
Proof.
  intros Hload Hget Hup.
  pose proof (EntityMatcherFacts.load_matcher _ _ _ Hload) as Hmt.
  unfold _load_entities in Hload.
  destruct (load_tables lower data) as [tb|e] eqn:E; [|discriminate].
  cbn [rbind] in Hload. injection Hload as <-.
  cbn [_build_patterns tbl] in *.
  pose proof (load_tables_consistent lower data tb E) as [H1 _ _ _].
  pose proof (get_Some_elem _ _ _ Hget) as Hin.
  destruct (H1 _ _ Hin) as (Hne & _).
  assert (Hkey : t ∈ sorted_by_len_desc (PyDict.keys (ticker_to_info tb))).
  { apply EntityMatcherFacts.sorted_by_len_desc_elem.
    eapply elem_keys. exact Hin. }
  cbv zeta. unfold EntityMatcher.find_matches.
  destruct t as [|c t']; [congruence|]. cbn [PyStr.truthy negb].
  set (t := c :: t') in *.
  destruct (fold_keeps (entity_step lower tb) (entity_step_keeps tb)
              (alias_hits lower ci_eq is_word (_build_patterns tb) t)
              (ticker_path upper ci_eq (_build_patterns tb) t))
    as (K1 & K2 & K3).
  cbn [tbl _build_patterns] in *.
  assert (Hpath :
            t ∈ m_tickers (ticker_path upper ci_eq (_build_patterns tb) t)
            /\ ti_name info
               ∈ m_entities (ticker_path upper ci_eq (_build_patterns tb) t)
            /\ ti_industry info
               ∈ m_industries
                   (ticker_path upper ci_eq (_build_patterns tb) t)).
  { unfold ticker_path, ticker_hits. cbn [tbl ticker_pattern _build_patterns].
    destruct (sorted_by_len_desc (PyDict.keys (ticker_to_info tb)))
      as [|x xs] eqn:Ex; [apply elem_of_nil in Hkey; contradiction|].
    unfold finditer_ticker. subst t. cbn [scan_ticker].
    unfold ticker_match.
    rewrite (ticker_alts_self (x :: xs) (c :: t'));
      [|rewrite <- Ex; apply EntityMatcherFacts.sorted_by_len_desc_sorted
       |exact Hkey].
    cbn [fold_left].
    destruct (fold_keeps (ticker_step upper tb) (ticker_step_keeps tb)
                (scan_ticker ci_eq (x :: xs) false t'
                             (length (c :: t') - 1))
                (ticker_step upper tb no_matches (c :: t')))
      as (T1 & T2 & T3).
    assert (Hstep :
              (c :: t') ∈ m_tickers (ticker_step upper tb no_matches (c :: t'))
              /\ ti_name info
                 ∈ m_entities (ticker_step upper tb no_matches (c :: t'))
              /\ ti_industry info
                 ∈ m_industries
                     (ticker_step upper tb no_matches (c :: t'))).
    { unfold ticker_step. rewrite Hup, Hget.
      cbn [add_match_industry add_entity add_ticker
           m_tickers m_entities m_industries].
      repeat split; apply elem_of_union; right;
        apply elem_of_singleton; reflexivity. }
    destruct Hstep as (S1 & S2 & S3). auto. }
  destruct Hpath as (P1 & P2 & P3). auto.
Qed.
End TickerText.

(** On the catalog [Inputs.lilly] and the text "LLY". *)
Lemma ticker_text_resolves_witness :
  let r := find_ascii (Inputs.matcher_of Inputs.lilly) (PyStr.u "LLY") in
  PyStr.u "LLY" ∈ m_tickers r /\ PyStr.u "Eli Lilly" ∈ m_entities r
  /\ PyStr.u "healthcare" ∈ m_industries r.
Proof.
  apply (ticker_text_resolves
           PyStr.ascii_lower PyStr.ascii_upper PyStr.ascii_ci_eq
           PyStr.ascii_cjk_word
           (fun c => N.eqb_refl (PyStr.ascii_lower_cp c))
           Inputs.lilly (Inputs.matcher_of Inputs.lilly) (PyStr.u "LLY")
           {| ti_name := PyStr.u "Eli Lilly";
              ti_industry := PyStr.u "healthcare" |});
    vm_compute; reflexivity.
Defined.

(** On the catalog [Inputs.lilly] and the text "Eli Lilly gains". *)
Lemma find_matches_reports_catalog_entries_witness :
  let mt := Inputs.matcher_of Inputs.lilly in
  let r := find_ascii mt (PyStr.u "Eli Lilly gains") in
  (forall t, t ∈ m_tickers r ->
             t <> [] /\ t ∈ PyDict.keys (ticker_to_info (tbl mt)))
  /\ (forall e, e ∈ m_entities r ->
                e ∈ PyDict.keys (entity_to_info (tbl mt)))
  /\ (forall i, i ∈ m_industries r -> i ∈ industries (tbl mt)).
Proof.
  apply (find_matches_reports_catalog_entries
           PyStr.ascii_lower PyStr.ascii_upper PyStr.ascii_ci_eq
           PyStr.ascii_cjk_word Inputs.lilly
           (Inputs.matcher_of Inputs.lilly) (PyStr.u "Eli Lilly gains")).
  vm_compute. reflexivity.
Defined.
End EntityQueriesFacts.

(** * More on the candidate ranking *)

Module RankingFacts.
Import PreMarketV3 Ranking.

(** ** The watchlist candidates *)

(** The stock [Inputs.earnings_stock], whose values pass the guards,
    on the day of its earnings. *)
Lemma watchlist_score_is_sum_of_fired_weights_witness :
  let earnings : gset pystr := {[ PyStr.u "NVDA" ]} in
  score_stock earnings ∅ Inputs.earnings_stock
  = fired_tally earnings ∅ Inputs.earnings_stock
  /\ (candidate_of earnings ∅ Inputs.earnings_stock = None
      <-> fired earnings ∅ Inputs.earnings_stock = []).
Proof.
  apply (PreMarketV3Facts.watchlist_score_is_sum_of_fired_weights
           {[ PyStr.u "NVDA" ]} ∅ Inputs.earnings_stock).
  repeat split; try constructor; vm_compute; reflexivity.
Defined.

Lemma leaf_hit (k : nat) (s : Z) (k' : nat) (s' : Z) (acc : tally)
      (r : pystr) (w : Z) :
  within k s acc -> S k <= k' -> (1 <= w)%Z -> (s + w - 1 <= s')%Z ->
  within k' s' (hit acc r w).
Proof.
  unfold within, hit. cbn [fst snd]. rewrite length_app. cbn [length].
  lia.
Qed.

Lemma leaf_keep (k : nat) (s : Z) (k' : nat) (s' : Z) (acc : tally) :
  within k s acc -> k <= k' -> (s <= s')%Z -> within k' s' acc.
Proof. unfold within. lia. Qed.

Ltac leaf H :=
  first [ eapply leaf_hit; [exact H|lia..]
        | eapply leaf_keep; [exact H|lia..] ].

Ltac branches H :=
  repeat match goal with
         | |- within _ _ (if ?b then _ else _) => destruct b
         | |- within _ _ (match ?o with Some _ => _ | None => _ end) =>
           destruct o
         end;
  leaf H.

(** One [let] of the rules: the value bound satisfies [within k s]. *)
Ltac rule_step H k s :=
  lazymatch goal with
  | |- ?P (let a := ?v in _) =>
    let Hv := fresh "Hv" in
    assert (Hv : within k s v) by branches H;
    revert Hv; generalize v; clear H; intros ? H;
    lazymatch goal with
    | |- ?P (let a := ?t in @?body a) => change (P (body t)); cbv beta
    end
  end.

(** Every rule adds one reason and at least one point; the earnings
    rule adds two points more and the news rule one more. *)
Lemma score_stock_bounds (earnings_symbols news_symbols : gset pystr)
      (stock : StockData.t) :
  within 8 3 (score_stock earnings_symbols news_symbols stock).
Proof.
  cbv beta delta [score_stock].
  assert (H : within 0 0 ([], 0%Z)) by (unfold within; cbn; lia).
  revert H. generalize (([], 0%Z) : tally). intros acc H.
  lazymatch goal with
  | |- ?P (let a := ?t in @?body a) => change (P (body t)); cbv beta
  end.
  rule_step H 1 2%Z. rule_step H 2 3%Z. rule_step H 3 3%Z.
  rule_step H 4 3%Z. rule_step H 5 3%Z. rule_step H 6 3%Z.
  rule_step H 7 3%Z. rule_step H 8 3%Z.
  exact H.
Qed.

(** ** Sorting *)

Lemma insert_desc_perm {A} (lt : A -> A -> bool) (x : A) (l : list A) :
  insert_desc lt x l ≡ₚ x :: l.
Proof.
  induction l as [|y l IH]; cbn [insert_desc]; [reflexivity|].
  destruct (lt x y); [|reflexivity].
  rewrite IH. apply Permutation_swap.
Qed.

Lemma sort_desc_perm {A} (lt : A -> A -> bool) (l : list A) :
  sort_desc lt l ≡ₚ l.
Proof.
  unfold sort_desc. induction l as [|x l IH]; cbn [foldr]; [reflexivity|].
  rewrite insert_desc_perm, IH. reflexivity.
Qed.

Section Sorted.
Context {A : Type} (lt : A -> A -> bool) (R : A -> A -> Prop).
Hypothesis R_trans : forall x y z, R x y -> R y z -> R x z.
Hypothesis lt_true : forall x y, lt x y = true -> R y x.
Hypothesis lt_false : forall x y, lt x y = false -> R x y.

Lemma insert_desc_sorted (x : A) (l : list A) :
  StronglySorted R l -> StronglySorted R (insert_desc lt x l).
Proof.
  induction l as [|y l IH]; intros Hs; cbn [insert_desc].
  - repeat constructor.
  - apply StronglySorted_inv in Hs as [Hs Hy].
    destruct (lt x y) eqn:E.
    + constructor; [auto|].
      apply Forall_forall. intros z Hz.
      apply PreMarketV3Facts.insert_desc_elem in Hz as [->|Hz]; [auto|].
      rewrite Forall_forall in Hy. auto.
    + constructor; [constructor; assumption|].
      constructor; [auto|].
      eapply Forall_impl; [exact Hy|]. cbn. intros z Hz.
      eapply R_trans; [|exact Hz]. auto.
Qed.

Lemma sort_desc_sorted (l : list A) : StronglySorted R (sort_desc lt l).
Proof.
  unfold sort_desc. induction l as [|x l IH]; cbn [foldr].
  - constructor.
  - apply insert_desc_sorted. exact IH.
Qed.
End Sorted.

(** X9: The watchlist candidates are the stocks for which a rule fired,
    each as often as it is given, ordered by descending score. *)
Theorem watchlist_candidates_ranked (stocks : list StockData.t)
        (news_items : list NewsItem.t)
        (earnings_events : list EarningsEvent.t) :
  let earnings_symbols : gset pystr :=
    list_to_set (map EarningsEvent.symbol earnings_events) in
  let news_symbols := news_symbols_of news_items in
  let candidates :=
    fst (_build_watchlist_candidates stocks news_items earnings_events) in
  candidates ≡ₚ omap (candidate_of earnings_symbols news_symbols) stocks
  /\ StronglySorted
       (fun a b => (Candidate.score b <= Candidate.score a)%Z) candidates.
Proof.
  cbv zeta. unfold _build_watchlist_candidates. cbn [fst]. split.
  - apply sort_desc_perm.
  - apply (sort_desc_sorted candidate_lt).
    + intros x y z. lia.
    + intros x y. unfold candidate_lt.
      destruct (Z.eqb_spec (Candidate.score x) (Candidate.score y));
        [lia|].
      intros H. apply Z.ltb_lt in H. lia.
    + intros x y. unfold candidate_lt.
      destruct (Z.eqb_spec (Candidate.score x) (Candidate.score y));
        [lia|].
      intros H. apply Z.ltb_ge in H. lia.
Qed.

(** X10: Every watchlist candidate is made of a stock of the watchlist with
    the reasons and the score of its rules: between one and eight
    reasons, and a score of one point for each reason and at most three
    more, so from 1 to 11. *)
Theorem watchlist_candidate_bounds (stocks : list StockData.t)
        (news_items : list NewsItem.t)
        (earnings_events : list EarningsEvent.t) :
  Forall
    (fun c =>
       (exists stock, stock ∈ stocks
          /\ Candidate.symbol c = StockData.symbol stock
          /\ Candidate.name c = StockData.name stock)
       /\ 1 <= length (Candidate.reasons c) <= 8
       /\ (Z.of_nat (length (Candidate.reasons c)) <= Candidate.score c
           <= Z.of_nat (length (Candidate.reasons c)) + 3)%Z)
    (fst (_build_watchlist_candidates stocks news_items earnings_events)).
Proof.
  apply Forall_forall. intros c Hc.
  unfold _build_watchlist_candidates in Hc. cbn [fst] in Hc.
  apply PreMarketV3Facts.sort_desc_elem in Hc.
  apply list_elem_of_omap in Hc as (stock & Hin & Hc).
  unfold candidate_of in Hc.
  pose proof (score_stock_bounds
                (list_to_set (map EarningsEvent.symbol earnings_events))
                (news_symbols_of news_items) stock) as [Hk Hs].
  destruct (score_stock _ _ stock) as [reasons score].
  cbn [fst snd] in Hk, Hs.
  destruct reasons as [|r reasons]; [discriminate|].
  injection Hc as <-.
  cbn [Candidate.symbol Candidate.name Candidate.reasons Candidate.score].
  split; [exists stock; auto|].
  cbn [length] in *. lia.
Qed.

(** ** The event-driven candidates *)

Lemma get_setitem {V} (d : list (pystr * V)) (k k' : pystr) (v : V) :
  PyDict.get (PyDict.setitem d k v) k'
  = if decide (k = k') then Some v else PyDict.get d k'.
Proof.
  induction d as [|[k0 v0] d IH]; cbn [PyDict.setitem PyDict.get].
  - destruct (decide (k = k')); reflexivity.
  - destruct (decide (k0 = k)) as [->|Hne]; cbn [PyDict.get].
    + destruct (decide (k = k')); reflexivity.
    + destruct (decide (k0 = k')) as [->|Hne'].
      * destruct (decide (k = k')); [congruence|reflexivity].
      * exact IH.
Qed.

Lemma setitem_NoDup {V} (d : list (pystr * V)) (k : pystr) (v : V) :
  NoDup (PyDict.keys d) -> NoDup (PyDict.keys (PyDict.setitem d k v)).
Proof.
  induction d as [|[k0 v0] d IH]; cbn [PyDict.setitem]; intros Hd.
  - repeat constructor. apply not_elem_of_nil.
  - unfold PyDict.keys in *. cbn [map fst] in Hd.
    apply NoDup_cons in Hd as [Hk0 Hd].
    destruct (decide (k0 = k)) as [->|Hne]; cbn [map fst].
    + apply NoDup_cons. auto.
    + apply NoDup_cons. split; [|auto].
      intros Hin. apply (EntityQueriesFacts.setitem_keys d k v k0) in Hin.
      destruct Hin; auto.
Qed.

Lemma NoDup_get {V} (d : list (pystr * V)) (k : pystr) (v : V) :
  NoDup (PyDict.keys d) -> (k, v) ∈ d -> PyDict.get d k = Some v.
Proof.
  induction d as [|[k0 v0] d IH]; intros Hd Hin.
  - apply elem_of_nil in Hin. contradiction.
  - unfold PyDict.keys in Hd. cbn [map fst] in Hd.
    apply NoDup_cons in Hd as [Hk0 Hd]. cbn [PyDict.get].
    apply elem_of_cons in Hin as [[= -> ->]|Hin].
    + destruct (decide (k0 = k0)); [reflexivity|contradiction].
    + destruct (decide (k0 = k)) as [->|_]; [|auto].
      exfalso. apply Hk0. eapply EntityQueriesFacts.elem_keys.
      exact Hin.
Qed.

Lemma take_3_snoc {A} (l : list A) (x : A) :
  take 3 (l ++ [x])
  = if length (take 3 l) <? 3 then take 3 l ++ [x] else take 3 l.
Proof.
  destruct l as [|a [|b [|c l]]]; reflexivity.
Qed.

Section Counts.
Variable lower : pystr -> pystr.
Variable is_word : N -> bool.
Variable ud : UniverseData.t.
Variable watchlist_symbols : gset pystr.

Local Abbreviation matched := (fun item => matched_tickers lower is_word item ud).
Local Abbreviation visit := (visit_ticker ud watchlist_symbols).
Local Abbreviation visit_news :=
  (visit_item lower is_word ud watchlist_symbols).
Local Abbreviation expected := (expected_entry lower is_word ud).
Local Abbreviation fit := (eligible ud watchlist_symbols).

Lemma visit_ticker_get (title : pystr)
      (c : list (pystr * EventCandidate.t)) (t k : pystr) :
  PyDict.get (visit title c t) k
  = if bool_decide (t = k /\ fit t)
    then Some (entry_after ud title t (PyDict.get c t))
    else PyDict.get c k.
Proof.
  unfold visit_ticker, eligible.
  destruct (bool_decide_reflect (t ∈ watchlist_symbols)) as [Hw|Hw].
  { rewrite bool_decide_eq_false_2; [reflexivity|]. tauto. }
  destruct (bool_decide_reflect (t ∈ UniverseData.tickers ud)) as [Hu|Hu];
    cbn [negb].
  2:{ rewrite bool_decide_eq_false_2; [reflexivity|]. tauto. }
  change (count_mention ud title c t)
    with (PyDict.setitem c t (entry_after ud title t (PyDict.get c t))).
  rewrite get_setitem.
  destruct (decide (t = k)) as [->|Hne].
  - rewrite bool_decide_eq_true_2; [reflexivity|]. tauto.
  - rewrite bool_decide_eq_false_2; [reflexivity|]. tauto.
Qed.

Lemma visit_ticker_NoDup (title : pystr)
      (c : list (pystr * EventCandidate.t)) (t : pystr) :
  NoDup (PyDict.keys c) -> NoDup (PyDict.keys (visit title c t)).
Proof.
  intros Hc. unfold visit_ticker.
  destruct (bool_decide _); [exact Hc|].
  destruct (negb _); [exact Hc|].
  apply setitem_NoDup. exact Hc.
Qed.

Lemma visit_tickers_get (title : pystr) (tickers : list pystr) :
  NoDup tickers ->
  forall (c : list (pystr * EventCandidate.t)) (k : pystr),
    PyDict.get (fold_left (visit title) tickers c) k
    = if bool_decide (k ∈ tickers /\ fit k)
      then Some (entry_after ud title k (PyDict.get c k))
      else PyDict.get c k.
Proof.
  induction 1 as [|t tickers Ht Hnd IH]; intros c k; cbn [fold_left].
  - rewrite bool_decide_eq_false_2; [reflexivity|].
    intros [Hin _]. apply elem_of_nil in Hin. exact Hin.
  - rewrite IH, !visit_ticker_get.
    destruct (bool_decide_reflect (k ∈ tickers /\ fit k)) as [[Hin Hf]|Hno].
    + rewrite bool_decide_eq_false_2 by (intros [-> _]; contradiction).
      rewrite bool_decide_eq_true_2; [reflexivity|].
      split; [apply elem_of_cons; auto|exact Hf].
    + destruct (bool_decide_reflect (t = k /\ fit t)) as [[-> Hf]|Hno'].
      * rewrite bool_decide_eq_true_2; [reflexivity|].
        split; [apply elem_of_cons; auto|exact Hf].
      * rewrite bool_decide_eq_false_2; [reflexivity|].
        intros [Hin Hf]. apply elem_of_cons in Hin as [->|Hin]; tauto.
Qed.

Lemma visit_tickers_NoDup (title : pystr) (tickers : list pystr) :
  forall c : list (pystr * EventCandidate.t),
    NoDup (PyDict.keys c) ->
    NoDup (PyDict.keys (fold_left (visit title) tickers c)).
Proof.
  induction tickers as [|t tickers IH]; intros c Hc; cbn [fold_left];
    [exact Hc|].
  apply IH. apply visit_ticker_NoDup. exact Hc.
Qed.

Lemma visit_item_get (c : list (pystr * EventCandidate.t))
      (item : NewsItem.t) (k : pystr) :
  PyDict.get (visit_news c item) k
  = if bool_decide (k ∈ matched item /\ fit k)
    then Some (entry_after ud (NewsItem.title item) k (PyDict.get c k))
    else PyDict.get c k.
Proof.
  unfold visit_item. rewrite visit_tickers_get by apply NoDup_elements.
  erewrite bool_decide_ext; [reflexivity|].
  rewrite elem_of_elements. reflexivity.
Qed.

Lemma expected_snoc (k : pystr) (done : list NewsItem.t)
      (item : NewsItem.t) :
  expected k (done ++ [item])
  = if bool_decide (k ∈ matched item)
    then Some (entry_after ud (NewsItem.title item) k (expected k done))
    else expected k done.
Proof.
  unfold expected_entry, mentions.
  rewrite List.filter_app. cbn [List.filter].
  destruct (bool_decide (k ∈ matched item)); [|rewrite app_nil_r; reflexivity].
  destruct (List.filter _ done) as [|m ms]; [reflexivity|].
  cbn [app]. unfold entry_after.
  cbn [EventCandidate.symbol EventCandidate.name EventCandidate.headlines
       EventCandidate.count].
  f_equal. f_equal.
  - change (m :: ms ++ [item]) with ((m :: ms) ++ [item]).
    rewrite map_app. cbn [map]. apply take_3_snoc.
  - change (m :: ms ++ [item]) with ((m :: ms) ++ [item]).
    rewrite length_app. cbn [length]. lia.
Qed.

Local Abbreviation counted :=
  (Ranking.counted lower is_word ud watchlist_symbols).

Lemma visit_item_counted (done : list NewsItem.t)
      (c : list (pystr * EventCandidate.t)) (item : NewsItem.t) :
  counted done c -> counted (done ++ [item]) (visit_news c item).
Proof.
  intros [Hnd Hget]. split.
  - unfold visit_item. apply visit_tickers_NoDup. exact Hnd.
  - intros k. rewrite visit_item_get, Hget, expected_snoc.
    destruct (bool_decide_reflect (fit k)) as [Hf|Hf].
    + rewrite (bool_decide_ext (k ∈ matched item /\ fit k)
                                (k ∈ matched item)) by tauto.
      reflexivity.
    + rewrite bool_decide_eq_false_2; [reflexivity|]. tauto.
Qed.

Lemma visit_items_counted (rest : list NewsItem.t) :
  forall (done : list NewsItem.t) (c : list (pystr * EventCandidate.t)),
    counted done c -> counted (done ++ rest) (fold_left visit_news rest c).
Proof.
  induction rest as [|item rest IH]; intros done c Hc; cbn [fold_left].
  - rewrite app_nil_r. exact Hc.
  - replace (done ++ item :: rest) with ((done ++ [item]) ++ rest)
      by (rewrite <- app_assoc; reflexivity).
    apply IH. apply visit_item_counted. exact Hc.
Qed.

(** X11: The event-driven candidates are exactly the universe tickers
    outside the watchlist symbols that some news item mentions, each
    once, with the number of the items that mention it and the titles of
    the first three of them, ordered by descending count. *)
Theorem event_driven_candidates_counted (news_items : list NewsItem.t) :
  let r := _build_event_driven_candidates lower is_word news_items
                                          (Some ud) watchlist_symbols in
  (forall c, c ∈ fst r ->
     fit (EventCandidate.symbol c)
     /\ expected (EventCandidate.symbol c) news_items = Some c)
  /\ (forall k, fit k -> mentions lower is_word ud k news_items <> [] ->
        exists c, c ∈ fst r /\ EventCandidate.symbol c = k)
  /\ NoDup (snd r)
  /\ StronglySorted
       (fun a b => (EventCandidate.count b <= EventCandidate.count a)%Z)
       (fst r).
Proof.
  cbv zeta. unfold _build_event_driven_candidates.
  destruct (bool_decide_reflect (UniverseData.tickers ud = ∅)) as [He|He].
  { cbn [fst snd]. split; [|split; [|split]].
    - intros c Hc. apply elem_of_nil in Hc. contradiction.
    - intros k [_ Hk]. rewrite He in Hk. apply elem_of_empty in Hk.
      contradiction.
    - constructor.
    - constructor. }
  cbn [fst snd].
  set (cs := fold_left visit_news news_items []).
  assert (Hc : counted news_items cs).
  { apply (visit_items_counted news_items [] []). split.
    - constructor.
    - intros k. cbn [PyDict.get]. unfold expected_entry, mentions.
      cbn [List.filter]. destruct (bool_decide _); reflexivity. }
  destruct Hc as [Hnd Hget].
  assert (Hentry : forall k c, (k, c) ∈ cs ->
             fit k /\ expected k news_items = Some c
             /\ EventCandidate.symbol c = k).
  { intros k c Hin. apply NoDup_get in Hin; [|exact Hnd].
    rewrite Hget in Hin.
    destruct (bool_decide_reflect (fit k)) as [Hf|Hf]; [|discriminate].
    split; [exact Hf|]. split; [exact Hin|].
    unfold expected_entry in Hin.
    destruct (mentions lower is_word ud k news_items); [discriminate|].
    injection Hin as <-. reflexivity. }
  split; [|split; [|split]].
  - intros c Hin. apply PreMarketV3Facts.sort_desc_elem in Hin.
    apply list_elem_of_In, in_map_iff in Hin as ([k c'] & Heq & Hin).
    cbn [snd] in Heq. subst c'. apply list_elem_of_In in Hin.
    destruct (Hentry k c Hin) as (Hf & He' & Hs). rewrite Hs. auto.
  - intros k Hf Hm.
    specialize (Hget k). rewrite bool_decide_eq_true_2 in Hget by exact Hf.
    unfold expected_entry in Hget.
    destruct (mentions lower is_word ud k news_items) as [|m ms] eqn:Em;
      [contradiction|].
    apply PreMarketV3Facts.get_Some_elem in Hget.
    eexists. split.
    + apply PreMarketV3Facts.sort_desc_elem.
      apply list_elem_of_In, in_map_iff. eexists. split; [|
        apply list_elem_of_In; exact Hget]. reflexivity.
    + reflexivity.
  - rewrite (sort_desc_perm count_lt (map snd cs)).
    replace (map EventCandidate.symbol (map snd cs)) with (PyDict.keys cs);
      [exact Hnd|].
    unfold PyDict.keys. rewrite map_map. apply map_ext_in.
    intros [k c] Hin. apply list_elem_of_In in Hin.
    destruct (Hentry k c Hin) as (_ & _ & Hs). cbn [fst snd]. auto.
  - apply (sort_desc_sorted count_lt).
    + intros x y z. lia.
    + intros x y H. unfold count_lt in H. apply Z.ltb_lt in H. lia.
    + intros x y H. unfold count_lt in H. apply Z.ltb_ge in H. lia.
Qed.
End Counts.

(** ** Ticker tokens and normalized text *)

Lemma upper_run_spec (s : pystr) (cap : nat) :
  upper_run s cap <= cap /\ upper_run s cap <= length s
  /\ Forall (fun c => is_upper_az c = true) (take (upper_run s cap) s).
Proof.
  revert s. induction cap as [|cap IH]; intros s.
  - destruct s; cbn; repeat split; try lia; constructor.
  - destruct s as [|c s]; [cbn; repeat split; try lia; constructor|].
    cbn [upper_run]. destruct (is_upper_az c) eqn:E.
    + destruct (IH s) as (H1 & H2 & H3). cbn [length take].
      repeat split; try lia. constructor; assumption.
    + cbn [take length]. repeat split; try lia. constructor.
Qed.

Section Tokens.
Variable is_word : N -> bool.

Local Abbreviation token_len := (PreMarketV3.token_len is_word).
Local Abbreviation token_at := (PreMarketV3.token_at is_word).
Local Abbreviation scan_tokens := (PreMarketV3.scan_tokens is_word).

Lemma token_len_Some (prev : option N) (rest : pystr) (k n : nat) :
  token_len prev rest k = Some n -> 1 <= n <= k.
Proof.
  induction k as [|k IH]; cbn [PreMarketV3.token_len]; [discriminate|].
  destruct (PyRe.boundary _ _ _).
  - intros [= <-]. lia.
  - intros H. apply IH in H. lia.
Qed.

Lemma token_at_Some (prev : option N) (rest tok : pystr) :
  token_at prev rest = Some tok ->
  1 <= length tok <= 5
  /\ Forall (fun c => is_upper_az c = true) tok
  /\ exists suf, rest = tok ++ suf.
Proof.
  unfold PreMarketV3.token_at.
  destruct (PyRe.boundary _ _ _); [|discriminate].
  destruct (token_len prev rest (upper_run rest 5)) as [n|] eqn:E;
    [|discriminate].
  intros [= <-]. apply token_len_Some in E.
  destruct (upper_run_spec rest 5) as (H1 & H2 & H3).
  rewrite length_take. repeat split; try lia.
  - replace (take n rest) with (take n (take (upper_run rest 5) rest))
      by (rewrite take_take; f_equal; lia).
    apply Forall_take. exact H3.
  - exists (drop n rest). symmetry. apply take_drop.
Qed.

Lemma scan_tokens_elem (rest : pystr) :
  forall (prev : option N) (skip : nat) (tok : pystr),
    tok ∈ scan_tokens prev rest skip ->
    exists k prev', token_at prev' (drop k rest) = Some tok.
Proof.
  induction rest as [|c rest IH]; intros prev skip tok;
    cbn [PreMarketV3.scan_tokens].
  - intros H. apply elem_of_nil in H. contradiction.
  - assert (Hrec : forall skip',
               tok ∈ scan_tokens (Some c) rest skip' ->
               exists k prev', token_at prev' (drop k (c :: rest)) = Some tok).
    { intros skip' H. destruct (IH _ _ _ H) as (k & prev' & Hk).
      exists (S k), prev'. exact Hk. }
    destruct skip as [|skip]; [|apply Hrec].
    destruct (token_at prev (c :: rest)) as [tk|] eqn:E; [|apply Hrec].
    intros H. apply elem_of_cons in H as [->|H]; [|eapply Hrec; exact H].
    exists 0, prev. exact E.
Qed.

(** X12: Every ticker found in a title is a ticker of the universe, written
    in the title as one to five upper-case letters. *)
Theorem extracted_tokens_are_universe_tickers (text : pystr)
        (universe : gset pystr) (t : pystr) :
  t ∈ _extract_ticker_tokens is_word text universe ->
  t ∈ universe /\ 1 <= length t <= 5
  /\ Forall (fun c => is_upper_az c = true) t
  /\ exists pre suf, text = pre ++ t ++ suf.
Proof.
  unfold _extract_ticker_tokens.
  destruct (negb (PyStr.truthy text));
    [intros H; apply elem_of_empty in H; contradiction|].
  assert (Hfold : forall toks (acc : gset pystr),
             t ∈ fold_left
                   (fun tickers token =>
                      if bool_decide (token ∈ universe)
                      then tickers ∪ {[ token ]} else tickers) toks acc ->
             t ∈ acc \/ (t ∈ toks /\ t ∈ universe)).
  { induction toks as [|tok toks IH]; intros acc; cbn [fold_left];
      [auto|].
    intros H. apply IH in H as [H|[H1 H2]].
    - destruct (bool_decide_reflect (tok ∈ universe)) as [Hu|Hu];
        [|auto].
      apply elem_of_union in H as [H|H]; [auto|].
      apply elem_of_singleton in H. subst tok. right.
      split; [apply elem_of_cons; auto|exact Hu].
    - right. split; [apply elem_of_cons; auto|exact H2]. }
  intros H. apply Hfold in H as [H|[Hin Hu]];
    [apply elem_of_empty in H; contradiction|].
  apply scan_tokens_elem in Hin as (k & prev' & Hk).
  apply token_at_Some in Hk as (Hlen & Hup & suf & Hsuf).
  repeat split; try assumption; try lia.
  exists (take k text), suf.
  rewrite <- Hsuf. symmetry. apply take_drop.
Qed.
End Tokens.

(** In the title "NVDA and AMD rally", over the universe of the two. *)
Lemma extracted_tokens_are_universe_tickers_witness :
  let universe : gset pystr := {[ PyStr.u "NVDA"; PyStr.u "AMD" ]} in
  let t := PyStr.u "NVDA" in
  t ∈ universe /\ 1 <= length t <= 5
  /\ Forall (fun c => is_upper_az c = true) t
  /\ exists pre suf, PyStr.u "NVDA and AMD rally" = pre ++ t ++ suf.
Proof.
  apply (extracted_tokens_are_universe_tickers PyStr.ascii_cjk_word).
  apply (@bool_decide_unpack _ _). vm_compute. exact I.
Defined.

Lemma keep_or_space_class (c : N) :
  plain (keep_or_space c) = true \/ PyStr.is_space (keep_or_space c) = true.
Proof.
  unfold keep_or_space, plain.
  destruct ((97 <=? c) && (c <=? 122) || (48 <=? c) && (c <=? 57))%N eqn:E.
  - left. cbn [orb]. rewrite E. reflexivity.
  - cbn [orb]. destruct (PyStr.is_space c) eqn:Es; [right; exact Es|].
    left. reflexivity.
Qed.

Lemma plain_space (c : N) :
  plain c = true -> PyStr.is_space c = true -> c = 32%N.
Proof.
  unfold plain, PyStr.is_space.
  rewrite !orb_true_iff, !andb_true_iff, !N.leb_le, !N.eqb_eq. lia.
Qed.

Lemma collapse_spaces_plain (s : pystr) :
  Forall (fun c => plain c = true \/ PyStr.is_space c = true) s ->
  forall in_run,
    Forall (fun c => plain c = true) (collapse_spaces in_run s)
    /\ single_spaced (collapse_spaces in_run s) = true
    /\ (in_run = true -> head (collapse_spaces in_run s) <> Some 32%N).
Proof.
  induction 1 as [|c s Hc _ IH]; intros in_run; cbn [collapse_spaces].
  - repeat split; [constructor|discriminate].
  - destruct (PyStr.is_space c) eqn:Es.
    + destruct in_run.
      * apply IH.
      * destruct (IH true) as (H1 & H2 & H3).
        repeat split; [constructor; [reflexivity|exact H1]| |discriminate].
        specialize (H3 eq_refl).
        destruct (collapse_spaces true s) as [|b s'] eqn:Ec; [reflexivity|].
        cbn [single_spaced]. cbn [single_spaced] in H2. rewrite H2.
        destruct (N.eqb_spec b 32) as [->|_]; [|reflexivity].
        exfalso. apply H3. reflexivity.
    + destruct Hc as [Hc|Hc]; [|congruence].
      assert (Hne : c <> 32%N) by (intros ->; discriminate).
      destruct (IH false) as (H1 & H2 & _).
      repeat split; [constructor; assumption| |].
      * destruct (collapse_spaces false s) as [|b s'] eqn:Ec; [reflexivity|].
        cbn [single_spaced]. cbn [single_spaced] in H2. rewrite H2.
        destruct (N.eqb_spec c 32); [contradiction|reflexivity].
      * intros _ [= Heq]. contradiction.
Qed.

Lemma single_spaced_app (a b : pystr) :
  single_spaced (a ++ b) = true ->
  single_spaced a = true /\ single_spaced b = true.
Proof.
  induction a as [|x a IH]; cbn [app]; [auto|].
  destruct a as [|y a].
  - cbn [app single_spaced]. destruct b as [|z b]; [auto|].
    intros H. apply andb_prop in H as [_ H]. auto.
  - cbn [app single_spaced] in *. intros H.
    apply andb_prop in H as [H1 H2]. apply IH in H2 as [H2 H3].
    rewrite H1, H2. auto.
Qed.

Lemma single_spaced_lookup (s : pystr) :
  single_spaced s = true ->
  forall i, s !! i = Some 32%N -> s !! S i <> Some 32%N.
Proof.
  induction s as [|a s IH]; intros Hs i; [discriminate|].
  destruct s as [|b s]; [destruct i; discriminate|].
  cbn [single_spaced] in Hs. apply andb_prop in Hs as [Hab Hs].
  destruct i as [|i].
  - cbn. intros [= ->] [= ->]. discriminate.
  - apply (IH Hs i).
Qed.

Lemma lstrip_split (s : pystr) :
  exists pre, s = pre ++ PyStr.lstrip s
              /\ match PyStr.lstrip s with
                 | c :: _ => PyStr.is_space c = false
                 | [] => True
                 end.
Proof.
  induction s as [|c s (pre & Hs & Hh)]; cbn [PyStr.lstrip].
  - exists []. auto.
  - destruct (PyStr.is_space c) eqn:E.
    + exists (c :: pre). cbn [app]. rewrite <- Hs. auto.
    + exists []. auto.
Qed.

Lemma rstrip_split (s : pystr) :
  exists suf, s = PyStr.rstrip s ++ suf
              /\ match last (PyStr.rstrip s) with
                 | Some c => PyStr.is_space c = false
                 | None => True
                 end.
Proof.
  unfold PyStr.rstrip.
  destruct (lstrip_split (rev s)) as (pre & Hs & Hh).
  exists (rev pre). split.
  - rewrite <- rev_app_distr, <- Hs, rev_involutive. reflexivity.
  - destruct (PyStr.lstrip (rev s)) as [|c l]; [exact I|].
    cbn [rev]. rewrite last_snoc. exact Hh.
Qed.

Lemma normalize_text_shape (lower : pystr -> pystr) (text : pystr) :
  let s := _normalize_text lower text in
  Forall (fun c => plain c = true) s
  /\ head s <> Some 32%N /\ last s <> Some 32%N
  /\ forall i, s !! i = Some 32%N -> s !! S i <> Some 32%N.
Proof.
  cbv zeta. unfold _normalize_text, PyStr.strip.
  set (m := collapse_spaces false (map keep_or_space (lower text))).
  assert (Hm : Forall (fun c => plain c = true) m
               /\ single_spaced m = true).
  { destruct (collapse_spaces_plain (map keep_or_space (lower text)))
      with (in_run := false) as (H1 & H2 & _); [|auto].
    apply Forall_forall. intros c Hc.
    apply list_elem_of_In, in_map_iff in Hc as (c0 & <- & _).
    apply keep_or_space_class. }
  destruct Hm as [Hp Hs].
  destruct (lstrip_split m) as (pre & Hpre & Hhead).
  destruct (rstrip_split (PyStr.lstrip m)) as (suf & Hsuf & Hlast).
  set (r := PyStr.rstrip (PyStr.lstrip m)) in *.
  assert (Hr : Forall (fun c => plain c = true) r
               /\ single_spaced r = true).
  { rewrite Hpre, Hsuf in Hp, Hs.
    apply Forall_app in Hp as [_ Hp]. apply Forall_app in Hp as [Hp _].
    apply single_spaced_app in Hs as [_ Hs].
    apply single_spaced_app in Hs as [Hs _]. auto. }
  destruct Hr as [Hrp Hrs].
  split; [exact Hrp|]. split; [|split].
  - destruct r as [|c r']; [discriminate|].
    rewrite Hsuf in Hhead. cbn [app] in Hhead.
    cbn [head]. intros [= ->]. discriminate.
  - destruct (last r) as [c|]; [|discriminate].
    intros [= ->]. discriminate.
  - apply single_spaced_lookup. exact Hrs.
Qed.

(** X13: The normalized text is made of lower-case letters, digits and
    single spaces, and neither starts nor ends with a space. *)
Theorem normalized_text_is_plain (lower : pystr -> pystr) (text : pystr) :
  let s := _normalize_text lower text in
  Forall (fun c => plain c = true) s
  /\ head s <> Some 32%N /\ last s <> Some 32%N
  /\ forall i, s !! i = Some 32%N -> s !! S i <> Some 32%N.
Proof.
  exact (normalize_text_shape lower text).
Qed.

Lemma find_from_occurs (p s : pystr) :
  forall pos n, PyStr.find_from p s pos = Some n ->
                exists pre suf, s = pre ++ p ++ suf.
Proof.
  induction s as [|c s IH]; intros pos n; cbn [PyStr.find_from].
  - destruct (PyStr.starts_with p []) eqn:E; [|discriminate].
    intros _. apply PreMarketAnalyzerFacts.starts_with_app in E as [suf E].
    exists [], suf. exact E.
  - destruct (PyStr.starts_with p (c :: s)) eqn:E.
    + intros _.
      apply PreMarketAnalyzerFacts.starts_with_app in E as [suf E].
      exists [], suf. exact E.
    + intros H. apply IH in H as (pre & suf & ->).
      exists (c :: pre), suf. reflexivity.
Qed.

(** X14: A name with a character that is not a lower-case letter, a digit
    or a space is never found in a normalized text: a universe name
    such as "at&t" or "apple inc." matches no news item. *)
Theorem punctuated_name_never_matches (lower : pystr -> pystr)
        (name text : pystr) :
  existsb (fun c => negb (plain c)) name = true ->
  PyStr.contains name (_normalize_text lower text) = false.
Proof.
  intros Hex. unfold PyStr.contains, PyStr.find.
  destruct (PyStr.find_from name (_normalize_text lower text) 0)
    as [n|] eqn:E; [|reflexivity].
  exfalso. apply find_from_occurs in E as (pre & suf & E).
  destruct (normalize_text_shape lower text) as (Hp & _).
  cbv zeta in Hp. rewrite E in Hp.
  apply Forall_app in Hp as [_ Hp]. apply Forall_app in Hp as [Hp _].
  apply existsb_exists in Hex as (c & Hc & Hn).
  rewrite Forall_forall in Hp. apply list_elem_of_In in Hc.
  rewrite (Hp c Hc) in Hn. discriminate.
Qed.

(** The name "at&t". *)
Lemma punctuated_name_never_matches_witness :
  PyStr.contains (PyStr.u "at&t")
                 (_normalize_text PyStr.ascii_lower
                                  (PyStr.u "AT&T beats estimates")) = false.
Proof.
  apply (punctuated_name_never_matches PyStr.ascii_lower).
  vm_compute. reflexivity.
Defined.
End RankingFacts.

(** * More on the staged generation *)

Module ParsingFacts.
Import PreMarketAnalyzer.

(** ** The JSON object of an answer *)

Ltac in_parts :=
  repeat (rewrite elem_of_app || rewrite elem_of_cons);
  intuition (auto; congruence).

Lemma upto_last_brace_spec (s : pystr) :
  match upto_last_brace s with
  | Some g => exists suf, s = g ++ suf /\ last g = Some 125%N
                          /\ (125%N ∉ suf)
  | None => 125%N ∉ s
  end.
Proof.
  induction s as [|c s IH]; cbn [upto_last_brace].
  - apply not_elem_of_nil.
  - destruct (upto_last_brace s) as [g|].
    + destruct IH as (suf & -> & Hl & Hs). exists suf.
      split; [reflexivity|]. split; [|exact Hs].
      destruct g as [|d g]; [discriminate|]. exact Hl.
    + destruct (N.eqb_spec c 125) as [->|Hne].
      * exists s. auto.
      * intros H. apply elem_of_cons in H as [H|H]; [congruence|auto].
Qed.

(** X15: What is parsed as JSON is the part of the answer from its first
    opening brace to its last closing brace; an answer without a
    closing brace after an opening brace has none. *)
Theorem json_match_spans_braces (text : pystr) :
  match json_match text with
  | Some g =>
    exists pre suf, text = pre ++ g ++ suf
                    /\ head g = Some 123%N /\ last g = Some 125%N
                    /\ (123%N ∉ pre) /\ (125%N ∉ suf)
  | None =>
    forall pre mid suf, text <> pre ++ [123%N] ++ mid ++ [125%N] ++ suf
  end.
Proof.
  induction text as [|c text IH]; cbn [json_match].
  - intros [|? ?] mid suf; discriminate.
  - destruct (N.eqb_spec c 123) as [->|Hne].
    + pose proof (upto_last_brace_spec text) as Hu.
      destruct (upto_last_brace text) as [g|].
      * destruct Hu as (suf & -> & Hl & Hs). exists [], suf.
        split; [reflexivity|]. split; [reflexivity|].
        split; [|split; [apply not_elem_of_nil|exact Hs]].
        destruct g as [|d g]; [discriminate|]. exact Hl.
      * assert (Hnone : forall pre mid suf,
                   123%N :: text <> pre ++ [123%N] ++ mid ++ [125%N] ++ suf).
        { intros pre mid suf Heq. apply Hu.
          destruct pre as [|p pre]; cbn [app] in Heq.
          - injection Heq as ->. in_parts.
          - injection Heq as _ ->. in_parts. }
        destruct (json_match text) as [g|]; [|exact Hnone].
        destruct IH as (pre & suf & -> & _ & Hl & _).
        exfalso. apply Hu. apply last_Some in Hl as [g' ->].
        in_parts.
    + destruct (json_match text) as [g|].
      * destruct IH as (pre & suf & -> & Hh & Hl & Hp & Hs).
        exists (c :: pre), suf. repeat split; auto.
        intros H. apply elem_of_cons in H as [H|H]; [congruence|auto].
      * intros pre mid suf Heq. destruct pre as [|p pre].
        -- injection Heq as -> _. contradiction.
        -- injection Heq as _ ->. eapply IH. reflexivity.
Qed.

(** ** The two sections of an answer *)

Lemma starts_with_prefix (p s : pystr) : PyStr.starts_with p (p ++ s) = true.
Proof.
  apply PreMarketAnalyzerFacts.starts_with_app. exists s. reflexivity.
Qed.

(** The literal at its first occurrence splits the text. *)
Lemma split_once_first (sep p s : pystr) :
  forall before,
    (forall k, k < length p ->
               PyStr.starts_with sep (drop k (p ++ sep ++ s)) = false) ->
    split_once sep (p ++ sep ++ s) before = Some (before ++ p, s).
Proof.
  induction p as [|c p IH]; intros before Hfirst.
  - cbn [app]. destruct (sep ++ s) as [|d l] eqn:E.
    + cbn [split_once]. rewrite <- E at 1. rewrite starts_with_prefix.
      rewrite app_nil_r. apply app_eq_nil in E as [-> ->]. reflexivity.
    + cbn [split_once]. rewrite <- E. rewrite starts_with_prefix.
      rewrite app_nil_r, drop_app_length. reflexivity.
  - cbn [app split_once].
    assert (H0 : 0 < length (c :: p)) by (cbn [length]; lia).
    apply Hfirst in H0. cbn [drop app] in H0. rewrite H0.
    rewrite IH.
    + rewrite <- app_assoc. reflexivity.
    + intros k Hk. apply (Hfirst (S k)). cbn [length]. lia.
Qed.

Lemma lstrip_snoc_nonspace (l : pystr) (c : N) :
  PyStr.is_space c = false -> PyStr.lstrip (l ++ [c]) <> [].
Proof.
  intros Hc. induction l as [|d l IH]; cbn [app PyStr.lstrip].
  - rewrite Hc. discriminate.
  - destruct (PyStr.is_space d); [exact IH|discriminate].
Qed.

Lemma strip_head_nonspace (c : N) (s : pystr) :
  PyStr.is_space c = false -> PyStr.strip (c :: s) <> [].
Proof.
  intros Hc. unfold PyStr.strip. cbn [PyStr.lstrip]. rewrite Hc.
  unfold PyStr.rstrip. cbn [rev]. intros H.
  apply (f_equal (@rev N)) in H. rewrite rev_involutive in H.
  cbn [rev] in H. exact (lstrip_snoc_nonspace _ _ Hc H).
Qed.

Lemma marker_head (prefix : string) :
  exists r, PyStr.u ("### Layer " ++ prefix) = 35%N :: r.
Proof.
  unfold PyStr.u. cbn. eexists. reflexivity.
Qed.

Section Markers.
Variable ci_eq : N -> N -> bool.
Hypothesis ci_eq_refl : forall c, ci_eq c c = true.

Local Abbreviation ci_prefix := (PyRe.ci_prefix ci_eq).
Local Abbreviation search_marker := (PreMarketAnalyzer.search_marker ci_eq).
Local Abbreviation lazy_until := (PreMarketAnalyzer.lazy_until ci_eq).

Lemma ci_prefix_here (m s : pystr) : ci_prefix m (m ++ s) = true.
Proof.
  induction m as [|c m IH]; cbn [app PyRe.ci_prefix]; [reflexivity|].
  rewrite ci_eq_refl, IH. reflexivity.
Qed.

Lemma search_marker_here (m s : pystr) :
  ci_prefix m s = true -> search_marker m s = Some s.
Proof.
  intros H. destruct s; cbn [PreMarketAnalyzer.search_marker];
    rewrite H; reflexivity.
Qed.

Lemma search_marker_skip (m p s : pystr) :
  (forall k, k < length p -> ci_prefix m (drop k (p ++ s)) = false) ->
  search_marker m (p ++ s) = search_marker m s.
Proof.
  induction p as [|c p IH]; intros Hfirst; [reflexivity|].
  cbn [app PreMarketAnalyzer.search_marker].
  assert (H0 : 0 < length (c :: p)) by (cbn [length]; lia).
  apply Hfirst in H0. cbn [drop app] in H0. rewrite H0.
  apply IH. intros k Hk. apply (Hfirst (S k)). cbn [length]. lia.
Qed.

Lemma lazy_until_first (next body tail : pystr) :
  ci_prefix next tail = true -> tail <> [] ->
  (forall k, k < length body ->
             ci_prefix next (drop k (body ++ tail)) = false) ->
  lazy_until next (body ++ tail) = body.
Proof.
  intros Hnext Htail. induction body as [|c body IH]; intros Hfirst.
  - cbn [app]. destruct tail; [contradiction|].
    cbn [PreMarketAnalyzer.lazy_until]. rewrite Hnext. reflexivity.
  - cbn [app PreMarketAnalyzer.lazy_until].
    assert (H0 : 0 < length (c :: body)) by (cbn [length]; lia).
    apply Hfirst in H0. cbn [drop app] in H0. rewrite H0. cbn [orb].
    assert (Hd : PyRe.at_dollar (c :: body ++ tail) = false).
    { destruct (body ++ tail) eqn:E; [|reflexivity].
      apply app_eq_nil in E as [_ E]. contradiction. }
    rewrite Hd. f_equal. apply IH.
    intros k Hk. apply (Hfirst (S k)). cbn [length]. lia.
Qed.

(** X16: An answer that begins with the heading of the first layer and
    holds the heading of the second is cut at the first occurrence of
    the second heading; both sections are stripped. *)
Theorem marked_text_splits_at_second_heading (a b : string)
        (body rest : pystr) :
  let heading_a := PyStr.u ("### Layer " ++ a) in
  let heading_b := PyStr.u ("### Layer " ++ b) in
  let text := heading_a ++ body ++ heading_b ++ rest in
  (forall k, k < length (heading_a ++ body) ->
             ci_prefix heading_b (drop k text) = false) ->
  split_layers ci_eq a b text
  = (PyStr.strip (heading_a ++ body), PyStr.strip (heading_b ++ rest)).
Proof.
  cbv zeta. intros Hfirst.
  destruct (marker_head a) as (ra & Ha).
  destruct (marker_head b) as (rb & Hb).
  unfold split_layers, first_section_match, second_section_match.
  set (ma := PyStr.u ("### Layer " ++ a)) in *.
  set (mb := PyStr.u ("### Layer " ++ b)) in *.
  rewrite (search_marker_here ma) by apply ci_prefix_here.
  rewrite take_app_length, drop_app_length.
  rewrite (lazy_until_first mb body (mb ++ rest)).
  - rewrite (app_assoc ma body (mb ++ rest)).
    rewrite (search_marker_skip mb (ma ++ body) (mb ++ rest)).
    + rewrite (search_marker_here mb) by apply ci_prefix_here.
      assert (Hne : PyStr.truthy (PyStr.strip (ma ++ body)) = true).
      { rewrite Ha. cbn [app].
        pose proof (strip_head_nonspace 35 (ra ++ body) eq_refl) as Hs.
        destruct (PyStr.strip (35%N :: ra ++ body));
          [contradiction|reflexivity]. }
      rewrite Hne. reflexivity.
    + intros k Hk. rewrite <- app_assoc. apply Hfirst. exact Hk.
  - apply ci_prefix_here.
  - rewrite Hb. discriminate.
  - intros k Hk.
    specialize (Hfirst (length ma + k)).
    rewrite <- drop_drop, drop_app_length in Hfirst.
    apply Hfirst. rewrite length_app. lia.
Qed.

(** X17: An answer without a heading whose text holds the literal name of
    the second layer is cut at the first occurrence of the name: the
    first section is what stands before it, stripped, and the second is
    the name followed at once by the stripped rest. *)
Theorem unmarked_text_splits_at_literal (a b : string)
        (part0 part1 : pystr) :
  let literal_b := PyStr.u ("Layer " ++ b) in
  let text := part0 ++ literal_b ++ part1 in
  ~ occurs_ci ci_eq (PyStr.u ("### Layer " ++ a)) text ->
  ~ occurs_ci ci_eq (PyStr.u ("### Layer " ++ b)) text ->
  (forall k, k < length part0 ->
             PyStr.starts_with literal_b (drop k text) = false) ->
  split_layers ci_eq a b text
  = (PyStr.strip part0, literal_b ++ PyStr.strip part1).
Proof.
  cbv zeta. intros Ha Hb Hfirst.
  unfold split_layers, first_section_match, second_section_match.
  apply PreMarketAnalyzerFacts.search_marker_None in Ha, Hb.
  rewrite Ha, Hb. cbn [PyStr.truthy negb andb].
  rewrite split_once_first by exact Hfirst.
  reflexivity.
Qed.
End Markers.

(** The answer [Answers.marked_text]: the snapshot up to the second
    heading, and the changes from it on. *)
Lemma marked_text_splits_at_second_heading_witness :
  split_layers PyStr.ascii_ci_eq "0" "1" Answers.marked_text
  = (PyStr.strip (PyStr.u "### Layer 0" ++ Answers.snapshot_body),
     PyStr.strip (PyStr.u "### Layer 1" ++ Answers.changes_rest)).
Proof.
  apply (marked_text_splits_at_second_heading
           PyStr.ascii_ci_eq
           (fun c => N.eqb_refl (PyStr.ascii_lower_cp c))
           "0" "1" Answers.snapshot_body Answers.changes_rest).
  intros k Hk.
  repeat (destruct k as [|k]; [vm_compute; reflexivity|]).
  vm_compute in Hk. lia.
Defined.

(** The answer "Intro. Layer 1 changes": the space after the name of
    the layer is lost. *)
Lemma unmarked_text_splits_at_literal_witness :
  split_layers PyStr.ascii_ci_eq "0" "1"
               (Answers.intro ++ PyStr.u "Layer 1" ++ Answers.after_name)
  = (PyStr.strip Answers.intro,
     PyStr.u "Layer 1" ++ PyStr.strip Answers.after_name).
Proof.
  apply (unmarked_text_splits_at_literal
           PyStr.ascii_ci_eq "0" "1" Answers.intro Answers.after_name).
  - apply PreMarketAnalyzerFacts.search_marker_None.
    vm_compute. reflexivity.
  - apply PreMarketAnalyzerFacts.search_marker_None.
    vm_compute. reflexivity.
  - intros k Hk.
    repeat (destruct k as [|k]; [vm_compute; reflexivity|]).
    vm_compute in Hk. lia.
Defined.

(** ** The hidden layer and the warning about yesterday's report *)

Section Pipeline.
Variable ci_eq : N -> N -> bool.
Variable json : Type.
Variable json_loads : pystr -> result json.
Variable HIDDEN_LAYER_PROMPT :
  pystr -> pystr -> pystr -> pystr -> pystr -> pystr.
Variable LAYER_0_1_PROMPT :
  hidden_output json -> pystr -> pystr -> pystr -> pystr.
Variable LAYER_2_3_PROMPT : pystr -> pystr -> pystr -> pystr.
Variable LAYER_4_5_PROMPT :
  pystr -> pystr -> pystr -> pystr -> pystr -> hidden_output json -> pystr.
Variable NEWS_SUMMARY_PROMPT : pystr -> pystr -> pystr.
Variable backend : nat -> pystr -> result pystr.
Variable news_data market_data watchlist_data appendix : pystr.
Variable extract_hashtags_from_report : pystr -> list pystr.

Local Abbreviation hidden_layer :=
  (process_hidden_layer json json_loads HIDDEN_LAYER_PROMPT backend).
Local Abbreviation pipeline :=
  (generate_layered_report ci_eq json json_loads HIDDEN_LAYER_PROMPT
     LAYER_0_1_PROMPT LAYER_2_3_PROMPT LAYER_4_5_PROMPT
     NEWS_SUMMARY_PROMPT backend news_data market_data watchlist_data
     appendix extract_hashtags_from_report).

Lemma hidden_layer_shape (yr : yesterday_report)
        (news sec fda market : pystr) (log : calls) :
  let out := hidden_layer yr news sec fda market log in
  let h := fst out in
  let unavailable := negb (get_or (y_available yr) false) in
  let note := get_or (y_fallback_note yr) [] in
  yesterday_unavailable h = unavailable
  /\ yesterday_note h = note
  /\ (parsed h = None <-> error h <> None)
  /\ length (snd out) = S (length log)
  /\ yesterday_warning h
     = if unavailable
       then [10%N] ++ PyStr.u "**注意**：在 Layer 0 的開頭加入以下警告："
            ++ [10%N] ++ PyStr.u "⚠️ " ++ note ++ [10%N]
       else [].
Proof.
  cbv zeta. unfold process_hidden_layer, generate_content.
  cbn [fst snd]. rewrite length_app. cbn [length].
  destruct (backend (length log) _) as [text|e]; cbn [rbind try_except].
  2:{ unfold yesterday_warning.
      cbn [yesterday_unavailable yesterday_note parsed error].
      repeat split; try lia; try discriminate; auto. }
  destruct (json_match text) as [g|]; cbn [try_except].
  2:{ unfold yesterday_warning.
      cbn [yesterday_unavailable yesterday_note parsed error].
      repeat split; try lia; try discriminate; auto. }
  destruct (json_loads g) as [j|e]; cbn [rbind try_except];
    unfold yesterday_warning;
    cbn [yesterday_unavailable yesterday_note parsed error];
    repeat split; try lia; try discriminate; auto;
    intros H; contradiction.
Qed.

(** X18: Whatever the backend does with the call of the hidden layer, its
    answer is a dict: with the parsed object or else with an error
    entry, and always with the two entries about yesterday's report; so
    the warning for Layer 0 is made exactly when that report is not
    available (a report without the key counts as not available), and it
    carries the note of the report. *)
Theorem hidden_layer_keeps_yesterday_entries (yr : yesterday_report)
        (news sec fda market : pystr) (log : calls) :
  let out := hidden_layer yr news sec fda market log in
  let h := fst out in
  let unavailable := negb (get_or (y_available yr) false) in
  let note := get_or (y_fallback_note yr) [] in
  yesterday_unavailable h = unavailable
  /\ yesterday_note h = note
  /\ (parsed h = None <-> error h <> None)
  /\ length (snd out) = S (length log)
  /\ yesterday_warning h
     = if unavailable
       then [10%N] ++ PyStr.u "**注意**：在 Layer 0 的開頭加入以下警告："
            ++ [10%N] ++ PyStr.u "⚠️ " ++ note ++ [10%N]
       else [].
Proof.
  exact (hidden_layer_shape yr news sec fda market log).
Qed.

(** X19: In a run, the second call is the call of Layer 0-1, and its prompt
    is made with the warning when yesterday's report is not available,
    also when the call of the hidden layer failed. *)
Theorem layer_0_prompt_carries_warning (yr : yesterday_report)
        (sec_summary fda_summary : pystr) :
  let run := pipeline yr sec_summary fda_summary [] in
  let h := hidden_layer_output (fst run) in
  let note := get_or (y_fallback_note yr) [] in
  snd run !! 1
  = Some (LAYER_0_1_PROMPT h market_data (take 4000 news_data)
            (if negb (get_or (y_available yr) false)
             then [10%N]
                  ++ PyStr.u "**注意**：在 Layer 0 的開頭加入以下警告："
                  ++ [10%N] ++ PyStr.u "⚠️ " ++ note ++ [10%N]
             else [])).
Proof.
  cbv zeta. unfold generate_layered_report.
  pose proof (hidden_layer_shape yr news_data
                sec_summary fda_summary market_data []) as Hh.
  cbv zeta in Hh.
  destruct (PreMarketAnalyzerFacts.hidden_layer_log
              json json_loads HIDDEN_LAYER_PROMPT backend yr news_data
              sec_summary fda_summary market_data []) as (p0 & Hlog0 & _).
  destruct (hidden_layer yr news_data sec_summary fda_summary market_data [])
    as [h log0].
  cbn [fst snd] in Hh, Hlog0. subst log0.
  destruct Hh as (_ & _ & _ & _ & Hw).
  unfold _generate_layer_0_1, _generate_layer_2_3, _generate_layer_4_5,
    generate_layers, generate_news_summary, generate_content.
  cbn [fst snd hidden_layer_output].
  repeat match goal with
         | |- context [let '(_, _) := ?x in _] => destruct x
         end.
  cbn [fst snd hidden_layer_output app lookup list_lookup].
  rewrite Hw. reflexivity.
Qed.
End Pipeline.

End ParsingFacts.

(** * The catalog and the tables *)

Module MatcherQueriesFacts.
Import EntityMatcher MatcherQueries.

Local Abbreviation setitem_keys := EntityQueriesFacts.setitem_keys.

Lemma grows_refl (tb : tables) : grows tb tb.
Proof. split; auto. Qed.

Lemma grows_trans (a b c : tables) : grows a b -> grows b c -> grows a c.
Proof. intros [] []. split; auto. Qed.

Lemma grows_set_ticker_info tb k v : grows tb (set_ticker_info tb k v).
Proof.
  split; cbn [set_ticker_info ticker_to_info entity_to_info
              alias_to_entity alias_to_ticker industries]; auto.
  intros k0 H. apply setitem_keys. auto.
Qed.

Lemma grows_set_entity_info tb k v : grows tb (set_entity_info tb k v).
Proof.
  split; cbn [set_entity_info ticker_to_info entity_to_info
              alias_to_entity alias_to_ticker industries]; auto.
  intros k0 H. apply setitem_keys. auto.
Qed.

Lemma grows_set_alias_entity tb k v : grows tb (set_alias_entity tb k v).
Proof.
  split; cbn [set_alias_entity ticker_to_info entity_to_info
              alias_to_entity alias_to_ticker industries]; auto.
  intros k0 H. apply setitem_keys. auto.
Qed.

Lemma grows_set_alias_ticker tb k v : grows tb (set_alias_ticker tb k v).
Proof.
  split; cbn [set_alias_ticker ticker_to_info entity_to_info
              alias_to_entity alias_to_ticker industries]; auto.
  intros k0 H. apply setitem_keys. auto.
Qed.

Lemma grows_add_industry tb i : grows tb (add_industry tb i).
Proof.
  split; cbn [add_industry ticker_to_info entity_to_info
              alias_to_entity alias_to_ticker industries]; auto.
  intros i0 H. apply elem_of_union. auto.
Qed.

Lemma fold_left_grows {A} (step : tables -> A -> tables) :
  (forall tb x, grows tb (step tb x)) ->
  forall xs tb, grows tb (fold_left step xs tb).
Proof.
  intros Hstep. induction xs as [|x xs IH]; intros tb; cbn [fold_left].
  - apply grows_refl.
  - eapply grows_trans; [apply Hstep|apply IH].
Qed.

Lemma for_each_grows {A} (body : tables -> A -> result tables) :
  (forall tb x tb', body tb x = Ok tb' -> grows tb tb') ->
  forall xs tb tb', for_each body xs tb = Ok tb' -> grows tb tb'.
Proof.
  intros Hbody. induction xs as [|x xs IH]; intros tb tb';
    cbn [for_each].
  - intros [= <-]. apply grows_refl.
  - destruct (body tb x) as [tb1|e] eqn:E; cbn [rbind]; [|discriminate].
    intros H. eapply grows_trans; [eapply Hbody; exact E|].
    apply IH. exact H.
Qed.

(** What a loop body wrote for an element is still there after the
    loop, when the later steps only let the state grow. *)
Lemma for_each_elem {A} (body : tables -> A -> result tables)
      (Q : tables -> A -> Prop) :
  (forall tb x tb', body tb x = Ok tb' -> grows tb tb') ->
  (forall tb x tb', body tb x = Ok tb' -> Q tb' x) ->
  (forall tb tb' x, Q tb x -> grows tb tb' -> Q tb' x) ->
  forall xs tb tb', for_each body xs tb = Ok tb' ->
                    forall x, x ∈ xs -> Q tb' x.
Proof.
  intros Hg Hq Hm. induction xs as [|x0 xs IH]; intros tb tb';
    cbn [for_each]; intros H x Hx.
  - apply elem_of_nil in Hx. contradiction.
  - destruct (body tb x0) as [tb1|e] eqn:E; cbn [rbind] in H;
      [|discriminate].
    apply elem_of_cons in Hx as [->|Hx].
    + apply (Hm tb1); [eapply Hq; exact E|].
      eapply for_each_grows; [exact Hg|exact H].
    + eapply IH; eassumption.
Qed.

Section Load.
Variable lower : pystr -> pystr.

Local Abbreviation aliases_indexed := (aliases_indexed lower).
Local Abbreviation listed_indexed := (listed_indexed lower).
Local Abbreviation named_indexed := (named_indexed lower).
Local Abbreviation industry_indexed := (industry_indexed lower).
Local Abbreviation person_indexed := (person_indexed lower).
Local Abbreviation institution_indexed := (institution_indexed lower).

Lemma grows_index_alias name tb a : grows tb (index_alias lower name tb a).
Proof. apply grows_set_alias_entity. Qed.

Lemma grows_index_alias_listed name ticker tb a :
  grows tb (index_alias_listed lower name ticker tb a).
Proof.
  unfold index_alias_listed. destruct (PyStr.truthy ticker).
  - eapply grows_trans; [apply grows_set_alias_entity|].
    apply grows_set_alias_ticker.
  - apply grows_set_alias_entity.
Qed.

(** *** The predicates are kept when the tables grow *)

Lemma aliases_indexed_grows tb tb' aliases :
  aliases_indexed tb aliases -> grows tb tb' -> aliases_indexed tb' aliases.
Proof. intros H [] a Ha. auto. Qed.

Lemma listed_indexed_grows tb tb' c :
  listed_indexed tb c -> grows tb tb' -> listed_indexed tb' c.
Proof.
  intros (name & Hn & He & Ha & Ht) Hg. exists name.
  split; [exact Hn|]. split; [apply Hg; exact He|].
  split; [eapply aliases_indexed_grows; eassumption|].
  cbv zeta in *. intros E. destruct (Ht E) as [H1 H2].
  split; [apply Hg; exact H1|]. intros a Hin. apply Hg. auto.
Qed.

Lemma named_indexed_grows tb tb' name aliases :
  named_indexed tb name aliases -> grows tb tb' ->
  named_indexed tb' name aliases.
Proof.
  intros (n & Hn & He & Ha) Hg. exists n.
  split; [exact Hn|]. split; [apply Hg; exact He|].
  eapply aliases_indexed_grows; eassumption.
Qed.

Lemma industry_indexed_grows tb tb' ic :
  industry_indexed tb ic -> grows tb tb' -> industry_indexed tb' ic.
Proof.
  intros (Hi & Hl & Hu) Hg. split; [apply Hg; exact Hi|]. split.
  - intros c Hc. eapply listed_indexed_grows; [apply Hl; exact Hc|exact Hg].
  - intros c Hc. eapply named_indexed_grows; [apply Hu; exact Hc|exact Hg].
Qed.

(** *** Each loop body lets the tables grow *)

Lemma load_listed_grows industry tb c tb' :
  load_listed lower industry tb c = Ok tb' -> grows tb tb'.
Proof.
  unfold load_listed. destruct (co_name c) as [name|]; [|discriminate].
  cbn [getitem rbind]. intros [= <-].
  eapply grows_trans; [|apply fold_left_grows;
                        apply grows_index_alias_listed].
  eapply grows_trans; [|apply grows_set_entity_info].
  destruct (PyStr.truthy _); [|apply grows_refl].
  eapply grows_trans; [|apply grows_set_alias_ticker].
  eapply grows_trans; [|apply grows_set_alias_ticker].
  apply grows_set_ticker_info.
Qed.

Lemma load_unlisted_grows industry tb c tb' :
  load_unlisted lower industry tb c = Ok tb' -> grows tb tb'.
Proof.
  unfold load_unlisted. destruct (co_name c) as [name|]; [|discriminate].
  cbn [getitem rbind]. intros [= <-].
  eapply grows_trans; [|apply fold_left_grows; apply grows_index_alias].
  eapply grows_trans; [|apply grows_set_alias_entity].
  apply grows_set_entity_info.
Qed.

Lemma load_industry_grows tb ic tb' :
  load_industry lower tb ic = Ok tb' -> grows tb tb'.
Proof.
  destruct ic as [industry cats]. unfold load_industry.
  destruct (for_each (load_listed lower industry) _ _) as [tb1|e] eqn:E1;
    cbn [rbind]; [|discriminate].
  intros E2.
  eapply grows_trans; [apply grows_add_industry|].
  eapply grows_trans.
  - eapply for_each_grows; [|exact E1]. apply load_listed_grows.
  - eapply for_each_grows; [|exact E2]. apply load_unlisted_grows.
Qed.

Lemma load_person_grows tb p tb' :
  load_person lower tb p = Ok tb' -> grows tb tb'.
Proof.
  unfold load_person. destruct (pe_name p) as [name|]; [|discriminate].
  cbn [getitem rbind]. intros [= <-].
  eapply grows_trans; [|apply grows_set_entity_info].
  eapply grows_trans; [|apply fold_left_grows; apply grows_index_alias].
  apply grows_set_alias_entity.
Qed.

Lemma load_institution_grows tb i tb' :
  load_institution lower tb i = Ok tb' -> grows tb tb'.
Proof.
  unfold load_institution. destruct (in_name i) as [name|]; [|discriminate].
  cbn [getitem rbind]. intros [= <-].
  eapply grows_trans; [|apply fold_left_grows; apply grows_index_alias].
  eapply grows_trans; [|apply grows_set_alias_entity].
  apply grows_set_entity_info.
Qed.

(** *** Each loop body indexes its element *)

Lemma index_alias_indexed name aliases :
  forall tb, aliases_indexed
               (fold_left (index_alias lower name) aliases tb) aliases.
Proof.
  induction aliases as [|a aliases IH]; intros tb b Hb.
  - apply elem_of_nil in Hb. contradiction.
  - cbn [fold_left]. apply elem_of_cons in Hb as [->|Hb].
    + apply (fold_left_grows (index_alias lower name)
               (grows_index_alias name)).
      unfold index_alias. cbn [set_alias_entity alias_to_entity].
      apply setitem_keys. auto.
    + apply IH. exact Hb.
Qed.

Lemma index_alias_listed_indexed name ticker aliases :
  forall tb,
    aliases_indexed
      (fold_left (index_alias_listed lower name ticker) aliases tb) aliases
    /\ (PyStr.truthy ticker = true ->
        forall a, a ∈ aliases ->
          lower a ∈ PyDict.keys
            (alias_to_ticker
               (fold_left (index_alias_listed lower name ticker)
                          aliases tb))).
Proof.
  induction aliases as [|a aliases IH]; intros tb.
  - split; [intros b Hb|intros _ b Hb]; apply elem_of_nil in Hb;
      contradiction.
  - cbn [fold_left]. destruct (IH (index_alias_listed lower name ticker tb a))
      as [IH1 IH2].
    pose proof (fold_left_grows (index_alias_listed lower name ticker)
                  (grows_index_alias_listed name ticker) aliases
                  (index_alias_listed lower name ticker tb a)) as Hg.
    split.
    + intros b Hb. apply elem_of_cons in Hb as [->|Hb]; [|auto].
      apply Hg. unfold index_alias_listed.
      destruct (PyStr.truthy ticker);
        cbn [set_alias_ticker set_alias_entity alias_to_entity];
        apply setitem_keys; auto.
    + intros E b Hb. apply elem_of_cons in Hb as [->|Hb]; [|auto].
      apply Hg. unfold index_alias_listed. rewrite E.
      cbn [set_alias_ticker alias_to_ticker].
      apply setitem_keys. auto.
Qed.

Lemma load_listed_indexed industry tb c tb' :
  load_listed lower industry tb c = Ok tb' -> listed_indexed tb' c.
Proof.
  unfold load_listed. destruct (co_name c) as [name|] eqn:En;
    [|discriminate].
  cbn [getitem rbind]. intros [= <-].
  set (ticker := get_or (co_ticker c) []).
  set (aliases := get_or (co_aliases c) []).
  set (tb1 := if PyStr.truthy ticker then _ else tb).
  set (tb2 := set_entity_info tb1 name _).
  pose proof (fold_left_grows (index_alias_listed lower name ticker)
                (grows_index_alias_listed name ticker) aliases tb2) as Hg.
  destruct (index_alias_listed_indexed name ticker aliases tb2)
    as [Ha Hat].
  exists name. split; [rewrite En; reflexivity|].
  split; [|split; [exact Ha|]].
  - apply Hg. subst tb2. cbn [set_entity_info entity_to_info].
    apply setitem_keys. auto.
  - cbv zeta. fold ticker aliases. intros E.
    assert (H1 : ticker ∈ PyDict.keys (ticker_to_info tb1)
                 /\ lower name ∈ PyDict.keys (alias_to_ticker tb1)
                 /\ lower ticker ∈ PyDict.keys (alias_to_ticker tb1)).
    { subst tb1. rewrite E.
      cbn [set_alias_ticker set_ticker_info ticker_to_info
           alias_to_ticker].
      split; [apply setitem_keys; auto|].
      split; apply setitem_keys; [right; apply setitem_keys|]; auto. }
    destruct H1 as (Ht & Hn & Hl).
    assert (Hg2 : grows tb1 tb2) by apply grows_set_entity_info.
    split; [apply Hg, Hg2; exact Ht|].
    intros a Hin. apply elem_of_cons in Hin as [->|Hin];
      [apply Hg, Hg2; exact Hn|].
    apply elem_of_cons in Hin as [->|Hin]; [apply Hg, Hg2; exact Hl|].
    apply Hat; assumption.
Qed.

(** The three bodies that write the name as an alias. *)
Lemma named_after tb0 name aliases tb1 :
  name ∈ PyDict.keys (entity_to_info tb1) ->
  lower name ∈ PyDict.keys (alias_to_entity tb0) ->
  grows tb0 (fold_left (index_alias lower name) aliases tb0) ->
  grows (fold_left (index_alias lower name) aliases tb0) tb1 ->
  aliases_indexed tb1 (name :: aliases).
Proof.
  intros He Hn Hg0 Hg1 a Hin. apply Hg1.
  apply elem_of_cons in Hin as [->|Hin].
  - apply Hg0. exact Hn.
  - apply index_alias_indexed. exact Hin.
Qed.

Lemma load_unlisted_indexed industry tb c tb' :
  load_unlisted lower industry tb c = Ok tb' ->
  named_indexed tb' (co_name c) (co_aliases c).
Proof.
  unfold load_unlisted. destruct (co_name c) as [name|]; [|discriminate].
  cbn [getitem rbind]. intros [= <-].
  set (aliases := get_or (co_aliases c) []).
  set (tb1 := set_alias_entity _ (lower name) name).
  pose proof (fold_left_grows (index_alias lower name)
                (grows_index_alias name) aliases tb1) as Hg.
  exists name. split; [reflexivity|]. split.
  - apply Hg. subst tb1.
    cbn [set_alias_entity set_entity_info entity_to_info].
    apply setitem_keys. auto.
  - apply (named_after tb1); [| |exact Hg|apply grows_refl].
    + apply Hg. subst tb1.
      cbn [set_alias_entity set_entity_info entity_to_info].
      apply setitem_keys. auto.
    + subst tb1. cbn [set_alias_entity alias_to_entity].
      apply setitem_keys. auto.
Qed.

Lemma load_person_indexed tb p tb' :
  load_person lower tb p = Ok tb' -> person_indexed tb' p.
Proof.
  unfold load_person, MatcherQueries.person_indexed.
  destruct (pe_name p) as [name|]; [|discriminate].
  cbn [getitem rbind]. intros [= <-].
  set (aliases := get_or (pe_aliases p) []).
  set (tb1 := set_alias_entity tb (lower name) name).
  pose proof (fold_left_grows (index_alias lower name)
                (grows_index_alias name) aliases tb1) as Hg.
  exists name. split; [reflexivity|]. split.
  - cbn [set_entity_info entity_to_info]. apply setitem_keys. auto.
  - apply (named_after tb1); [| |exact Hg|apply grows_set_entity_info].
    + cbn [set_entity_info entity_to_info]. apply setitem_keys. auto.
    + subst tb1. cbn [set_alias_entity alias_to_entity].
      apply setitem_keys. auto.
Qed.

Lemma load_institution_indexed tb i tb' :
  load_institution lower tb i = Ok tb' -> institution_indexed tb' i.
Proof.
  unfold load_institution, MatcherQueries.institution_indexed.
  destruct (in_name i) as [name|]; [|discriminate].
  cbn [getitem rbind]. intros [= <-].
  set (aliases := get_or (in_aliases i) []).
  set (tb1 := set_alias_entity _ (lower name) name).
  pose proof (fold_left_grows (index_alias lower name)
                (grows_index_alias name) aliases tb1) as Hg.
  exists name. split; [reflexivity|]. split.
  - apply Hg. subst tb1.
    cbn [set_alias_entity set_entity_info entity_to_info].
    apply setitem_keys. auto.
  - apply (named_after tb1); [| |exact Hg|apply grows_refl].
    + apply Hg. subst tb1.
      cbn [set_alias_entity set_entity_info entity_to_info].
      apply setitem_keys. auto.
    + subst tb1. cbn [set_alias_entity alias_to_entity].
      apply setitem_keys. auto.
Qed.

Lemma load_industry_indexed tb ic tb' :
  load_industry lower tb ic = Ok tb' -> industry_indexed tb' ic.
Proof.
  destruct ic as [industry cats]. unfold load_industry.
  destruct (for_each (load_listed lower industry) _ _) as [tb1|e] eqn:E1;
    cbn [rbind]; [|discriminate].
  intros E2.
  assert (G1 : grows (add_industry tb industry) tb1).
  { eapply for_each_grows; [|exact E1]. apply load_listed_grows. }
  assert (G2 : grows tb1 tb').
  { eapply for_each_grows; [|exact E2]. apply load_unlisted_grows. }
  split; [|split]; cbn [fst snd].
  - apply G2, G1. cbn [add_industry industries].
    apply elem_of_union. right. apply elem_of_singleton. reflexivity.
  - intros c Hc. apply (listed_indexed_grows tb1); [|exact G2].
    revert c Hc.
    apply (for_each_elem (load_listed lower industry)
             (fun tb c => listed_indexed tb c)) with (4 := E1).
    + apply load_listed_grows.
    + apply load_listed_indexed.
    + intros; eapply listed_indexed_grows; eassumption.
  - apply (for_each_elem (load_unlisted lower industry)
             (fun tb c => named_indexed tb (co_name c) (co_aliases c)))
      with (4 := E2).
    + apply load_unlisted_grows.
    + apply load_unlisted_indexed.
    + intros; eapply named_indexed_grows; eassumption.
Qed.

Lemma load_tables_indexed data tb :
  load_tables lower data = Ok tb -> catalog_indexed lower data tb.
Proof.
  unfold load_tables.
  destruct (for_each (load_industry lower) _ _) as [tb1|e] eqn:E1;
    cbn [rbind]; [|discriminate].
  destruct (for_each (load_person lower) _ _) as [tb2|e] eqn:E2;
    cbn [rbind]; [|discriminate].
  intros E3.
  assert (G2 : grows tb1 tb2).
  { eapply for_each_grows; [|exact E2]. apply load_person_grows. }
  assert (G3 : grows tb2 tb).
  { eapply for_each_grows; [|exact E3]. apply load_institution_grows. }
  split; [|split].
  - intros ic Hic.
    apply (industry_indexed_grows tb1); [|eapply grows_trans; eassumption].
    revert ic Hic.
    apply (for_each_elem (load_industry lower)
             (fun tb ic => industry_indexed tb ic)) with (4 := E1).
    + apply load_industry_grows.
    + apply load_industry_indexed.
    + intros; eapply industry_indexed_grows; eassumption.
  - intros p Hp. apply (named_indexed_grows tb2); [|exact G3].
    revert p Hp.
    apply (for_each_elem (load_person lower)
             (fun tb p => person_indexed tb p)) with (4 := E2).
    + apply load_person_grows.
    + apply load_person_indexed.
    + intros; eapply named_indexed_grows; eassumption.
  - apply (for_each_elem (load_institution lower)
             (fun tb i => institution_indexed tb i)) with (4 := E3).
    + apply load_institution_grows.
    + apply load_institution_indexed.
    + intros; eapply named_indexed_grows; eassumption.
Qed.

(** X20: Nothing of an accepted catalog is lost: every industry is in
    [industries], every name has an entry of [entity_to_info], every
    ticker an entry of [ticker_to_info], and every alias is a key of
    [alias_to_entity] (for a listed company with a ticker, also of
    [alias_to_ticker], as are its name and its ticker). *)
Theorem catalog_entries_are_indexed (data : catalog) (mt : matcher) :
  _load_entities lower data = Ok mt ->
  catalog_indexed lower data (tbl mt).
Proof.
  unfold _load_entities.
  destruct (load_tables lower data) as [tb|e] eqn:E; cbn [rbind];
    [|discriminate].
  intros [= <-]. cbn [_build_patterns tbl].
  apply load_tables_indexed. exact E.
Qed.

(** *** [entity_to_info] has one entry for a name *)

Local Abbreviation one_entry :=
  (fun tb : tables => NoDup (PyDict.keys (entity_to_info tb))).

Lemma index_alias_listed_entity_info name ticker aliases tb :
  entity_to_info (fold_left (index_alias_listed lower name ticker)
                            aliases tb)
  = entity_to_info tb.
Proof.
  revert tb. induction aliases as [|a aliases IH]; intros tb;
    cbn [fold_left]; [reflexivity|].
  rewrite IH. unfold index_alias_listed.
  destruct (PyStr.truthy ticker); reflexivity.
Qed.

Lemma load_listed_one_entry industry tb c tb' :
  one_entry tb -> load_listed lower industry tb c = Ok tb' ->
  one_entry tb'.
Proof.
  intros Hn. unfold load_listed.
  destruct (co_name c) as [name|]; [|discriminate].
  cbn [getitem rbind]. intros [= <-].
  rewrite index_alias_listed_entity_info.
  cbn [set_entity_info entity_to_info].
  apply RankingFacts.setitem_NoDup.
  destruct (PyStr.truthy _); exact Hn.
Qed.

Lemma load_unlisted_one_entry industry tb c tb' :
  one_entry tb -> load_unlisted lower industry tb c = Ok tb' ->
  one_entry tb'.
Proof.
  intros Hn. unfold load_unlisted.
  destruct (co_name c) as [name|]; [|discriminate].
  cbn [getitem rbind]. intros [= <-].
  rewrite EntityQueriesFacts.index_alias_entity_info.
  cbn [set_alias_entity set_entity_info entity_to_info].
  apply RankingFacts.setitem_NoDup. exact Hn.
Qed.

Lemma load_industry_one_entry tb ic tb' :
  one_entry tb -> load_industry lower tb ic = Ok tb' -> one_entry tb'.
Proof.
  intros Hn. destruct ic as [industry cats]. unfold load_industry.
  destruct (for_each (load_listed lower industry) _ _) as [tb1|e] eqn:E1;
    cbn [rbind]; [|discriminate].
  intros E2.
  apply (EntityQueriesFacts.for_each_invariant
           (load_unlisted lower industry) one_entry) with (3 := E2);
    [intros; eapply load_unlisted_one_entry; eassumption|].
  apply (EntityQueriesFacts.for_each_invariant
           (load_listed lower industry) one_entry) with (3 := E1);
    [intros; eapply load_listed_one_entry; eassumption|].
  exact Hn.
Qed.

Lemma load_person_one_entry tb p tb' :
  one_entry tb -> load_person lower tb p = Ok tb' -> one_entry tb'.
Proof.
  intros Hn. unfold load_person.
  destruct (pe_name p) as [name|]; [|discriminate].
  cbn [getitem rbind]. intros [= <-].
  cbn [set_entity_info entity_to_info].
  apply RankingFacts.setitem_NoDup.
  rewrite EntityQueriesFacts.index_alias_entity_info. exact Hn.
Qed.

Lemma load_institution_one_entry tb i tb' :
  one_entry tb -> load_institution lower tb i = Ok tb' -> one_entry tb'.
Proof.
  intros Hn. unfold load_institution.
  destruct (in_name i) as [name|]; [|discriminate].
  cbn [getitem rbind]. intros [= <-].
  rewrite EntityQueriesFacts.index_alias_entity_info.
  cbn [set_alias_entity set_entity_info entity_to_info].
  apply RankingFacts.setitem_NoDup. exact Hn.
Qed.

Lemma load_tables_one_entry data tb :
  load_tables lower data = Ok tb -> one_entry tb.
Proof.
  unfold load_tables.
  destruct (for_each (load_industry lower) _ _) as [tb1|e] eqn:E1;
    cbn [rbind]; [|discriminate].
  destruct (for_each (load_person lower) _ _) as [tb2|e] eqn:E2;
    cbn [rbind]; [|discriminate].
  intros E3.
  apply (EntityQueriesFacts.for_each_invariant
           (load_institution lower) one_entry) with (3 := E3);
    [intros; eapply load_institution_one_entry; eassumption|].
  apply (EntityQueriesFacts.for_each_invariant
           (load_person lower) one_entry) with (3 := E2);
    [intros; eapply load_person_one_entry; eassumption|].
  apply (EntityQueriesFacts.for_each_invariant
           (load_industry lower) one_entry) with (3 := E1);
    [intros; eapply load_industry_one_entry; eassumption|].
  cbn [empty_tables entity_to_info PyDict.keys map]. apply NoDup_nil_2.
Qed.

(** X21: The entities of an industry are the names whose entry is that of
    a company of the industry, each once and in the order of
    [get_all_entities]; people and institutions are in no industry,
    and an industry that the catalog does not have has no entities. *)
Theorem entities_by_industry_are_companies (data : catalog)
        (mt : matcher) (industry : pystr) :
  _load_entities lower data = Ok mt ->
  (forall name,
      name ∈ get_entities_by_industry mt industry
      <-> exists tk l,
            get_entity_info mt name = Some (CompanyInfo industry tk l))
  /\ NoDup (get_entities_by_industry mt industry)
  /\ get_entities_by_industry mt industry `sublist_of` get_all_entities mt
  /\ (industry ∉ industries (tbl mt) ->
      get_entities_by_industry mt industry = []).
Proof.
  intros Hload.
  assert (Hnd : NoDup (PyDict.keys (entity_to_info (tbl mt)))).
  { revert Hload. unfold _load_entities.
    destruct (load_tables lower data) as [tb|e] eqn:E; cbn [rbind];
      [|discriminate].
    intros [= <-]. cbn [_build_patterns tbl].
    eapply load_tables_one_entry. exact E. }
  assert (Hcons : EntityQueries.consistent [] (tbl mt)).
  { revert Hload. unfold _load_entities.
    destruct (load_tables lower data) as [tb|e] eqn:E; cbn [rbind];
      [|discriminate].
    intros [= <-]. cbn [_build_patterns tbl].
    eapply EntityQueriesFacts.load_tables_consistent. exact E. }
  unfold get_entities_by_industry, get_entity_info, get_all_entities.
  set (d := entity_to_info (tbl mt)) in *.
  assert (Hiff : forall name,
             name ∈ map fst (filter (fun ni => info_industry (snd ni)
                                               = Some industry) d)
             <-> exists tk l,
                   PyDict.get d name = Some (CompanyInfo industry tk l)).
  { intros name. rewrite list_elem_of_fmap. split.
    - intros ([n info] & -> & Hin). cbn [fst].
      apply list_elem_of_filter in Hin as [Hi Hin]. cbn [snd] in Hi.
      destruct info as [i tk l| |]; cbn [info_industry] in Hi;
        try discriminate.
      injection Hi as ->. exists tk, l.
      apply RankingFacts.NoDup_get; assumption.
    - intros (tk & l & Hg). exists (name, CompanyInfo industry tk l).
      split; [reflexivity|]. apply list_elem_of_filter.
      split; [reflexivity|].
      apply PreMarketV3Facts.get_Some_elem. exact Hg. }
  split; [exact Hiff|]. split; [|split].
  - apply (sublist_NoDup _ (PyDict.keys d)); [exact Hnd|].
    unfold PyDict.keys. apply fmap_sublist, sublist_filter.
  - unfold PyDict.keys. apply fmap_sublist, sublist_filter.
  - intros Hno. apply elem_of_nil_inv. intros name Hin.
    apply Hiff in Hin as (tk & l & Hg). apply Hno.
    apply PreMarketV3Facts.get_Some_elem in Hg.
    eapply EntityQueries.companies_placed; eassumption.
Qed.

End Load.

(** The catalog of "Eli Lilly". *)
Lemma catalog_entries_are_indexed_witness :
  catalog_indexed PyStr.ascii_lower Inputs.lilly
                  (tbl (Inputs.matcher_of Inputs.lilly)).
Proof.
  apply (catalog_entries_are_indexed PyStr.ascii_lower Inputs.lilly
           (Inputs.matcher_of Inputs.lilly)).
  vm_compute. reflexivity.
Defined.

(** The industry "healthcare" of the catalog of "Eli Lilly". *)
Lemma entities_by_industry_are_companies_witness :
  let mt := Inputs.matcher_of Inputs.lilly in
  let industry := PyStr.u "healthcare" in
  (forall name,
      name ∈ get_entities_by_industry mt industry
      <-> exists tk l,
            get_entity_info mt name = Some (CompanyInfo industry tk l))
  /\ NoDup (get_entities_by_industry mt industry)
  /\ get_entities_by_industry mt industry `sublist_of` get_all_entities mt
  /\ (industry ∉ industries (tbl mt) ->
      get_entities_by_industry mt industry = []).
Proof.
  apply (entities_by_industry_are_companies PyStr.ascii_lower
           Inputs.lilly (Inputs.matcher_of Inputs.lilly)
           (PyStr.u "healthcare")).
  vm_compute. reflexivity.
Defined.

End MatcherQueriesFacts.

(** * Pages as blocks *)

Module NotionBlocksFacts.
Import NotionBlocks.

(** Evaluates the comparisons of two literals. *)
Ltac compare_literals :=
  repeat match goal with
         | |- context [bool_decide (PyStr.u ?a = PyStr.u ?b)] =>
           let v := eval vm_compute in
                      (bool_decide (PyStr.u a = PyStr.u b)) in
           change (bool_decide (PyStr.u a = PyStr.u b)) with v
         end.

(** ** The limits *)

Lemma truncated_code_length (c : pystr) : length (truncated_code c) <= 1916.
Proof.
  unfold truncated_code. destruct (Nat.ltb_spec 1900 (length c)) as [H|H].
  - rewrite !length_app, length_take.
    change (length (PyStr.u "... (truncated)")) with 15.
    cbn [length]. lia.
  - lia.
Qed.

Lemma truncated_text_length (t : pystr) : length (truncated_text t) <= 1903.
Proof.
  unfold truncated_text. destruct (Nat.ltb_spec 1900 (length t)) as [H|H].
  - rewrite length_app, length_take.
    change (length (PyStr.u "...")) with 3. lia.
  - lia.
Qed.

Lemma known_language (l : pystr) :
  (if bool_decide (l ∈ languages) then l else PyStr.u "plain text")
  ∈ languages.
Proof.
  destruct (bool_decide (l ∈ languages)) eqn:E.
  - apply bool_decide_eq_true in E. exact E.
  - unfold languages. rewrite !elem_of_cons. auto 10.
Qed.

Lemma scan_lines_limits (lines : list pystr) :
  forall skip,
    Forall within_limits (scan_lines skip lines)
    /\ length (scan_lines skip lines)
       <= length (filter (fun l => PyStr.strip l <> []) lines).
Proof.
  induction lines as [|line rest IH]; intros skip; cbn [scan_lines].
  - split; [constructor|cbn [length]; lia].
  - rewrite filter_cons. destruct skip as [|skip].
    + destruct (PyStr.strip line) as [|c0 s0] eqn:Es; cbn [PyStr.truthy negb].
      * destruct (decide ([] <> [])) as [Hn|_]; [contradiction|].
        apply IH.
      * destruct (decide (c0 :: s0 <> [])) as [_|Hn];
          [|exfalso; apply Hn; discriminate].
        rewrite <- Es. cbv zeta.
        repeat lazymatch goal with
               | |- Forall _ (if ?b then _ else _) /\ _ => destruct b
               end;
          (split;
           [constructor;
            [cbn [within_limits];
             first [exact I
                   |apply truncated_text_length
                   |split; [apply truncated_code_length
                           |first [apply known_language
                                  |unfold languages;
                                   rewrite !elem_of_cons; auto 10]]]
            |apply IH]
           |cbn [length]; apply le_n_S, IH]).
    + split; [apply IH|].
      destruct (decide (PyStr.strip line <> [])); cbn [length];
        [apply Nat.le_le_succ_r|]; apply IH.
Qed.

(** X22: At most 100 blocks are made, and no more than there are lines that
    are not blank; the text of a paragraph has at most 1903
    characters, and the content of a code block at most 1916, with one
    of the six known languages. *)
Theorem blocks_within_limits (markdown : pystr) :
  let blocks := _markdown_to_blocks markdown in
  length blocks <= 100
  /\ length blocks
     <= length (filter (fun l => PyStr.strip l <> [])
                       (split_lines markdown))
  /\ Forall within_limits blocks.
Proof.
  cbv zeta. unfold _markdown_to_blocks.
  destruct (scan_lines_limits (split_lines markdown) 0) as [HF HL].
  rewrite length_take. split; [lia|]. split; [lia|].
  apply Forall_take. exact HF.
Qed.

(** ** Lines *)

Lemma split_lines_no_lf (l : pystr) : 10%N ∉ l -> split_lines l = [l].
Proof.
  induction l as [|c l IH]; cbn [split_lines]; [reflexivity|].
  intros H. apply not_elem_of_cons in H as [Hne H].
  destruct (N.eqb_spec c 10) as [->|_]; [contradiction|].
  rewrite IH by exact H. reflexivity.
Qed.

Lemma split_lines_app (l s : pystr) :
  10%N ∉ l -> split_lines (l ++ 10%N :: s) = l :: split_lines s.
Proof.
  induction l as [|c l IH]; cbn [app split_lines].
  - intros _. rewrite N.eqb_refl. reflexivity.
  - intros H. apply not_elem_of_cons in H as [Hne H].
    destruct (N.eqb_spec c 10) as [->|_]; [contradiction|].
    rewrite IH by exact H. reflexivity.
Qed.

Lemma split_lines_join (ls : list pystr) :
  ls <> [] -> Forall (fun l => 10%N ∉ l) ls ->
  split_lines (join [10%N] ls) = ls.
Proof.
  induction ls as [|l ls IH]; [contradiction|].
  intros _ H. apply Forall_cons in H as [Hl H].
  destruct ls as [|l2 ls]; cbn [join].
  - apply split_lines_no_lf. exact Hl.
  - cbn [app]. rewrite split_lines_app by exact Hl.
    f_equal. apply IH; [discriminate|exact H].
Qed.

Lemma starts_with_drop (p l : pystr) :
  PyStr.starts_with p l = true -> p ++ drop (length p) l = l.
Proof.
  intros H. apply PreMarketAnalyzerFacts.starts_with_app in H as [suf ->].
  rewrite drop_app_length. reflexivity.
Qed.

(** ** Headings *)

Lemma heading_line_truthy (t : pystr) (p : pystr) :
  match p with c :: _ => PyStr.is_space c = false | [] => False end ->
  negb (PyStr.truthy (PyStr.strip (p ++ t))) = false.
Proof.
  destruct p as [|c p]; [contradiction|]. intros Hc. cbn [app].
  destruct (PyStr.strip (c :: p ++ t)) eqn:Es; [|reflexivity].
  exfalso. revert Es. apply ParsingFacts.strip_head_nonspace. exact Hc.
Qed.

(** X23: A heading is passed whole, whatever its length: the limit of 1900
    characters is not applied to it. *)
Theorem headings_are_passed_whole (t : pystr) :
  10%N ∉ t ->
  _markdown_to_blocks (PyStr.u "# " ++ t) = [heading_1 t]
  /\ _markdown_to_blocks (PyStr.u "## " ++ t) = [heading_2 t]
  /\ _markdown_to_blocks (PyStr.u "### " ++ t) = [heading_3 t].
Proof.
  intros Ht. unfold _markdown_to_blocks.
  assert (Hlf : forall p, 10%N ∉ p -> 10%N ∉ p ++ t).
  { intros p Hp Hin. apply elem_of_app in Hin as [Hin|Hin]; auto. }
  assert (Hp : forall s : string,
             bool_decide (10%N ∉ PyStr.u s) = true -> 10%N ∉ PyStr.u s).
  { intros s Hs. apply bool_decide_eq_true in Hs. exact Hs. }
  rewrite !split_lines_no_lf
    by (apply Hlf, Hp; vm_compute; reflexivity).
  cbn [scan_lines].
  rewrite !heading_line_truthy by (vm_compute; reflexivity).
  rewrite ParsingFacts.starts_with_prefix.
  replace (PyStr.starts_with (PyStr.u "# ") (PyStr.u "## " ++ t))
    with false by reflexivity.
  rewrite ParsingFacts.starts_with_prefix.
  replace (PyStr.starts_with (PyStr.u "# ") (PyStr.u "### " ++ t))
    with false by reflexivity.
  replace (PyStr.starts_with (PyStr.u "## ") (PyStr.u "### " ++ t))
    with false by reflexivity.
  rewrite ParsingFacts.starts_with_prefix.
  split; [|split]; reflexivity.
Qed.

(** ** What is read back *)

Lemma content_part_paragraph (c : pystr) :
  content_part (as_listed (paragraph c)) = Some c.
Proof.
  unfold content_part, as_listed. cbn [rich_text block_type concat].
  rewrite app_nil_r. compare_literals. reflexivity.
Qed.

Lemma simple_line_block (l : pystr) (rest : list pystr) :
  simple_line l = true ->
  exists b, scan_lines 0 (l :: rest) = b :: scan_lines 0 rest
            /\ content_part (as_listed b) = Some l.
Proof.
  unfold simple_line. intros H.
  repeat match type of H with
         | _ && _ = true => apply andb_prop in H as [H ?]
         end.
  repeat match goal with
         | H : bool_decide _ = true |- _ => apply bool_decide_eq_true in H
         | H : negb _ = true |- _ => apply negb_true_iff in H
         | H : (_ <=? _) = true |- _ => apply Nat.leb_le in H
         end.
  cbn [scan_lines].
  match goal with Hs : PyStr.strip l = l |- _ => rewrite !Hs end.
  match goal with Hf : is_fence l = false |- _ => rewrite Hf end.
  match goal with Hf : is_table l = false |- _ => rewrite Hf end.
  rewrite H. cbn [negb].
  destruct (PyStr.starts_with (PyStr.u "# ") l) eqn:E1.
  { eexists. split; [reflexivity|].
    unfold content_part, as_listed. cbn [rich_text block_type concat].
    rewrite app_nil_r. compare_literals. cbv iota. f_equal.
    apply (starts_with_drop (PyStr.u "# ")). exact E1. }
  destruct (PyStr.starts_with (PyStr.u "## ") l) eqn:E2.
  { eexists. split; [reflexivity|].
    unfold content_part, as_listed. cbn [rich_text block_type concat].
    rewrite app_nil_r. compare_literals. cbv iota. f_equal.
    apply (starts_with_drop (PyStr.u "## ")). exact E2. }
  destruct (PyStr.starts_with (PyStr.u "### ") l) eqn:E3.
  { eexists. split; [reflexivity|].
    unfold content_part, as_listed. cbn [rich_text block_type concat].
    rewrite app_nil_r. compare_literals. cbv iota. f_equal.
    apply (starts_with_drop (PyStr.u "### ")). exact E3. }
  destruct (bool_decide (l = PyStr.u "---")) eqn:E4.
  { apply bool_decide_eq_true in E4. eexists.
    split; [reflexivity|]. rewrite E4. reflexivity. }
  destruct (PyStr.starts_with (PyStr.u "- ") l) eqn:E5.
  { eexists. split; [reflexivity|].
    unfold content_part, as_listed. cbn [rich_text block_type concat].
    rewrite app_nil_r. compare_literals. cbv iota. f_equal.
    apply (starts_with_drop (PyStr.u "- ")). exact E5. }
  destruct (PyStr.starts_with (PyStr.u "> ") l) eqn:E6.
  { eexists. split; [reflexivity|].
    unfold content_part, as_listed. cbn [rich_text block_type concat].
    rewrite app_nil_r. compare_literals. cbv iota. f_equal.
    apply (starts_with_drop (PyStr.u "> ")). exact E6. }
  eexists. split; [reflexivity|].
  rewrite content_part_paragraph. f_equal.
  unfold truncated_text.
  destruct (Nat.ltb_spec 1900 (length l)); [lia|reflexivity].
Qed.

Lemma simple_lines_read_back (ls : list pystr) :
  forallb simple_line ls = true ->
  omap content_part (map as_listed (scan_lines 0 ls)) = ls.
Proof.
  induction ls as [|l ls IH]; [reflexivity|].
  cbn [forallb]. intros H. apply andb_prop in H as [Hl H].
  destruct (simple_line_block l ls Hl) as (b & -> & Hb).
  cbn [map omap list_omap]. rewrite Hb. f_equal. apply IH. exact H.
Qed.

Lemma simple_line_no_lf (l : pystr) : simple_line l = true -> 10%N ∉ l.
Proof.
  unfold simple_line. intros H.
  repeat match type of H with
         | _ && _ = true => apply andb_prop in H as [H ?]
         end.
  match goal with
  | H : bool_decide (10%N ∉ l) = true |- _ =>
    apply bool_decide_eq_true in H; exact H
  end.
Qed.

(** X24: A page of at most 100 simple lines is read back line for line,
    with a blank line between two lines, from a store that lists the
    blocks as they were sent. *)
Theorem simple_page_is_read_back (ls : list pystr) :
  forallb simple_line ls = true ->
  length ls <= 100 ->
  get_page_content
    (Ok (map as_listed (_markdown_to_blocks (join [10%N] ls))))
  = join [10%N; 10%N] ls.
Proof.
  intros Hs Hlen. unfold _markdown_to_blocks, get_page_content.
  destruct ls as [|l0 ls'] eqn:El; [reflexivity|]. rewrite <- El in *.
  rewrite split_lines_join.
  - rewrite take_ge.
    + rewrite simple_lines_read_back by exact Hs. reflexivity.
    + destruct (scan_lines_limits ls 0) as [_ HL].
      pose proof (length_filter (fun l => PyStr.strip l <> []) ls). lia.
  - rewrite El. discriminate.
  - apply Forall_forall. intros l Hl. apply simple_line_no_lf.
    rewrite forallb_forall in Hs. apply Hs.
    apply list_elem_of_In. exact Hl.
Qed.

(** The heading "Title". *)
Lemma headings_are_passed_whole_witness :
  _markdown_to_blocks (PyStr.u "# " ++ PyStr.u "Title")
  = [heading_1 (PyStr.u "Title")]
  /\ _markdown_to_blocks (PyStr.u "## " ++ PyStr.u "Title")
     = [heading_2 (PyStr.u "Title")]
  /\ _markdown_to_blocks (PyStr.u "### " ++ PyStr.u "Title")
     = [heading_3 (PyStr.u "Title")].
Proof.
  apply (headings_are_passed_whole (PyStr.u "Title")).
  apply (bool_decide_unpack _). vm_compute. exact I.
Defined.

(** A page with a heading, a list item and a paragraph. *)
Lemma simple_page_is_read_back_witness :
  let ls := [PyStr.u "## Market"; PyStr.u "- NVDA up 3%";
             PyStr.u "Quiet session."] in
  get_page_content
    (Ok (map as_listed (_markdown_to_blocks (join [10%N] ls))))
  = join [10%N; 10%N] ls.
Proof.
  apply (simple_page_is_read_back
           [PyStr.u "## Market"; PyStr.u "- NVDA up 3%";
            PyStr.u "Quiet session."]).
  - vm_compute. reflexivity.
  - cbn [length]. lia.
Defined.

End NotionBlocksFacts.

(** * The universe *)

Module UniverseCollectorFacts.
Import PreMarketV3 UniverseCollector.

Local Abbreviation get_Some_elem := PreMarketV3Facts.get_Some_elem.
Local Abbreviation setitem_elem := PreMarketV3Facts.setitem_elem.

Lemma setdefault_elem {V} (d : list (pystr * V)) (k : pystr) (v : V)
      (kv : pystr * V) :
  kv ∈ setdefault d k v -> kv = (k, v) \/ kv ∈ d.
Proof.
  unfold setdefault. destruct (PyDict.get d k); [auto|].
  apply setitem_elem.
Qed.

Lemma setdefault_NoDup {V} (d : list (pystr * V)) (k : pystr) (v : V) :
  NoDup (PyDict.keys d) -> NoDup (PyDict.keys (setdefault d k v)).
Proof.
  unfold setdefault. destruct (PyDict.get d k); [auto|].
  apply RankingFacts.setitem_NoDup.
Qed.

Lemma fold_left_keeps {A S} (step : S -> A -> S) (P : S -> Prop)
      (Q : A -> Prop) :
  (forall s x, P s -> Q x -> P (step s x)) ->
  forall xs s, P s -> Forall Q xs -> P (fold_left step xs s).
Proof.
  intros Hstep. induction xs as [|x xs IH]; intros s Hs Hq;
    cbn [fold_left]; [exact Hs|].
  apply Forall_cons in Hq as [Hx Hq]. apply IH; [|exact Hq].
  apply Hstep; assumption.
Qed.

Section Universe.
Variable lower upper : pystr -> pystr.
Variable is_word : N -> bool.
Variable api_key : option pystr.
Variable UNIVERSE_INCLUDE_SP500 : bool.
Variable UNIVERSE_ETF_HOLDINGS : list pystr.
Variable _fetch_sp500 : list item.
Variable _fetch_etf_holdings : pystr -> list item.

Local Abbreviation universe :=
  (fst (get_universe lower upper is_word api_key UNIVERSE_INCLUDE_SP500
                     UNIVERSE_ETF_HOLDINGS _fetch_sp500
                     _fetch_etf_holdings)).

(** The symbols: one entry for a symbol, none for the empty one. *)
Local Abbreviation symbols_ok :=
  (fun d : list (pystr * pystr) =>
     NoDup (PyDict.keys d) /\ forall k v, (k, v) ∈ d -> k <> []).

Lemma symbols_ok_setdefault d k v :
  symbols_ok d -> PyStr.truthy k = true -> symbols_ok (setdefault d k v).
Proof.
  intros [Hn Hk] Ht. split; [apply setdefault_NoDup; exact Hn|].
  intros k0 v0 Hin. apply setdefault_elem in Hin as [[= -> ->]|Hin];
    [|eauto].
  destruct k; [discriminate|discriminate].
Qed.

Lemma add_constituent_ok d it :
  symbols_ok d -> symbols_ok (add_constituent upper d it).
Proof.
  intros H. unfold add_constituent.
  destruct (PyStr.truthy _) eqn:E; [|exact H].
  apply symbols_ok_setdefault; assumption.
Qed.

Lemma add_holding_ok d it :
  symbols_ok d -> symbols_ok (add_holding upper d it).
Proof.
  intros H. unfold add_holding.
  destruct (PyStr.truthy _) eqn:E; [|exact H].
  apply symbols_ok_setdefault; assumption.
Qed.

(** The names, for the symbols [tn]: one entry for a name, each of at
    least four characters and filed for a symbol of [tn]. *)
Local Abbreviation names_ok :=
  (fun (tn d : list (pystr * pystr)) =>
     NoDup (PyDict.keys d)
     /\ forall n t, (n, t) ∈ d ->
                    4 <= length n
                    /\ exists full, (t, full) ∈ tn /\ full <> []
                                    /\ filed_as lower is_word full n).

Lemma add_names_ok tn d entry :
  names_ok tn d -> entry ∈ tn ->
  names_ok tn (add_names lower is_word d entry).
Proof.
  intros Hd Hin. destruct entry as [sym full]. unfold add_names.
  destruct (PyStr.truthy full) eqn:Ef; cbn [negb]; [|exact Hd].
  assert (Hfull : full <> []) by (intros ->; discriminate).
  assert (Hstep : forall d0 n,
             names_ok tn d0 -> 4 <= length n ->
             filed_as lower is_word full n ->
             names_ok tn (setdefault d0 n sym)).
  { intros d0 n [Hn Hall] Hlen Hf.
    split; [apply setdefault_NoDup; exact Hn|].
    intros n0 t0 H0. apply setdefault_elem in H0 as [[= -> ->]|H0];
      [|eauto].
    split; [exact Hlen|]. exists full. auto. }
  set (d1 := if 4 <=? length (PyStr.strip (lower full)) then _ else d).
  assert (H1 : names_ok tn d1).
  { subst d1. destruct (Nat.leb_spec 4 (length (PyStr.strip (lower full))));
      [|exact Hd].
    apply Hstep; [exact Hd|assumption|left; reflexivity]. }
  destruct (PyStr.truthy _ && (4 <=? _)) eqn:E; [|exact H1].
  apply andb_prop in E as [_ E]. apply Nat.leb_le in E.
  apply Hstep; [exact H1|exact E|right; reflexivity].
Qed.

Lemma universe_invariants :
  let ud := universe in
  (forall t, t ∈ UniverseData.tickers ud
             <-> t ∈ PyDict.keys (UniverseData.ticker_to_name ud))
  /\ NoDup (PyDict.keys (UniverseData.ticker_to_name ud))
  /\ ([] ∉ UniverseData.tickers ud)
  /\ NoDup (PyDict.keys (UniverseData.name_to_ticker ud))
  /\ forall n t,
       (n, t) ∈ UniverseData.name_to_ticker ud ->
       4 <= length n
       /\ t ∈ UniverseData.tickers ud
       /\ exists full,
            PyDict.get (UniverseData.ticker_to_name ud) t = Some full
            /\ full <> [] /\ filed_as lower is_word full n.
Proof.
  cbv zeta. unfold get_universe.
  destruct (negb (PyStr.truthy (get_or api_key []))).
  { cbn [fst UniverseData.tickers UniverseData.ticker_to_name
         UniverseData.name_to_ticker PyDict.keys map].
    split; [intros t; rewrite elem_of_empty, elem_of_nil; tauto|].
    split; [apply NoDup_nil_2|].
    split; [apply not_elem_of_empty|].
    split; [apply NoDup_nil_2|].
    intros n t H. apply elem_of_nil in H. contradiction. }
  set (t0 := if UNIVERSE_INCLUDE_SP500 then _ else []).
  set (tn := fold_left _ UNIVERSE_ETF_HOLDINGS t0).
  cbn [fst UniverseData.tickers UniverseData.ticker_to_name
       UniverseData.name_to_ticker].
  assert (H0 : symbols_ok t0).
  { subst t0. destruct UNIVERSE_INCLUDE_SP500.
    - apply (fold_left_keeps (add_constituent upper) symbols_ok
               (fun _ => True)).
      + intros s x Hs _. apply add_constituent_ok. exact Hs.
      + split; [apply NoDup_nil_2|].
        intros k v H. apply elem_of_nil in H. contradiction.
      + apply Forall_forall. auto.
    - split; [apply NoDup_nil_2|].
      intros k v H. apply elem_of_nil in H. contradiction. }
  assert (Htn : symbols_ok tn).
  { subst tn.
    apply (fold_left_keeps
             (fun tickers etf =>
                fold_left (add_holding upper) (_fetch_etf_holdings etf)
                          tickers)
             symbols_ok (fun _ => True)).
    - intros s etf Hs _.
      apply (fold_left_keeps (add_holding upper) symbols_ok
               (fun _ => True)).
      + intros s' x Hs' _. apply add_holding_ok. exact Hs'.
      + exact Hs.
      + apply Forall_forall. auto.
    - exact H0.
    - apply Forall_forall. auto. }
  destruct Htn as [Hnd Hne].
  assert (Hnames : names_ok tn (fold_left (add_names lower is_word) tn [])).
  { apply (fold_left_keeps (add_names lower is_word) (names_ok tn)
             (fun e => e ∈ tn)).
    - intros s x Hs Hx. apply add_names_ok; assumption.
    - split; [apply NoDup_nil_2|].
      intros n t H. apply elem_of_nil in H. contradiction.
    - apply Forall_forall. auto. }
  destruct Hnames as [Hnn Hall].
  split; [intros t; apply elem_of_list_to_set|].
  split; [exact Hnd|]. split.
  { intros Hin. apply elem_of_list_to_set in Hin.
    unfold PyDict.keys in Hin.
    apply list_elem_of_fmap in Hin as ([k v] & Hk & Hin).
    cbn [fst] in Hk. subst k. eapply Hne; [exact Hin|reflexivity]. }
  split; [exact Hnn|].
  intros n t Hin. destruct (Hall n t Hin) as (Hlen & full & Hf & Hfull & Hn).
  split; [exact Hlen|]. split.
  - apply elem_of_list_to_set. eapply EntityQueriesFacts.elem_keys.
    exact Hf.
  - exists full. split; [|auto].
    apply RankingFacts.NoDup_get; assumption.
Qed.

(** X25: The universe is consistent: its tickers are the symbols of
    [ticker_to_name], none of them empty and each with one entry;
    [name_to_ticker] has one entry for a name, and each of its names
    has at least four characters and is the lower-case or the
    normalized form of the name that [ticker_to_name] holds for its
    ticker, which is a ticker of the universe. *)
Theorem universe_is_consistent :
  let ud := universe in
  (forall t, t ∈ UniverseData.tickers ud
             <-> t ∈ PyDict.keys (UniverseData.ticker_to_name ud))
  /\ NoDup (PyDict.keys (UniverseData.ticker_to_name ud))
  /\ ([] ∉ UniverseData.tickers ud)
  /\ NoDup (PyDict.keys (UniverseData.name_to_ticker ud))
  /\ forall n t,
       (n, t) ∈ UniverseData.name_to_ticker ud ->
       4 <= length n
       /\ t ∈ UniverseData.tickers ud
       /\ exists full,
            PyDict.get (UniverseData.ticker_to_name ud) t = Some full
            /\ full <> [] /\ filed_as lower is_word full n.
Proof. exact universe_invariants. Qed.

(** X26: With this universe the name lookup of the event-driven candidates
    finds tickers of the universe only: its later check that a matched
    ticker is in the universe rejects nothing. *)
Theorem matched_tickers_are_in_universe (news_item : NewsItem.t) :
  matched_tickers lower is_word news_item universe
  ⊆ UniverseData.tickers universe.
Proof.
  intros t.
  pose proof universe_invariants as (_ & _ & _ & _ & Hnames).
  cbv zeta in Hnames. unfold matched_tickers.
  set (ud := universe) in *.
  set (text := _normalize_text lower _).
  assert (Hfold : forall nts (acc : gset pystr),
             (forall nt, nt ∈ nts -> nt ∈ UniverseData.name_to_ticker ud) ->
             (forall x, x ∈ acc -> x ∈ UniverseData.tickers ud) ->
             t ∈ fold_left
                   (fun matched nt =>
                      if PyStr.truthy (fst nt) && PyStr.contains (fst nt) text
                      then matched ∪ {[ snd nt ]} else matched) nts acc ->
             t ∈ UniverseData.tickers ud).
  { induction nts as [|[n k] nts IH]; intros acc Hsub Hacc;
      cbn [fold_left]; [apply Hacc|].
    apply IH.
    - intros nt Hnt. apply Hsub. apply elem_of_cons. auto.
    - cbn [fst snd].
      destruct (PyStr.truthy n && PyStr.contains n text); [|exact Hacc].
      intros x Hx. apply elem_of_union in Hx as [Hx|Hx]; [auto|].
      apply elem_of_singleton in Hx. subst x.
      apply (Hnames n k). apply Hsub. apply elem_of_cons. auto. }
  apply Hfold; [auto|].
  intros x. unfold _extract_ticker_tokens.
  destruct (negb (PyStr.truthy _));
    [intros H; apply elem_of_empty in H; contradiction|].
  generalize (scan_tokens is_word None (NewsItem.title news_item) 0).
  intros toks.
  assert (Hacc : forall (acc : gset pystr),
             (forall y, y ∈ acc -> y ∈ UniverseData.tickers ud) ->
             x ∈ fold_left
                   (fun tickers token =>
                      if bool_decide (token ∈ UniverseData.tickers ud)
                      then tickers ∪ {[ token ]} else tickers) toks acc ->
             x ∈ UniverseData.tickers ud).
  { induction toks as [|tok toks IH]; intros acc Hacc; cbn [fold_left];
      [apply Hacc|].
    apply IH.
    destruct (bool_decide_reflect (tok ∈ UniverseData.tickers ud))
      as [Hu|Hu]; [|exact Hacc].
    intros y Hy. apply elem_of_union in Hy as [Hy|Hy]; [auto|].
    apply elem_of_singleton in Hy. subst y. exact Hu. }
  apply Hacc. intros y Hy. apply elem_of_empty in Hy. contradiction.
Qed.

End Universe.

End UniverseCollectorFacts.

(** * Duplicates among the news *)

Module NewsCollectorFacts.
Import PreMarketV3 NewsCollector.

Section Duplicates.
Variable lower : pystr -> pystr.
Variable is_word : N -> bool.

Local Abbreviation key :=
  (fun item => normalized_title lower is_word (NewsItem.title item)).
Local Abbreviation appended := (appended lower is_word).
Local Abbreviation _deduplicate := (_deduplicate lower is_word).

Lemma dedup_loop_appended (items : list NewsItem.t) :
  forall seen acc,
    dedup_loop lower is_word items seen acc = acc ++ appended seen items.
Proof.
  induction items as [|item items IH]; intros seen acc;
    cbn [dedup_loop NewsCollector.appended].
  - rewrite app_nil_r. reflexivity.
  - destruct (bool_decide _); rewrite IH; [|reflexivity].
    rewrite <- app_assoc. reflexivity.
Qed.

Lemma appended_sublist (items : list NewsItem.t) :
  forall seen, appended seen items `sublist_of` items.
Proof.
  induction items as [|item items IH]; intros seen;
    cbn [NewsCollector.appended]; [constructor|].
  destruct (bool_decide _); [apply sublist_skip|apply sublist_cons];
    apply IH.
Qed.

Lemma appended_fresh (items : list NewsItem.t) :
  forall seen y, y ∈ appended seen items -> key y ∉ seen.
Proof.
  induction items as [|item items IH]; intros seen y;
    cbn [NewsCollector.appended].
  - intros H. apply elem_of_nil in H. contradiction.
  - destruct (bool_decide_reflect (key item ∉ seen)) as [Hn|Hn];
      [|apply IH].
    intros H. apply elem_of_cons in H as [->|H]; [exact Hn|].
    apply IH in H. intros Hin. apply H. apply elem_of_union. auto.
Qed.

Lemma appended_NoDup (items : list NewsItem.t) :
  forall seen, NoDup (map key (appended seen items)).
Proof.
  induction items as [|item items IH]; intros seen;
    cbn [NewsCollector.appended]; [apply NoDup_nil_2|].
  destruct (bool_decide_reflect (key item ∉ seen)) as [Hn|Hn];
    [|apply IH].
  cbn [map]. apply NoDup_cons. split; [|apply IH].
  intros Hin. apply list_elem_of_fmap in Hin as (y & Hy & Hin).
  apply appended_fresh in Hin. apply Hin. rewrite <- Hy.
  apply elem_of_union. right. apply elem_of_singleton. reflexivity.
Qed.

Lemma appended_covers (items : list NewsItem.t) :
  forall seen x, x ∈ items ->
    key x ∈ seen \/ exists y, y ∈ appended seen items /\ key y = key x.
Proof.
  induction items as [|item items IH]; intros seen x Hx;
    [apply elem_of_nil in Hx; contradiction|].
  cbn [NewsCollector.appended].
  destruct (bool_decide_reflect (key item ∉ seen)) as [Hn|Hn].
  - apply elem_of_cons in Hx as [->|Hx].
    + right. exists item. split; [apply elem_of_cons; auto|reflexivity].
    + destruct (IH (seen ∪ {[ key item ]}) x Hx) as [H|(y & Hy & Hk)].
      * apply elem_of_union in H as [H|H]; [auto|].
        apply elem_of_singleton in H. right. exists item.
        split; [apply elem_of_cons; auto|symmetry; exact H].
      * right. exists y. split; [apply elem_of_cons; auto|exact Hk].
  - apply elem_of_cons in Hx as [->|Hx].
    + left. destruct (decide (key item ∈ seen)); [assumption|].
      contradiction.
    + apply IH. exact Hx.
Qed.

Lemma appended_first (pre : list NewsItem.t) :
  forall seen x post,
    key x ∉ seen -> key x ∉ map key pre ->
    x ∈ appended seen (pre ++ x :: post).
Proof.
  induction pre as [|p pre IH]; intros seen x post Hs Hp;
    cbn [app NewsCollector.appended].
  - rewrite bool_decide_eq_true_2 by exact Hs. apply elem_of_cons. auto.
  - cbn [map] in Hp. apply not_elem_of_cons in Hp as [Hne Hp].
    destruct (bool_decide (key p ∉ seen)).
    + apply elem_of_cons. right. apply IH; [|exact Hp].
      intros H. apply elem_of_union in H as [H|H]; [auto|].
      apply elem_of_singleton in H. auto.
    + apply IH; assumption.
Qed.

Lemma appended_again (items : list NewsItem.t) :
  forall seen, appended seen (appended seen items) = appended seen items.
Proof.
  induction items as [|item items IH]; intros seen;
    cbn [NewsCollector.appended]; [reflexivity|].
  destruct (bool_decide (key item ∉ seen)) eqn:E; [|apply IH].
  cbn [NewsCollector.appended]. rewrite E. f_equal. apply IH.
Qed.

(** X27: The items that are kept are items of the input in their order, no
    two of them with the same normalized title; every item of the
    input has the normalized title of an item that is kept, and the
    first item with a normalized title is kept; removing the
    duplicates a second time changes nothing. *)
Theorem deduplicate_keeps_first_of_each_title (items : list NewsItem.t) :
  let kept := _deduplicate items in
  kept `sublist_of` items
  /\ NoDup (map key kept)
  /\ (forall x, x ∈ items -> exists y, y ∈ kept /\ key y = key x)
  /\ (forall pre x post,
        items = pre ++ x :: post -> key x ∉ map key pre -> x ∈ kept)
  /\ _deduplicate kept = kept.
Proof.
  cbv zeta. unfold NewsCollector._deduplicate.
  rewrite !dedup_loop_appended. cbn [app].
  split; [apply appended_sublist|].
  split; [apply appended_NoDup|]. split; [|split].
  - intros x Hx. destruct (appended_covers items ∅ x Hx) as [H|H];
      [apply elem_of_empty in H; contradiction|exact H].
  - intros pre x post -> Hp. apply appended_first; [|exact Hp].
    apply not_elem_of_empty.
  - apply appended_again.
Qed.

End Duplicates.

End NewsCollectorFacts.

(** * The errors of the construction *)

Module RawCatalogFacts.
Import EntityMatcher RawCatalog.

(** Evaluates the comparisons of two keys. *)
Ltac compare_keys :=
  repeat match goal with
         | |- context [bool_decide (PyStr.u ?a = PyStr.u ?b)] =>
           let v := eval vm_compute in
                      (bool_decide (PyStr.u a = PyStr.u b)) in
           change (bool_decide (PyStr.u a = PyStr.u b)) with v
         end.

(** Runs the statements on a document whose keys are known. *)
Ltac run :=
  repeat (cbn [app field option_map entry is_key get_or abind get
               subscript items iter each map has_name fst snd as_key
               lower_of strings truthy andb forallb];
          compare_keys; cbv iota beta).

Lemma each_lower_strings (l : list pystr) :
  each lower_of (map YStr l) = Done tt.
Proof.
  induction l as [|s l IH]; cbn [map each lower_of abind];
    [reflexivity|exact IH].
Qed.

Lemma listed_outcome (c : company) :
  load_listed (of_company c)
  = if has_name (co_name c) then Done tt else Fails "KeyError".
Proof.
  unfold load_listed, of_company.
  destruct (co_name c) as [n|], (co_ticker c) as [t|],
           (co_aliases c) as [l|]; run;
    try destruct (PyStr.truthy t); run;
    rewrite ?each_lower_strings; reflexivity.
Qed.

Lemma unlisted_outcome (c : company) :
  load_unlisted (of_company c)
  = if has_name (co_name c) then Done tt else Fails "KeyError".
Proof.
  unfold load_unlisted, of_company.
  destruct (co_name c) as [n|], (co_ticker c) as [t|],
           (co_aliases c) as [l|]; run;
    rewrite ?each_lower_strings; reflexivity.
Qed.

Lemma person_outcome (p : person) :
  load_person (of_person p)
  = if has_name (pe_name p) then Done tt else Fails "KeyError".
Proof.
  unfold load_person, of_person.
  destruct (pe_name p) as [n|], (pe_entities p) as [e|],
           (pe_aliases p) as [l|]; run;
    rewrite ?each_lower_strings; reflexivity.
Qed.

Lemma institution_outcome (i : institution) :
  load_institution (of_institution i)
  = if has_name (in_name i) then Done tt else Fails "KeyError".
Proof.
  unfold load_institution, of_institution.
  destruct (in_name i) as [n|], (in_aliases i) as [l|]; run;
    rewrite ?each_lower_strings; reflexivity.
Qed.

(** A loop whose body fails on the entries without a name. *)
Lemma each_named {A B} (f : A -> B) (body : B -> attempt unit)
      (named : A -> bool) (xs : list A) :
  (forall x, body (f x) = if named x then Done tt else Fails "KeyError") ->
  each body (map f xs)
  = if forallb named xs then Done tt else Fails "KeyError".
Proof.
  intros Hbody. induction xs as [|x xs IH]; cbn [map each forallb];
    [reflexivity|].
  rewrite Hbody. destruct (named x); cbn [abind andb];
    [exact IH|reflexivity].
Qed.

Lemma industry_outcome (ic : pystr * categories) :
  load_industry (YStr (fst ic), of_categories (snd ic))
  = if categories_named ic then Done tt else Fails "KeyError".
Proof.
  destruct ic as [industry [lst unl]].
  unfold load_industry, categories_named, of_categories. cbv zeta.
  cbn [snd listed unlisted].
  destruct lst as [l|], unl as [u|]; run;
    try rewrite (each_named of_company load_listed
                (fun c => has_name (co_name c)) _ listed_outcome);
    try destruct (forallb _ l); run;
    try rewrite (each_named of_company load_unlisted
                (fun c => has_name (co_name c)) _ unlisted_outcome);
    reflexivity.
Qed.

(** The document of a catalog is refused exactly when an entry has no
    name, and then with [KeyError]. *)
Lemma document_outcome (data : catalog) :
  RawCatalog._load_entities (of_catalog data)
  = if catalog_named data then Done tt else Fails "KeyError".
Proof.
  destruct data as [ents people insts].
  unfold RawCatalog._load_entities, catalog_named, of_catalog.
  cbn [entities key_people institutions].
  destruct ents as [le|], people as [lp|], insts as [li|]; run;
    try rewrite (each_named
                (fun ic : pystr * categories =>
                   (YStr (fst ic), of_categories (snd ic)))
                load_industry categories_named _ industry_outcome);
    try destruct (forallb categories_named le); run;
    try rewrite (each_named of_person load_person
                (fun p => has_name (pe_name p)) _ person_outcome);
    try destruct (forallb _ lp); run;
    try rewrite (each_named of_institution load_institution
                (fun i => has_name (in_name i)) _ institution_outcome);
    reflexivity.
Qed.

(** ** The classes of the exceptions *)

Lemma builtin_bind {A B} (r : attempt A) (k : A -> attempt B) :
  builtin_outcome r -> (forall a, builtin_outcome (k a)) ->
  builtin_outcome (abind r k).
Proof. destruct r as [a|c]; cbn [abind builtin_outcome]; auto. Qed.

Lemma builtin_each {A} (body : A -> attempt unit) (xs : list A) :
  (forall x, builtin_outcome (body x)) -> builtin_outcome (each body xs).
Proof.
  intros Hb. induction xs as [|x xs IH]; cbn [each]; [exact I|].
  apply builtin_bind; auto.
Qed.

Lemma builtin_get v k dflt : builtin_outcome (get v k dflt).
Proof. destruct v; cbn; unfold builtin_error; auto. Qed.

Lemma builtin_items v : builtin_outcome (items v).
Proof. destruct v; cbn; unfold builtin_error; auto. Qed.

Lemma builtin_subscript v k : builtin_outcome (subscript v k).
Proof.
  destruct v; cbn; unfold builtin_error; auto.
  destruct (entry k entries); cbn; unfold builtin_error; auto.
Qed.

Lemma builtin_iter v : builtin_outcome (iter v).
Proof. destruct v; cbn; unfold builtin_error; auto. Qed.

Lemma builtin_lower v : builtin_outcome (lower_of v).
Proof. destruct v; cbn; unfold builtin_error; auto. Qed.

Lemma builtin_as_key v : builtin_outcome (as_key v).
Proof. destruct v; cbn; unfold builtin_error; auto. Qed.

Ltac builtin_step lem := apply builtin_bind; [apply lem|intros ?].

Lemma builtin_aliases aliases :
  builtin_outcome (aliases <~~ iter aliases ;; each lower_of aliases).
Proof.
  builtin_step builtin_iter. apply builtin_each. apply builtin_lower.
Qed.

Lemma builtin_listed company : builtin_outcome (load_listed company).
Proof.
  unfold load_listed.
  builtin_step builtin_subscript. builtin_step builtin_get.
  builtin_step builtin_get.
  apply builtin_bind.
  - destruct (truthy _); [|exact I].
    builtin_step builtin_as_key. builtin_step builtin_lower.
    apply builtin_lower.
  - intros _. builtin_step builtin_as_key. apply builtin_aliases.
Qed.

Lemma builtin_unlisted company : builtin_outcome (load_unlisted company).
Proof.
  unfold load_unlisted.
  builtin_step builtin_subscript. builtin_step builtin_get.
  builtin_step builtin_as_key. builtin_step builtin_lower.
  apply builtin_aliases.
Qed.

Lemma builtin_industry ic : builtin_outcome (load_industry ic).
Proof.
  unfold load_industry. cbv zeta.
  builtin_step builtin_get. builtin_step builtin_iter.
  apply builtin_bind; [apply builtin_each, builtin_listed|intros _].
  builtin_step builtin_get. builtin_step builtin_iter.
  apply builtin_each, builtin_unlisted.
Qed.

Lemma builtin_person person : builtin_outcome (load_person person).
Proof.
  unfold load_person.
  builtin_step builtin_subscript. builtin_step builtin_get.
  builtin_step builtin_get. builtin_step builtin_lower.
  builtin_step builtin_iter.
  apply builtin_bind; [apply builtin_each, builtin_lower|intros _].
  apply builtin_as_key.
Qed.

Lemma builtin_institution inst : builtin_outcome (load_institution inst).
Proof.
  unfold load_institution.
  builtin_step builtin_subscript. builtin_step builtin_get.
  builtin_step builtin_as_key. builtin_step builtin_lower.
  apply builtin_aliases.
Qed.

Lemma builtin_load (doc : yaml) :
  builtin_outcome (RawCatalog._load_entities doc).
Proof.
  unfold RawCatalog._load_entities.
  builtin_step builtin_get. builtin_step builtin_items.
  apply builtin_bind; [apply builtin_each, builtin_industry|intros _].
  builtin_step builtin_get. builtin_step builtin_iter.
  apply builtin_bind; [apply builtin_each, builtin_person|intros _].
  builtin_step builtin_get. builtin_step builtin_iter.
  apply builtin_each, builtin_institution.
Qed.

Section Load.
Variable lower : pystr -> pystr.

(** C9, as amended: on the document of a catalog (every key that is
    present has a value of the expected type) the construction fails
    exactly when a company, a person or an institution lacks its
    ["name"] key, and then with [KeyError('name')]; so do the
    statements of [_load_entities] on the document. On any document
    they raise nothing but a [KeyError], a [TypeError] or an
    [AttributeError]. *)
Theorem malformed_catalog_raises_builtin_error (data : catalog)
        (doc : yaml) :
  RawCatalog._load_entities (of_catalog data)
  = outcome (EntityMatcher._load_entities lower data)
  /\ (catalog_named data = false ->
      RawCatalog._load_entities (of_catalog data) = Fails "KeyError"
      /\ EntityMatcher._load_entities lower data = Raise (KeyError "name"))
  /\ (catalog_named data = true ->
      RawCatalog._load_entities (of_catalog data) = Done tt
      /\ exists mt, EntityMatcher._load_entities lower data = Ok mt)
  /\ builtin_outcome (RawCatalog._load_entities doc).
Proof.
  destruct (EntityMatcherFacts.nameless_catalog_raises_KeyError lower data)
    as [Hno Hyes].
  pose proof (document_outcome data) as Hdoc.
  split; [|split; [|split; [|apply builtin_load]]].
  - rewrite Hdoc. destruct (catalog_named data).
    + destruct (Hyes eq_refl) as [mt ->]. reflexivity.
    + rewrite (Hno eq_refl). reflexivity.
  - intros E. rewrite E in Hdoc. auto.
  - intros E. rewrite E in Hdoc. auto.
Qed.
End Load.

(** The catalog [Inputs.nameless] is refused with a [KeyError], as is
    its document; the catalog [Inputs.listed_only] is accepted; the
    document with null aliases is refused with a [TypeError]. *)
Lemma malformed_catalog_raises_builtin_error_witness :
  (RawCatalog._load_entities (of_catalog Inputs.nameless) = Fails "KeyError"
   /\ load_ascii Inputs.nameless = Raise (KeyError "name"))
  /\ (RawCatalog._load_entities (of_catalog Inputs.listed_only) = Done tt
      /\ exists mt, load_ascii Inputs.listed_only = Ok mt)
  /\ builtin_outcome (RawCatalog._load_entities null_aliases).
Proof.
  pose proof (malformed_catalog_raises_builtin_error PyStr.ascii_lower
                Inputs.nameless null_aliases) as (_ & H2 & _ & H4).
  pose proof (malformed_catalog_raises_builtin_error PyStr.ascii_lower
                Inputs.listed_only null_aliases) as (_ & _ & H3 & _).
  split; [|split].
  - apply H2. vm_compute. reflexivity.
  - apply H3. vm_compute. reflexivity.
  - exact H4.
Defined.

(** A value of another type makes the construction fail with another
    error: an empty file and a number as the name of a company with a
    ticker with [AttributeError], null aliases with [TypeError]. *)
Lemma mistyped_values_raise_other_errors :
  RawCatalog._load_entities empty_file = Fails "AttributeError"
  /\ RawCatalog._load_entities null_aliases = Fails "TypeError"
  /\ RawCatalog._load_entities number_as_name = Fails "AttributeError".
Proof. repeat split; vm_compute; reflexivity. Qed.

End RawCatalogFacts.

(** * Aliases of one character *)

Module ShortAliasFacts.
Import EntityMatcher MatcherQueries ShortAliases.

Section Short.
Variable lower upper : pystr -> pystr.
Variable ci_eq : N -> N -> bool.
Variable is_word : N -> bool.

Local Abbreviation alias_hits :=
  (EntityMatcher.alias_hits lower ci_eq is_word).
Local Abbreviation find_matches :=
  (EntityMatcher.find_matches lower upper ci_eq is_word).
Local Abbreviation ticker_path := (EntityMatcher.ticker_path upper ci_eq).

Lemma name_list_elem (o : option pystr) (a : pystr) :
  a ∈ name_list o <-> o = Some a.
Proof.
  destruct o as [n|]; cbn [name_list].
  - rewrite elem_of_cons, elem_of_nil. split.
    + intros [->|[]]. reflexivity.
    + intros [= ->]. auto.
  - rewrite elem_of_nil. split; [contradiction|discriminate].
Qed.

Lemma named_aliases_keys (tb : tables) (name : option pystr)
      (aliases : option (list pystr)) (a : pystr) :
  named_indexed lower tb name aliases ->
  a ∈ name_list name ++ get_or aliases [] ->
  lower a ∈ PyDict.keys (alias_to_entity tb).
Proof.
  intros (n & -> & _ & Ha) Hin. apply Ha. cbn [name_list app] in Hin.
  exact Hin.
Qed.

(** Every registered alias is, in lower case, a key of
    [alias_to_entity]. *)
Lemma registered_aliases_keys (data : catalog) (tb : tables) (a : pystr) :
  catalog_indexed lower data tb ->
  a ∈ registered_aliases data ->
  lower a ∈ PyDict.keys (alias_to_entity tb).
Proof.
  intros (Hent & Hpeople & Hinst). unfold registered_aliases.
  rewrite !elem_of_app. intros [H|[H|H]].
  - apply list_elem_of_In, in_flat_map in H as (ic & Hic & H).
    apply list_elem_of_In in Hic, H.
    destruct (Hent ic Hic) as (_ & Hl & Hu).
    unfold industry_aliases in H. apply elem_of_app in H as [H|H].
    + apply list_elem_of_In, in_flat_map in H as (c & Hc & H).
      apply list_elem_of_In in Hc, H.
      destruct (Hl c Hc) as (n & _ & _ & Ha & _). apply Ha. exact H.
    + apply list_elem_of_In, in_flat_map in H as (c & Hc & H).
      apply list_elem_of_In in Hc, H.
      eapply named_aliases_keys; [apply Hu; exact Hc|exact H].
  - apply list_elem_of_In, in_flat_map in H as (p & Hp & H).
    apply list_elem_of_In in Hp, H.
    eapply named_aliases_keys; [apply Hpeople; exact Hp|exact H].
  - apply list_elem_of_In, in_flat_map in H as (i & Hi & H).
    apply list_elem_of_In in Hi, H.
    eapply named_aliases_keys; [apply Hinst; exact Hi|exact H].
Qed.

(** C10, as amended: a registered alias reaches the compiled entity
    pattern exactly when its lower-case form has at least two
    characters; every alias match has at least two characters, and
    every ticker, entity and industry that [find_matches] reports comes
    from the ticker pattern or from such a match; where lower-casing
    keeps the length of the matched text, the key that is looked up
    for a match is not that of an alias whose lower-case form is
    shorter. *)
Theorem short_lowered_aliases_never_match (data : catalog) (mt : matcher)
        (text : pystr) :
  _load_entities lower data = Ok mt ->
  let hits := alias_hits mt text in
  let r := find_matches mt text in
  let tp := ticker_path mt text in
  (forall a, a ∈ registered_aliases data ->
     (lower a ∈ pattern_aliases (tbl mt) <-> 2 <= length (lower a)))
  /\ (forall alts, entity_pattern mt = Some alts ->
        alts = map alt_of_alias (pattern_aliases (tbl mt)))
  /\ (forall alts a, entity_pattern mt = Some alts -> a ∈ alts ->
                     2 <= length (alt_lit a))
  /\ Forall (fun h => 2 <= length (snd h)) hits
  /\ (forall e, e ∈ m_entities r ->
        e ∈ m_entities tp
        \/ exists h, h ∈ hits /\ 2 <= length (snd h)
             /\ PyDict.get (alias_to_entity (tbl mt)) (lower (snd h))
                = Some e)
  /\ (forall t, t ∈ m_tickers r ->
        t ∈ m_tickers tp
        \/ exists h, h ∈ hits /\ 2 <= length (snd h)
             /\ PyDict.get (alias_to_ticker (tbl mt)) (lower (snd h))
                = Some t)
  /\ (forall i, i ∈ m_industries r ->
        i ∈ m_industries tp
        \/ exists h e tk l, h ∈ hits /\ 2 <= length (snd h)
             /\ PyDict.get (alias_to_entity (tbl mt)) (lower (snd h))
                = Some e
             /\ PyDict.get (entity_to_info (tbl mt)) e
                = Some (CompanyInfo i tk l))
  /\ (forall h a, h ∈ hits ->
        length (lower (snd h)) = length (snd h) ->
        length (lower a) < 2 ->
        lower (snd h) <> lower a).
Proof.
  intros Hload. cbv zeta.
  split; [|split].
  - intros a Ha.
    assert (Hkey : lower a ∈ PyDict.keys (alias_to_entity (tbl mt))).
    { revert Hload. unfold _load_entities.
      destruct (load_tables lower data) as [tb|e] eqn:E; cbn [rbind];
        [|discriminate].
      intros [= <-]. cbn [_build_patterns tbl].
      eapply registered_aliases_keys; [|exact Ha].
      apply MatcherQueriesFacts.load_tables_indexed. exact E. }
    rewrite EntityMatcherFacts.pattern_aliases_elem. tauto.
  - intros alts Hp. apply EntityMatcherFacts.load_matcher in Hload.
    rewrite Hload in Hp. unfold _build_patterns in Hp.
    cbn [entity_pattern] in Hp.
    rewrite EntityMatcherFacts.entity_alts_eq in Hp.
    destruct (map alt_of_alias (pattern_aliases (tbl mt)));
      [discriminate|]. injection Hp as <-. reflexivity.
  - pose proof (EntityMatcherFacts.alias_matches_have_two_characters
                  lower upper ci_eq is_word data mt text Hload) as H.
    cbv zeta in H. destruct H as (Halts & Hhits & He & Ht & Hi).
    split; [exact Halts|]. split; [exact Hhits|].
    split; [exact He|]. split; [exact Ht|]. split; [exact Hi|].
    intros h a Hh Hlen Ha Heq. rewrite Forall_forall in Hhits.
    specialize (Hhits h Hh). cbv beta in Hhits.
    rewrite <- Heq, Hlen in Ha. lia.
Qed.
End Short.

(** On the catalog [Inputs.one_letter] the alias "X" does not reach the
    pattern, and the text "X" yields nothing. *)
Lemma short_lowered_aliases_never_match_witness :
  let mt := Inputs.matcher_of Inputs.one_letter in
  let text := PyStr.u "X" in
  (PyStr.ascii_lower (PyStr.u "X") ∈ pattern_aliases (tbl mt)
   <-> 2 <= length (PyStr.ascii_lower (PyStr.u "X")))
  /\ Forall (fun h => 2 <= length (snd h)) (alias_hits_ascii mt text)
  /\ elements (m_entities (find_ascii mt text)) = [].
Proof.
  pose proof (short_lowered_aliases_never_match
                PyStr.ascii_lower PyStr.ascii_upper PyStr.ascii_ci_eq
                PyStr.ascii_cjk_word Inputs.one_letter
                (Inputs.matcher_of Inputs.one_letter) (PyStr.u "X"))
    as H.
  destruct H as (H1 & _ & _ & H2 & _); [vm_compute; reflexivity|].
  split; [|split].
  - apply H1. EntityMatcherFacts.in_list.
  - exact H2.
  - vm_compute. reflexivity.
Defined.

(** C10, as stated, fails where lower-casing lengthens a string: the
    catalog [ShortAliases.isbank] registers the alias "İ" of one character,
    whose lower-case form has two; it reaches the pattern, and the text
    "İx" reports the entity and the industry of the alias. *)
Lemma one_character_alias_matches_when_lower_lengthens :
  let mt := isbank_matcher in
  let text := PyStr.u "İx" in
  let find :=
    find_matches dotted_lower PyStr.ascii_upper PyStr.ascii_ci_eq
                 PyStr.ascii_cjk_word in
  _load_entities dotted_lower isbank = Ok mt
  /\ PyStr.u "İ" ∈ registered_aliases isbank
  /\ length (PyStr.u "İ") = 1
  /\ dotted_lower (PyStr.u "İ") = [105%N; 775%N]
  /\ dotted_lower (PyStr.u "İ") ∈ pattern_aliases (tbl mt)
  /\ alias_hits dotted_lower PyStr.ascii_ci_eq PyStr.ascii_cjk_word mt text
     = [(0, [105%N; 775%N])]
  /\ elements (m_entities (find mt text)) = [PyStr.u "Isbank"]
  /\ elements (m_industries (find mt text)) = [PyStr.u "banks"].
Proof.
  cbv zeta. repeat split; try (vm_compute; reflexivity);
    EntityMatcherFacts.in_list.
Qed.

End ShortAliasFacts.
